(** * facebook_scraper.api: the POST /posts validation and collection pipeline

    A shallow embedding of [src/facebook_scraper/api.py]: the WSGI
    application [app], its request validation ([_extract_target],
    [_extract_request_kwargs], [_coerce_int], [_load_json_body]), the
    bounded collector [_collect_posts] and the response writers.

    Python values that come out of [json.loads] are modelled by the
    inductive type [json], the objects the scraping capability produces by
    [pyvalue]; exceptions by [exn]; code that can raise by the
    error monad [outcome]; code that also talks to the outside world (the
    request body stream, the scraping capability [get_posts], the logger)
    by the monad [M], which records every such interaction in a trace. *)

From Stdlib Require Import ZArith String Ascii List Lia Bool.
From Stdlib Require Import Floats.SpecFloat DecimalString.
From Stdlib Require DecimalZ DecimalPos.
From stdpp Require Import base option list strings gmap.

Set Warnings "-register-all".

Open Scope Z_scope.
Open Scope string_scope.

(** ** JSON values as Python sees them *)

(** The values [json.loads] can return.  Python's [int] is unbounded, so
    [JInt] carries a [Z]; a [float] is an IEEE-754 double, carried by the
    Standard Library's [spec_float] (zero, infinity, nan or
    [(-1)^s * m * 2^e]); a [dict] keeps insertion order, so [JObj] is an
    association list read by first match. *)
Inductive json : Type :=
  | JNull
  | JBool (b : bool)
  | JInt (z : Z)
  | JFloat (f : spec_float)
  | JStr (s : string)
  | JList (l : list json)
  | JObj (kvs : list (string * json)).

(** A Python [dict] with [str] keys, as held by [JObj]. *)
Abbreviation pydict := (list (string * json)).

(** [key in d] *)
Fixpoint dict_mem (d : pydict) (key : string) : bool :=
  match d with
  | [] => false
  | (k, _) :: d' => if String.eqb k key then true else dict_mem d' key
  end.

(** [d[key]] where the key is known to be there, [None] standing for
    [KeyError]. *)
Fixpoint dict_lookup (d : pydict) (key : string) : option json :=
  match d with
  | [] => None
  | (k, v) :: d' => if String.eqb k key then Some v else dict_lookup d' key
  end.

(** [d.get(key, default)] *)
Definition dict_get_default (d : pydict) (key : string) (default : json) : json :=
  match dict_lookup d key with
  | Some v => v
  | None => default
  end.

(** [d.get(key)]: the default is [None]. *)
Definition dict_get (d : pydict) (key : string) : json :=
  dict_get_default d key JNull.

(** [isinstance(v, bool)], [isinstance(v, list)], [isinstance(v, dict)],
    [isinstance(v, (dict, str))] and [v is not None]. *)
Definition isinstance_bool (v : json) : bool :=
  match v with JBool _ => true | _ => false end.
Definition isinstance_list (v : json) : bool :=
  match v with JList _ => true | _ => false end.
Definition isinstance_dict (v : json) : bool :=
  match v with JObj _ => true | _ => false end.
Definition isinstance_dict_or_str (v : json) : bool :=
  match v with JObj _ | JStr _ => true | _ => false end.
Definition is_not_None (v : json) : bool :=
  match v with JNull => false | _ => true end.

(** [bool(v)]: Python truthiness of a JSON value.  Every float other than
    the two zeros is true, nan included. *)
Definition py_bool (v : json) : bool :=
  match v with
  | JNull => false
  | JBool b => b
  | JInt z => negb (Z.eqb z 0)
  | JFloat (S754_zero _) => false
  | JFloat _ => true
  | JStr s => negb (String.eqb s "")
  | JList l => match l with [] => false | _ => true end
  | JObj kvs => match kvs with [] => false | _ => true end
  end.

(** [v in (None, "", [])]: membership in a tuple compares with [==], and
    among JSON values only [None] equals [None], only the empty [str]
    equals [""], and only the empty [list] equals [[]]. *)
Definition in_None_empty_str_empty_list (v : json) : bool :=
  match v with
  | JNull => true
  | JStr s => String.eqb s ""
  | JList l => match l with [] => true | _ => false end
  | _ => false
  end.

(** [str(n)] for an [int]. *)
Definition py_str_int (n : Z) : string :=
  NilZero.string_of_int (Z.to_int n).

(** ** [int(v)] *)

(** What [int(v)] does: it returns, or raises one of three exceptions. *)
Inductive int_result : Type :=
  | IntOk (n : Z)
  | IntTypeError
  | IntValueError
  | IntOverflowError.

(** [int(f)] for a float: truncation towards zero; [ValueError] on nan,
    [OverflowError] on an infinity. *)
Definition int_of_float (f : spec_float) : int_result :=
  match f with
  | S754_zero _ => IntOk 0
  | S754_infinity _ => IntOverflowError
  | S754_nan => IntValueError
  | S754_finite s m e =>
      let magnitude :=
        if Z.leb 0 e then Z.shiftl (Z.pos m) e else Z.shiftr (Z.pos m) (- e) in
      IntOk (if s then - magnitude else magnitude)
  end.

(** ** Exceptions *)

(** The exceptions the module distinguishes: its own [APIError], the
    scraper's [exceptions.InvalidCookies] (carrying [str(exc)]), and any
    other [Exception], named by its class.  [BaseException] is an
    exception that is no [Exception] (KeyboardInterrupt, SystemExit,
    GeneratorExit): [except Exception] does not catch it. *)
Inductive exn : Type :=
  | APIError (status_code : Z) (detail : string)
  | InvalidCookies (message : string)
  | OtherException (class_name : string) (message : string)
  | BaseException (class_name : string) (message : string).

(** A computation that returns or raises. *)
Inductive outcome (A : Type) : Type :=
  | Ret (a : A)
  | Raise (e : exn).
Arguments Ret {A} a.
Arguments Raise {A} e.

Global Instance outcome_ret : MRet outcome := fun A a => Ret a.
Global Instance outcome_bind : MBind outcome := fun A B f m =>
  match m with
  | Ret a => f a
  | Raise e => Raise e
  end.

(** ** Objects of the capability *)

(** The objects the scraping capability hands over.  A post is a
    [Dict[str, Any]]: a dictionary with [str] keys that, besides what JSON
    has, can hold an object of any other type (a [datetime], a [set],
    [bytes]), which [PyObject] carries by the name of its type. *)
Inductive pyvalue : Type :=
  | PyNone
  | PyBool (b : bool)
  | PyInt (z : Z)
  | PyFloat (f : spec_float)
  | PyStr (s : string)
  | PyList (l : list pyvalue)
  | PyDict (kvs : list (string * pyvalue))
  | PyObject (type_name : string).

(** A value of [json.loads], as an object. *)
Fixpoint of_json (v : json) : pyvalue :=
  match v with
  | JNull => PyNone
  | JBool b => PyBool b
  | JInt z => PyInt z
  | JFloat f => PyFloat f
  | JStr s => PyStr s
  | JList l => PyList (List.map of_json l)
  | JObj kvs => PyDict (List.map (fun kv => (fst kv, of_json (snd kv))) kvs)
  end.

Definition NOT_SERIALIZABLE (type_name : string) : exn :=
  OtherException "TypeError"
    ("Object of type " ++ type_name ++ " is not JSON serializable").

(** The walk of [json.dumps] over an object: the JSON value it writes, or
    the [TypeError] it raises at the first object, in the order of the
    walk, that is of no type JSON has. *)
Fixpoint to_json (v : pyvalue) : outcome json :=
  match v with
  | PyNone => Ret JNull
  | PyBool b => Ret (JBool b)
  | PyInt z => Ret (JInt z)
  | PyFloat f => Ret (JFloat f)
  | PyStr s => Ret (JStr s)
  | PyList l =>
      match (fix items (l : list pyvalue) : outcome (list json) :=
               match l with
               | [] => Ret []
               | x :: l' =>
                   match to_json x with
                   | Raise e => Raise e
                   | Ret x' =>
                       match items l' with
                       | Raise e => Raise e
                       | Ret l'' => Ret (x' :: l'')
                       end
                   end
               end) l with
      | Raise e => Raise e
      | Ret l' => Ret (JList l')
      end
  | PyDict kvs =>
      match (fix items (kvs : list (string * pyvalue))
               : outcome (list (string * json)) :=
               match kvs with
               | [] => Ret []
               | (k, x) :: kvs' =>
                   match to_json x with
                   | Raise e => Raise e
                   | Ret x' =>
                       match items kvs' with
                       | Raise e => Raise e
                       | Ret kvs'' => Ret ((k, x') :: kvs'')
                       end
                   end
               end) kvs with
      | Raise e => Raise e
      | Ret kvs' => Ret (JObj kvs')
      end
  | PyObject type_name => Raise (NOT_SERIALIZABLE type_name)
  end.

(** The walk over the items of a list. *)
Fixpoint to_json_list (l : list pyvalue) : outcome (list json) :=
  match l with
  | [] => Ret []
  | x :: l' =>
      match to_json x with
      | Raise e => Raise e
      | Ret x' =>
          match to_json_list l' with
          | Raise e => Raise e
          | Ret l'' => Ret (x' :: l'')
          end
      end
  end.

(** ** HTTP statuses *)

(** Python's [http.HTTPStatus]: an enumeration whose members carry a
    [value] and a [phrase].  The table is CPython 3.11's; the members this
    module names (200, 204, 400, 401, 404, 415, 502) have the same value
    and phrase in every Python 3 release. *)
Module HTTPStatus.

Record t : Type := Build_t { value : Z; phrase : string }.

Definition members : list t := [
    Build_t 100 "Continue";
    Build_t 101 "Switching Protocols";
    Build_t 102 "Processing";
    Build_t 103 "Early Hints";
    Build_t 200 "OK";
    Build_t 201 "Created";
    Build_t 202 "Accepted";
    Build_t 203 "Non-Authoritative Information";
    Build_t 204 "No Content";
    Build_t 205 "Reset Content";
    Build_t 206 "Partial Content";
    Build_t 207 "Multi-Status";
    Build_t 208 "Already Reported";
    Build_t 226 "IM Used";
    Build_t 300 "Multiple Choices";
    Build_t 301 "Moved Permanently";
    Build_t 302 "Found";
    Build_t 303 "See Other";
    Build_t 304 "Not Modified";
    Build_t 305 "Use Proxy";
    Build_t 307 "Temporary Redirect";
    Build_t 308 "Permanent Redirect";
    Build_t 400 "Bad Request";
    Build_t 401 "Unauthorized";
    Build_t 402 "Payment Required";
    Build_t 403 "Forbidden";
    Build_t 404 "Not Found";
    Build_t 405 "Method Not Allowed";
    Build_t 406 "Not Acceptable";
    Build_t 407 "Proxy Authentication Required";
    Build_t 408 "Request Timeout";
    Build_t 409 "Conflict";
    Build_t 410 "Gone";
    Build_t 411 "Length Required";
    Build_t 412 "Precondition Failed";
    Build_t 413 "Request Entity Too Large";
    Build_t 414 "Request-URI Too Long";
    Build_t 415 "Unsupported Media Type";
    Build_t 416 "Requested Range Not Satisfiable";
    Build_t 417 "Expectation Failed";
    Build_t 418 "I'm a Teapot";
    Build_t 421 "Misdirected Request";
    Build_t 422 "Unprocessable Entity";
    Build_t 423 "Locked";
    Build_t 424 "Failed Dependency";
    Build_t 425 "Too Early";
    Build_t 426 "Upgrade Required";
    Build_t 428 "Precondition Required";
    Build_t 429 "Too Many Requests";
    Build_t 431 "Request Header Fields Too Large";
    Build_t 451 "Unavailable For Legal Reasons";
    Build_t 500 "Internal Server Error";
    Build_t 501 "Not Implemented";
    Build_t 502 "Bad Gateway";
    Build_t 503 "Service Unavailable";
    Build_t 504 "Gateway Timeout";
    Build_t 505 "HTTP Version Not Supported";
    Build_t 506 "Variant Also Negotiates";
    Build_t 507 "Insufficient Storage";
    Build_t 508 "Loop Detected";
    Build_t 510 "Not Extended";
    Build_t 511 "Network Authentication Required"].

(** [HTTPStatus(code)]: the member with that value, [None] for the
    [ValueError] raised when there is none. *)
Definition of_value (code : Z) : option t :=
  List.find (fun st => Z.eqb (value st) code) members.

Definition OK : t := Build_t 200 "OK".
Definition NO_CONTENT : t := Build_t 204 "No Content".
Definition UNAUTHORIZED : t := Build_t 401 "Unauthorized".
Definition NOT_FOUND : t := Build_t 404 "Not Found".
Definition UNSUPPORTED_MEDIA_TYPE : t := Build_t 415 "Unsupported Media Type".
Definition BAD_GATEWAY : t := Build_t 502 "Bad Gateway".

End HTTPStatus.

(** ** Module constants *)

Definition DEFAULT_LIMIT : Z := 10.
Definition MAX_LIMIT : Z := 100.

(** The double quote and the newline, for the text of [SWAGGER_HTML]. *)
Definition DQ : string := String (ascii_of_nat 34) EmptyString.
Definition NL : string := String (ascii_of_nat 10) EmptyString.

Definition OPENAPI_SPEC : json :=
  JObj [
    ("openapi", JStr "3.0.3");
    ("info", JObj [
      ("title", JStr "Facebook Scraper API");
      ("version", JStr "1.0.0");
      ("description", JStr "Expose the existing scraping helpers over HTTP so they can be invoked from hosted environments such as Railway.")]);
    ("paths", JObj [
      ("/health", JObj [
        ("get", JObj [
          ("summary", JStr "Health check");
          ("responses", JObj [
            ("200", JObj [
              ("description", JStr "API is ready");
              ("content", JObj [
                ("application/json", JObj [
                  ("schema", JObj [
                    ("type", JStr "object");
                    ("properties", JObj [
                      ("status", JObj [
                        ("type", JStr "string")])]);
                    ("required", JList [JStr "status"])])])])])])])]);
      ("/posts", JObj [
        ("post", JObj [
          ("summary", JStr "Scrape posts from Facebook");
          ("requestBody", JObj [
            ("required", JBool true);
            ("content", JObj [
              ("application/json", JObj [
                ("schema", JObj [
                  ("$ref", JStr "#/components/schemas/ScrapePostsRequest")])])])]);
          ("responses", JObj [
            ("200", JObj [
              ("description", JStr "Scraped posts");
              ("content", JObj [
                ("application/json", JObj [
                  ("schema", JObj [
                    ("$ref", JStr "#/components/schemas/ScrapePostsResponse")])])])]);
            ("400", JObj [
              ("description", JStr "Invalid payload")]);
            ("401", JObj [
              ("description", JStr "Invalid cookies")])])])])]);
    ("components", JObj [
      ("schemas", JObj [
        ("ScrapePostsRequest", JObj [
          ("type", JStr "object");
          ("properties", JObj [
            ("account", JObj [
              ("type", JStr "string");
              ("description", JStr "Page or profile")]);
            ("group", JObj [
              ("type", JStr "string");
              ("description", JStr "Group ID")]);
            ("post_urls", JObj [
              ("type", JStr "array");
              ("items", JObj [
                ("type", JStr "string")]);
              ("description", JStr "Explicit list of post URLs")]);
            ("hashtag", JObj [
              ("type", JStr "string");
              ("description", JStr "Hashtag to search")]);
            ("pages", JObj [
              ("type", JStr "integer");
              ("minimum", JInt 1);
              ("description", JStr "How many paginator pages to visit")]);
            ("page_limit", JObj [
              ("type", JStr "integer");
              ("minimum", JInt 1);
              ("description", JStr "Legacy alias for pages")]);
            ("timeout", JObj [
              ("type", JStr "integer");
              ("minimum", JInt 1);
              ("description", JStr "Request timeout in seconds")]);
            ("options", JObj [
              ("type", JStr "object");
              ("description", JStr "Options passed through to get_posts")]);
            ("cookies", JObj [
              ("description", JStr "Cookie mapping or path to a cookies file");
              ("oneOf", JList [JObj [
  ("type", JStr "string")]; JObj [
  ("type", JStr "object");
  ("additionalProperties", JObj [
    ("type", JStr "string")])]])]);
            ("extra_info", JObj [
              ("type", JStr "boolean")]);
            ("youtube_dl", JObj [
              ("type", JStr "boolean")]);
            ("limit", JObj [
              ("type", JStr "integer");
              ("minimum", JInt 1);
              ("maximum", JInt MAX_LIMIT);
              ("default", JInt DEFAULT_LIMIT);
              ("description", JStr "Maximum number of posts to return")])]);
          ("description", JStr "Exactly one of account, group, post_urls, or hashtag must be provided.")]);
        ("ScrapePostsResponse", JObj [
          ("type", JStr "object");
          ("properties", JObj [
            ("count", JObj [
              ("type", JStr "integer")]);
            ("posts", JObj [
              ("type", JStr "array");
              ("items", JObj [
                ("type", JStr "object")])])]);
          ("required", JList [JStr "count"; JStr "posts"])])])])].

Definition SWAGGER_HTML : string :=
  "<!DOCTYPE html>" ++ NL
  ++ "<html lang=" ++ DQ ++ "en" ++ DQ ++ ">" ++ NL
  ++ "<head>" ++ NL
  ++ "    <meta charset=" ++ DQ ++ "utf-8" ++ DQ ++ " />" ++ NL
  ++ "    <title>Facebook Scraper API</title>" ++ NL
  ++ "    <link rel=" ++ DQ ++ "stylesheet" ++ DQ ++ " href=" ++ DQ ++ "https://cdn.jsdelivr.net/npm/swagger-ui-dist@5/swagger-ui.css" ++ DQ ++ " />" ++ NL
  ++ "    <style>body { margin: 0; background: #f7f7f7; }</style>" ++ NL
  ++ "</head>" ++ NL
  ++ "<body>" ++ NL
  ++ "<div id=" ++ DQ ++ "swagger-ui" ++ DQ ++ "></div>" ++ NL
  ++ "<script src=" ++ DQ ++ "https://cdn.jsdelivr.net/npm/swagger-ui-dist@5/swagger-ui-bundle.js" ++ DQ ++ "></script>" ++ NL
  ++ "<script>" ++ NL
  ++ "window.onload = () => {" ++ NL
  ++ "  SwaggerUIBundle({ url: '/openapi.json', dom_id: '#swagger-ui' });" ++ NL
  ++ "};" ++ NL
  ++ "</script>" ++ NL
  ++ "</body>" ++ NL
  ++ "</html>" ++ NL.

Definition CORS_HEADERS : list (string * string) := [
  ("Access-Control-Allow-Origin", "*");
  ("Access-Control-Allow-Methods", "GET,POST,OPTIONS");
  ("Access-Control-Allow-Headers", "Content-Type")].

(** ** Strings *)

(** [str.upper] and [str.lower] on the ASCII letters.  A WSGI environ holds
    latin-1 text, and no latin-1 character outside ASCII maps to a letter of
    ["OPTIONS"], ["GET"], ["POST"] or ["application/json"], so the
    comparisons below see what Python's Unicode-aware methods would show
    them. *)
Definition ascii_upper (c : ascii) : ascii :=
  let n := nat_of_ascii c in
  if Nat.leb 97 n && Nat.leb n 122 then ascii_of_nat (n - 32) else c.
Definition ascii_lower (c : ascii) : ascii :=
  let n := nat_of_ascii c in
  if Nat.leb 65 n && Nat.leb n 90 then ascii_of_nat (n + 32) else c.

Fixpoint str_map (f : ascii -> ascii) (s : string) : string :=
  match s with
  | EmptyString => EmptyString
  | String c s' => String (f c) (str_map f s')
  end.
Definition str_upper : string -> string := str_map ascii_upper.
Definition str_lower : string -> string := str_map ascii_lower.

(** [needle in haystack] for two strings. *)
Fixpoint str_contains (needle haystack : string) : bool :=
  if String.prefix needle haystack then true
  else match haystack with
       | EmptyString => false
       | String _ haystack' => str_contains needle haystack'
       end.

(** [raw.decode("utf-8")] succeeds exactly on well-formed UTF-8: no stray
    or missing continuation byte, no overlong form, no surrogate, nothing
    above U+10FFFF.  Text is kept in its UTF-8 bytes, so a successful
    decoding returns [raw] itself. *)
Definition byte_in (lo hi : N) (c : ascii) : bool :=
  let n := N_of_ascii c in N.leb lo n && N.leb n hi.

Definition second_of_three (c1 c2 : ascii) : bool :=
  if byte_in 224 224 c1 then byte_in 160 191 c2
  else if byte_in 237 237 c1 then byte_in 128 159 c2
  else byte_in 128 191 c2.

Definition second_of_four (c1 c2 : ascii) : bool :=
  if byte_in 240 240 c1 then byte_in 144 191 c2
  else if byte_in 244 244 c1 then byte_in 128 143 c2
  else byte_in 128 191 c2.

Fixpoint utf8_valid (s : string) : bool :=
  match s with
  | EmptyString => true
  | String c1 s1 =>
      if byte_in 0 127 c1 then utf8_valid s1
      else
        match s1 with
        | EmptyString => false
        | String c2 s2 =>
            if byte_in 194 223 c1 then byte_in 128 191 c2 && utf8_valid s2
            else
              match s2 with
              | EmptyString => false
              | String c3 s3 =>
                  if byte_in 224 239 c1 then
                    second_of_three c1 c2 && byte_in 128 191 c3 && utf8_valid s3
                  else
                    match s3 with
                    | EmptyString => false
                    | String c4 s4 =>
                        byte_in 240 244 c1 && second_of_four c1 c2
                        && byte_in 128 191 c3 && byte_in 128 191 c4
                        && utf8_valid s4
                    end
              end
        end
  end.

Definition utf8_decode (raw : string) : option string :=
  if utf8_valid raw then Some raw else None.

(** [x or default] for an optional string: [None] and [""] are false. *)
Definition str_or (x : option string) (default : string) : string :=
  match x with
  | Some s => if String.eqb s "" then default else s
  | None => default
  end.

(** ** The WSGI interface *)

(** The entries of [environ] the application reads.  Under WSGI each is a
    [str] when present; [wsgi_input] is the request body stream, modelled by
    the bytes it holds. *)
Record environ : Type := {
  REQUEST_METHOD : option string;
  PATH_INFO : option string;
  CONTENT_TYPE : option string;
  CONTENT_LENGTH : option string;
  wsgi_input : option string
}.

(** What the application hands back: the status line and headers it passes
    to [start_response], and the list of byte strings it returns. *)
Record response : Type := {
  status : string;
  headers : list (string * string);
  body : list string
}.

(** [f"{status.value} {status.phrase}"] *)
Definition _status_line (st : HTTPStatus.t) : string :=
  py_str_int (HTTPStatus.value st) ++ " " ++ HTTPStatus.phrase st.

(** [_options_response(start_response)] *)
Definition _options_response : response :=
  {| status := _status_line HTTPStatus.NO_CONTENT;
     headers := CORS_HEADERS;
     body := [""] |}.

(** [_html_response(start_response, html)]: the page is ASCII, so its
    UTF-8 encoding has one byte per character. *)
Definition _html_response (html : string) : response :=
  let body := html in
  {| status := _status_line HTTPStatus.OK;
     headers := [("Content-Type", "text/html; charset=utf-8");
                 ("Content-Length", py_str_int (Z.of_nat (String.length body)))];
     body := [body] |}.

(** [_is_json(content_type)] *)
Definition _is_json (content_type : option string) : bool :=
  match content_type with
  | None => false
  | Some content_type =>
      if String.eqb content_type "" then false
      else str_contains "application/json" (str_lower content_type)
  end.

(** [BytesIO.read(size)]: everything when [size] is absent or negative,
    else at most [size] bytes. *)
Definition stream_read (content : string) (size : option Z) : string :=
  match size with
  | None => content
  | Some n => if Z.ltb n 0 then content
              else String.substring 0 (Z.to_nat n) content
  end.

(** ** Effects *)

(** What the application does to the outside world, in the order it does
    it: reading the body stream, calling the scraping capability with its
    keyword arguments, asking the iterator it returned for its next post,
    and logging an exception. *)
Inductive event : Type :=
  | EvReadBody (size : option Z)
  | EvGetPosts (kwargs : gmap string json)
  | EvNext
  | EvLogException (e : exn).

(** An effectful computation: it finishes, returning or raising, with the
    trace of its events; [OutOfFuel] is a loop that was not given enough
    iterations to finish. *)
Inductive M (A : Type) : Type :=
  | Run (r : outcome A) (trace : list event)
  | OutOfFuel.
Arguments Run {A} r trace.
Arguments OutOfFuel {A}.

Global Instance M_ret : MRet M := fun A a => Run (Ret a) [].
Global Instance M_bind : MBind M := fun A B f m =>
  match m with
  | OutOfFuel => OutOfFuel
  | Run (Raise e) trace => Run (Raise e) trace
  | Run (Ret a) trace =>
      match f a with
      | OutOfFuel => OutOfFuel
      | Run r trace' => Run r (trace ++ trace')%list
      end
  end.

(** A computation without effects. *)
Definition lift {A : Type} (r : outcome A) : M A := Run r [].

(** [try: body / except Exception as exc: handler(exc) / else: on_return]:
    the events of the body stay in the trace whichever way it ends. *)
Definition try_except {A B : Type} (body : M A) (on_return : A -> M B)
    (handler : exn -> M B) : M B :=
  match body with
  | OutOfFuel => OutOfFuel
  | Run r trace =>
      match (match r with Ret a => on_return a | Raise e => handler e end) with
      | OutOfFuel => OutOfFuel
      | Run r' trace' => Run r' (trace ++ trace')%list
      end
  end.

(** What [json.loads(text)] does: it returns a value, raises
    [json.JSONDecodeError] with its [msg], or raises something else
    ([RecursionError] on a text nested too deep). *)
Inductive loads_result : Type :=
  | Loaded (v : json)
  | JSONDecodeError (msg : string)
  | LoadsRaises (class_name : string) (message : string).

(** One [next(iterator)] on the iterator [get_posts] returns: a post and
    the iterator's next state, [StopIteration], or an exception.  A post
    is whatever object the capability produces. *)
Inductive gen_step (S : Type) : Type :=
  | GenYield (post : pyvalue) (rest : S)
  | GenStop
  | GenRaise (e : exn).
Arguments GenYield {S} post rest.
Arguments GenStop {S}.
Arguments GenRaise {S} e.

(** ** The two collaborators *)

(** What the module takes from Python itself.  [int_of_str s] is [int(s)]
    for a [str]: [Some n] when the text is an integer literal (surrounding
    white space, a sign and underscores between digits allowed), [None] for
    [ValueError].  [json_loads text] is [json.loads(text)], and
    [json_dumps payload] is the text [json.dumps] writes for a JSON value
    (for an object of the capability, see [to_json]); it is ASCII, so that
    [.encode("utf-8")] changes nothing. *)
Class PythonRuntime : Type := {
  int_of_str : string -> option Z;
  json_loads : string -> loads_result;
  json_dumps : json -> string
}.

(** The scraping capability.  [get_posts], called with keyword arguments,
    raises or returns an iterator in some state; [gen_next] is one [next]
    on an iterator in that state. *)
Class Scraper : Type := {
  gen_state : Type;
  get_posts : gmap string json -> outcome gen_state;
  gen_next : gen_state -> gen_step gen_state
}.

Section Api.

Context `{!PythonRuntime} `{!Scraper}.

(** [int(v)] on a JSON value. *)
Definition py_int (v : json) : int_result :=
  match v with
  | JNull => IntTypeError
  | JBool b => IntOk (if b then 1 else 0)
  | JInt z => IntOk z
  | JFloat f => int_of_float f
  | JStr s => match int_of_str s with Some n => IntOk n | None => IntValueError end
  | JList _ => IntTypeError
  | JObj _ => IntTypeError
  end.

(** [_coerce_int(value, field, *, minimum=1, maximum=None)].  Only
    [TypeError] and [ValueError] are caught around [int(value)]; an
    [OverflowError] leaves the function as it is. *)
Definition _coerce_int (value : json) (field : string) (minimum : Z)
    (maximum : option Z) : outcome Z :=
  if isinstance_bool value then
    Raise (APIError 400 (field ++ " must be an integer"))
  else
    match py_int value with
    | IntTypeError | IntValueError =>
        Raise (APIError 400 (field ++ " must be an integer"))
    | IntOverflowError =>
        Raise (OtherException "OverflowError" "cannot convert float infinity to integer")
    | IntOk value_int =>
        if Z.ltb value_int minimum then
          Raise (APIError 400 (field ++ " must be >= " ++ py_str_int minimum))
        else
          match maximum with
          | Some maximum' =>
              if Z.gtb value_int maximum' then
                Raise (APIError 400 (field ++ " must be <= " ++ py_str_int maximum'))
              else Ret value_int
          | None => Ret value_int
          end
    end.

(** ** Target resolution *)

(** The loop of [_extract_target] over the four target fields: a field
    whose value is none of [None], [""] and [[]] is appended, with that
    value, to [candidates]. *)
Definition TARGET_FIELDS : list string :=
  ["account"; "group"; "post_urls"; "hashtag"].

Definition target_candidates (payload : pydict) : list (string * json) :=
  fold_left
    (fun candidates field =>
       let value := dict_get payload field in
       if negb (in_None_empty_str_empty_list value)
       then (candidates ++ [(field, value)])%list
       else candidates)
    TARGET_FIELDS [].

Definition EXACTLY_ONE : string :=
  "Exactly one of account, group, post_urls, or hashtag is required".
Definition POST_URLS_LIST : string :=
  "post_urls must be a non-empty list of URLs".

(** [_extract_target(payload)] *)
Definition _extract_target (payload : pydict) : outcome (string * json) :=
  let candidates := target_candidates payload in
  if negb (Nat.eqb (length candidates) 1) then
    Raise (APIError 400 EXACTLY_ONE)
  else
    match candidates with
    | [] => Raise (OtherException "IndexError" "list index out of range")
    | (field, value) :: _ =>
        if String.eqb field "post_urls" then
          if negb (isinstance_list value) || negb (py_bool value) then
            Raise (APIError 400 POST_URLS_LIST)
          else Ret (field, value)
        else Ret (field, value)
    end.

(** ** Option extraction *)

(** The first loop of [_extract_request_kwargs]: for each key that is in
    the payload, [kwargs[key] = _coerce_int(payload[key], key, minimum=1)]. *)
Fixpoint coerce_int_keys (keys : list string) (payload : pydict)
    (kwargs : gmap string json) : outcome (gmap string json) :=
  match keys with
  | [] => Ret kwargs
  | key :: keys' =>
      if dict_mem payload key then
        match dict_lookup payload key with
        | None => Raise (OtherException "KeyError" key)
        | Some value =>
            n ← _coerce_int value key 1 None;
            coerce_int_keys keys' payload (<[key := JInt n]> kwargs)
        end
      else coerce_int_keys keys' payload kwargs
  end.

(** The last loop: for each key that is in the payload,
    [kwargs[key] = bool(payload[key])]. *)
Fixpoint bool_keys (keys : list string) (payload : pydict)
    (kwargs : gmap string json) : outcome (gmap string json) :=
  match keys with
  | [] => Ret kwargs
  | key :: keys' =>
      if dict_mem payload key then
        match dict_lookup payload key with
        | None => Raise (OtherException "KeyError" key)
        | Some value =>
            bool_keys keys' payload (<[key := JBool (py_bool value)]> kwargs)
        end
      else bool_keys keys' payload kwargs
  end.

Definition OPTIONS_OBJECT : string := "options must be an object".
Definition COOKIES_STRING_OR_MAPPING : string :=
  "cookies must be a string path or name/value mapping".

(** [_extract_request_kwargs(payload)] *)
Definition _extract_request_kwargs (payload : pydict) : outcome (gmap string json) :=
  kwargs ← coerce_int_keys ["pages"; "page_limit"; "timeout"] payload ∅;
  let options := dict_get payload "options" in
  kwargs ← (if is_not_None options then
              if negb (isinstance_dict options) then
                Raise (APIError 400 OPTIONS_OBJECT)
              else Ret (<["options" := options]> kwargs)
            else Ret kwargs);
  let cookies := dict_get payload "cookies" in
  if is_not_None cookies && negb (isinstance_dict_or_str cookies) then
    Raise (APIError 400 COOKIES_STRING_OR_MAPPING)
  else
    let kwargs := if is_not_None cookies then <["cookies" := cookies]> kwargs
                  else kwargs in
    bool_keys ["extra_info"; "youtube_dl"] payload kwargs.

(** ** Calling the capability *)

Definition call_get_posts (kwargs : gmap string json) : M gen_state :=
  Run (get_posts kwargs) [EvGetPosts kwargs].

Definition next (iterator : gen_state) : M (option (pyvalue * gen_state)) :=
  match gen_next iterator with
  | GenYield post rest => Run (Ret (Some (post, rest))) [EvNext]
  | GenStop => Run (Ret None) [EvNext]
  | GenRaise e => Run (Raise e) [EvNext]
  end.

(** ** Responses *)

(** [_json_response(start_response, status, payload)] *)
Definition _json_response (st : HTTPStatus.t) (payload : json) : response :=
  let body := json_dumps payload in
  {| status := _status_line st;
     headers := ([("Content-Type", "application/json; charset=utf-8");
                  ("Content-Length", py_str_int (Z.of_nat (String.length body)))]
                 ++ CORS_HEADERS)%list;
     body := [body] |}.

(** [_json_response(start_response, status, payload)] for a payload that
    holds objects of the capability: [json.dumps(payload)] is the first
    statement, and raises [TypeError] when it cannot write one of them. *)
Definition _json_response_of (st : HTTPStatus.t) (payload : pyvalue)
    : outcome response :=
  match to_json payload with
  | Raise e => Raise e
  | Ret written => Ret (_json_response st written)
  end.

(** ** Reading the request body *)

(** [_load_json_body(environ)].  [int] of a string raises [ValueError]
    only, which sets [length] to 0.  The [try] around [json.loads] catches
    [json.JSONDecodeError] only: the [UnicodeDecodeError] of
    [raw.decode("utf-8")] leaves the function as it is. *)
Definition _load_json_body (env : environ) : M pydict :=
  let length :=
    match int_of_str (str_or (CONTENT_LENGTH env) "0") with
    | Some n => n
    | None => 0
    end in
  let body_stream := match wsgi_input env with Some b => b | None => "" end in
  let size := if Z.eqb length 0 then None else Some length in
  let raw := stream_read body_stream size in
  Run (if String.eqb raw "" then
         Raise (APIError 400 "Request body is required")
       else
         match utf8_decode raw with
         | None =>
             Raise (OtherException "UnicodeDecodeError"
                      "'utf-8' codec can't decode bytes")
         | Some text =>
             match json_loads text with
             | LoadsRaises class_name message => Raise (OtherException class_name message)
             | JSONDecodeError msg => Raise (APIError 400 ("Invalid JSON payload: " ++ msg))
             | Loaded payload =>
                 match payload with
                 | JObj payload => Ret payload
                 | _ => Raise (APIError 400 "JSON payload must be an object")
                 end
             end
         end)
      [EvReadBody size].

(** ** The bounded collector *)

(** The [for post in iterator] loop of [_collect_posts], run for at most
    [fuel] iterations. *)
Fixpoint for_post_in (fuel : nat) (limit : Z) (iterator : gen_state)
    (results : list pyvalue) : M (list pyvalue) :=
  match fuel with
  | O => OutOfFuel
  | S fuel' =>
      step ← next iterator;
      match step with
      | None => mret results
      | Some (post, iterator') =>
          let results := (results ++ [post])%list in
          if Z.geb (Z.of_nat (List.length results)) limit then mret results
          else for_post_in fuel' limit iterator' results
      end
  end.

(** [_collect_posts(payload)].  The call of [get_posts] unpacks the
    dictionary [{target_field: target_value}] and [request_kwargs] into
    keyword arguments, and raises [TypeError] when both have the key.  The loop gets one iteration more than
    [limit], which [collect_posts_terminates] shows is enough. *)
Definition _collect_posts (payload : pydict) : M (list pyvalue) :=
  '(target_field, target_value) ← lift (_extract_target payload);
  request_kwargs ← lift (_extract_request_kwargs payload);
  limit ← lift (_coerce_int (dict_get_default payload "limit" (JInt DEFAULT_LIMIT))
                  "limit" 1 (Some MAX_LIMIT));
  match request_kwargs !! target_field with
  | Some _ =>
      lift (Raise (OtherException "TypeError"
                     "got multiple values for keyword argument"))
  | None =>
      iterator ← call_get_posts (<[target_field := target_value]> request_kwargs);
      for_post_in (S (Z.to_nat limit)) limit iterator []
  end.

(** ** The handlers *)

(** The three [except] clauses of [_handle_posts].
    [HTTPStatus(exc.status_code)] raises [ValueError] when the code is no
    member of the enumeration, and that exception leaves the handler; so
    does an exception that is no [Exception], which no clause catches. *)
Definition except_clauses (exc : exn) : M response :=
  match exc with
  | APIError status_code detail =>
      match HTTPStatus.of_value status_code with
      | Some st => mret (_json_response st (JObj [("detail", JStr detail)]))
      | None =>
          lift (Raise (OtherException "ValueError"
                         (py_str_int status_code ++ " is not a valid HTTPStatus")))
      end
  | InvalidCookies message =>
      mret (_json_response HTTPStatus.UNAUTHORIZED (JObj [("detail", JStr message)]))
  | OtherException _ _ =>
      Run (Ret (_json_response HTTPStatus.BAD_GATEWAY
                  (JObj [("detail", JStr "Failed to fetch posts")])))
          [EvLogException exc]
  | BaseException _ _ => lift (Raise exc)
  end.

(** The body of the [try] in [_handle_posts]. *)
Definition load_and_collect (env : environ) : M (list pyvalue) :=
  payload ← _load_json_body env;
  _collect_posts payload.

(** [_handle_posts(environ, start_response)]; the final [_json_response]
    is outside the [try], so that the [TypeError] of its [json.dumps] on a
    post it cannot write leaves the handler. *)
Definition _handle_posts (env : environ) : M response :=
  if negb (_is_json (CONTENT_TYPE env)) then
    mret (_json_response HTTPStatus.UNSUPPORTED_MEDIA_TYPE
            (JObj [("detail", JStr "Content-Type must be application/json")]))
  else
    try_except (load_and_collect env)
      (fun posts =>
         lift (_json_response_of HTTPStatus.OK
                 (PyDict [("count", PyInt (Z.of_nat (List.length posts)));
                          ("posts", PyList posts)])))
      except_clauses.

(** [app(environ, start_response)] *)
Definition app (env : environ) : M response :=
  let method := str_upper (str_or (REQUEST_METHOD env) "GET") in
  let path := str_or (PATH_INFO env) "/" in
  if String.eqb method "OPTIONS" && String.eqb path "/posts" then
    mret _options_response
  else if String.eqb method "GET" && String.eqb path "/" then
    mret (_json_response HTTPStatus.OK
            (JObj [("message", JStr "Facebook Scraper API"); ("docs", JStr "/docs")]))
  else if String.eqb method "GET" && String.eqb path "/health" then
    mret (_json_response HTTPStatus.OK (JObj [("status", JStr "ok")]))
  else if String.eqb method "GET" && String.eqb path "/openapi.json" then
    mret (_json_response HTTPStatus.OK OPENAPI_SPEC)
  else if String.eqb method "GET" && String.eqb path "/docs" then
    mret (_html_response SWAGGER_HTML)
  else if String.eqb method "POST" && String.eqb path "/posts" then
    _handle_posts env
  else
    mret (_json_response HTTPStatus.NOT_FOUND (JObj [("detail", JStr "Not Found")])).

End Api.


(** ** Sample collaborators, for running the application on examples *)

(** Decimal literals with an optional minus sign: the part of Python's
    [int(str)] that the examples use. *)
Definition decimal_int_of_str (s : string) : option Z :=
  option_map Z.of_int (NilZero.int_of_string s).

(** A writer in the layout of [json.dumps] (separators [", "] and [": "])
    for payloads whose strings need no escape; a float is written as its
    integer part. *)
Fixpoint sample_dumps (v : json) : string :=
  match v with
  | JNull => "null"
  | JBool b => if b then "true" else "false"
  | JInt z => py_str_int z
  | JFloat f => match int_of_float f with IntOk n => py_str_int n ++ ".0" | _ => "NaN" end
  | JStr s => DQ ++ s ++ DQ
  | JList l =>
      "[" ++ (fix items (l : list json) : string :=
                match l with
                | [] => ""
                | [x] => sample_dumps x
                | x :: l' => sample_dumps x ++ ", " ++ items l'
                end) l ++ "]"
  | JObj kvs =>
      "{" ++ (fix items (kvs : list (string * json)) : string :=
                match kvs with
                | [] => ""
                | [(k, x)] => DQ ++ k ++ DQ ++ ": " ++ sample_dumps x
                | (k, x) :: kvs' => DQ ++ k ++ DQ ++ ": " ++ sample_dumps x ++ ", " ++ items kvs'
                end) kvs ++ "}"
  end.

(** A Python whose [json.loads] reads every body as [payload]. *)
Definition sample_python (payload : json) : PythonRuntime :=
  {| int_of_str := decimal_int_of_str;
     json_loads := fun _ => Loaded payload;
     json_dumps := sample_dumps |}.

(** A capability in the style of the test suite's [fake_posts]: whatever
    the arguments, a generator over a fixed list of posts that hold JSON
    values only. *)
Definition list_scraper (posts : list json) : Scraper :=
  {| gen_state := list json;
     get_posts := fun _ => Ret posts;
     gen_next := fun rest =>
       match rest with
       | [] => GenStop
       | post :: rest' => GenYield (of_json post) rest'
       end |}.

(** The same over posts that hold any object. *)
Definition object_scraper (posts : list pyvalue) : Scraper :=
  {| gen_state := list pyvalue;
     get_posts := fun _ => Ret posts;
     gen_next := fun rest =>
       match rest with
       | [] => GenStop
       | post :: rest' => GenYield post rest'
       end |}.

(** A capability that raises [e] when called. *)
Definition raising_scraper (e : exn) : Scraper :=
  {| gen_state := unit;
     get_posts := fun _ => Raise e;
     gen_next := fun _ => GenStop |}.

(** A POST /posts request with a JSON content type and the given body. *)
Definition post_request (raw : string) : environ :=
  {| REQUEST_METHOD := Some "POST"; PATH_INFO := Some "/posts";
     CONTENT_TYPE := Some "application/json";
     CONTENT_LENGTH := Some (py_str_int (Z.of_nat (String.length raw)));
     wsgi_input := Some raw |}.

Definition three_posts : list json :=
  [JObj [("post_id", JStr "1")]; JObj [("post_id", JStr "2")];
   JObj [("post_id", JStr "3")]].

(** Posts as the scraper itself makes them: the time of a post is a
    [datetime]. *)
Definition dated_post (post_id : string) : pyvalue :=
  PyDict [("post_id", PyStr post_id); ("time", PyObject "datetime")].

Definition three_dated_posts : list pyvalue :=
  [dated_post "1"; dated_post "2"; dated_post "3"].

(** The request of the test suite, {"account": "nintendo"}, with a limit. *)
Definition account_nintendo (limit : json) : json :=
  JObj [("account", JStr "nintendo"); ("limit", limit)].

(** POST /posts with the sample Python, reading every body as [payload],
    and a capability that produces [posts]. *)
Definition sample_handle_posts (payload : json) (posts : list json)
    : environ -> M response :=
  @_handle_posts (sample_python payload) (list_scraper posts).

(** ** Notions the properties are stated with *)

Section Notions.

Context `{!PythonRuntime} `{!Scraper}.

(** [yields it posts it']: asked for one post after the other, the
    iterator in state [it] produces [posts] in this order and is then in
    state [it']. *)
Inductive yields : gen_state -> list pyvalue -> gen_state -> Prop :=
  | yields_nil it : yields it [] it
  | yields_cons it post it' posts it'' :
      gen_next it = GenYield post it' ->
      yields it' posts it'' ->
      yields it (post :: posts) it''.

(** The iterator produces exactly [posts] and then stops. *)
Definition yields_exactly (it : gen_state) (posts : list pyvalue) : Prop :=
  exists it', yields it posts it' /\ gen_next it' = GenStop.

(** The exception was raised by the capability: by the call of
    [get_posts], or by a [next] on the iterator it returned. *)
Definition from_capability (e : exn) : Prop :=
  (exists kwargs, get_posts kwargs = Raise e)
  \/ (exists it, gen_next it = GenRaise e).

(** What goes to the log, and not to the caller, for a failure. *)
Definition logged (e : exn) : list event :=
  match e with
  | OtherException _ _ => [EvLogException e]
  | _ => []
  end.

(** The method and path [app] dispatches on: the method in upper case,
    ["GET"] and ["/"] standing in for a missing or empty entry. *)
Definition request_method (env : environ) : string :=
  str_upper (str_or (REQUEST_METHOD env) "GET").
Definition request_path (env : environ) : string :=
  str_or (PATH_INFO env) "/".

(** The dispatch table of the specification. *)
Definition ROUTES : list (string * string) :=
  [("GET", "/"); ("GET", "/health"); ("GET", "/openapi.json"); ("GET", "/docs");
   ("POST", "/posts"); ("OPTIONS", "/posts")].

(** The header set of a JSON response whose body is [body]. *)
Definition json_headers (body : string) : list (string * string) :=
  [("Content-Type", "application/json; charset=utf-8");
   ("Content-Length", py_str_int (Z.of_nat (String.length body)));
   ("Access-Control-Allow-Origin", "*");
   ("Access-Control-Allow-Methods", "GET,POST,OPTIONS");
   ("Access-Control-Allow-Headers", "Content-Type")].

(** [dict(headers).get(name)], as the test suite reads a header. *)
Fixpoint header (name : string) (headers : list (string * string)) : option string :=
  match headers with
  | [] => None
  | (k, v) :: headers' =>
      match header name headers' with
      | Some v' => Some v'
      | None => if String.eqb k name then Some v else None
      end
  end.

(** What [_collect_posts] does once validation has passed with the given
    target, options and limit: the call of the capability, then the loop. *)
Definition collect_with (field : string) (value : json)
    (kwargs : gmap string json) (limit : Z) : M (list pyvalue) :=
  match get_posts (<[field := value]> kwargs) with
  | Raise e => Run (Raise e) [EvGetPosts (<[field := value]> kwargs)]
  | Ret iterator =>
      match for_post_in (S (Z.to_nat limit)) limit iterator [] with
      | OutOfFuel => OutOfFuel
      | Run r trace => Run r (EvGetPosts (<[field := value]> kwargs) :: trace)
      end
  end.

(** The 400 response with the given detail. *)
Definition bad_request (detail : string) : response :=
  _json_response (HTTPStatus.Build_t 400 "Bad Request")
                 (JObj [("detail", JStr detail)]).

(** The size [_load_json_body] passes to [read], and the bytes it gets. *)
Definition read_size (env : environ) : option Z :=
  let length :=
    match int_of_str (str_or (CONTENT_LENGTH env) "0") with
    | Some n => n
    | None => 0
    end in
  if Z.eqb length 0 then None else Some length.

Definition body_read (env : environ) : string :=
  stream_read (match wsgi_input env with Some b => b | None => "" end)
              (read_size env).

(** An integer-valued JSON number: an integer, or a float whose value is
    a whole number. *)
Definition integral_float (f : spec_float) : bool :=
  match f with
  | S754_zero _ => true
  | S754_finite _ m e => Z.leb 0 e || Z.eqb (Z.pos m mod 2 ^ (- e)) 0
  | _ => false
  end.

Definition integer_valued (v : json) : bool :=
  match v with
  | JInt _ => true
  | JFloat f => integral_float f
  | _ => false
  end.

(** The float 2.5, that is [5 * 2^-1]. *)
Definition TWO_AND_A_HALF : spec_float := S754_finite false 5 (-1).

(** A request body of one byte, 0xFF, which is not UTF-8. *)
Definition BYTE_FF : string := String (ascii_of_nat 255) EmptyString.

(** The number of [next] calls a trace records. *)
Definition next_calls (trace : list event) : nat :=
  List.length (List.filter (fun ev => match ev with EvNext => true | _ => false end) trace).

(** A trace in which the capability is neither called nor iterated. *)
Definition capability_untouched (trace : list event) : Prop :=
  forall ev, In ev trace ->
    match ev with EvGetPosts _ | EvNext => False | _ => True end.

(** The value [_collect_posts] coerces to the limit:
    [payload.get("limit", DEFAULT_LIMIT)]. *)
Definition supplied_limit (payload : pydict) : json :=
  dict_get_default payload "limit" (JInt DEFAULT_LIMIT).

(** How many more posts the loop of [_collect_posts] wants when it holds
    [len] of them: as many as are missing to [limit], and one at least,
    since the test comes after the append. *)
Definition wanted (limit : Z) (len : nat) : nat :=
  Z.to_nat (Z.max 1 (limit - Z.of_nat len)).

(** The specification's test for a target field that counts as present:
    its value is not null, not the empty string and not the empty list. *)
Definition counts_as_present (v : json) : Prop :=
  v <> JNull /\ v <> JStr "" /\ v <> JList [].

(** [field] is the one target field of the payload that counts as
    present. *)
Definition only_present_target (payload : pydict) (field : string) : Prop :=
  In field TARGET_FIELDS /\
  counts_as_present (dict_get payload field) /\
  forall other, In other TARGET_FIELDS ->
    counts_as_present (dict_get payload other) -> other = field.

Definition non_empty_list (v : json) : Prop :=
  exists x l, v = JList (x :: l).

(** The integer options of a request, in the order they are read. *)
Definition INT_KEYS : list string := ["pages"; "page_limit"; "timeout"].
Definition BOOL_KEYS : list string := ["extra_info"; "youtube_dl"].

(** [key in keys] for a tuple of strings. *)
Definition key_in (key : string) (keys : list string) : bool :=
  existsb (String.eqb key) keys.

(** An integer option that does not stop the extraction: the key is not in
    the payload, or its value is coerced to an integer that is at least 1. *)
Definition int_key_ok (payload : pydict) (key : string) : Prop :=
  dict_mem payload key = false \/
  exists n, _coerce_int (dict_get payload key) key 1 None = Ret n.

End Notions.

(** * facebook_scraper.compat: the lxml.html.clean shim *)

(** What [sys.modules] can hold under a name: a module the import system
    found, or the [ModuleType] shim that [ensure_lxml_html_clean] builds. *)
Inductive py_module : Type :=
  | ImportedModule (name : string)
  | ShimModule (name : string).

(** The interpreter state [ensure_lxml_html_clean] touches: [sys.modules]
    and the warnings the module's logger has received. *)
Record interpreter : Type := {
  sys_modules : gmap string py_module;
  warnings : list string
}.

(** How [from lxml.html import clean as _clean] ends: it binds a module,
    it raises an [Exception] (an ImportError, say), or it raises a
    [BaseException] that is no [Exception] (KeyboardInterrupt,
    SystemExit), which [except Exception] does not catch. *)
Inductive import_result : Type :=
  | Imported (module : py_module)
  | ImportRaisesException
  | ImportRaisesBaseException.

(** The import machinery may change [sys.modules] on its way. *)
Class ImportSystem : Type := {
  import_lxml_html_clean :
    gmap string py_module -> import_result * gmap string py_module
}.

(** How a call ends: it returns, or an exception leaves it. *)
Inductive completion : Type :=
  | Returns
  | Escapes.

Definition LXML_HTML_CLEAN : string := "lxml.html.clean".
Definition SHIM_WARNING : string :=
  "lxml.html.clean is unavailable; installed a minimal Cleaner shim. "
  ++ "Install 'lxml-html-clean' for full sanitising support.".

(** [modules.setdefault(name, module)] *)
Definition setdefault (modules : gmap string py_module) (name : string)
    (module : py_module) : gmap string py_module :=
  match modules !! name with
  | Some _ => modules
  | None => <[name := module]> modules
  end.

(** [ensure_lxml_html_clean()] *)
Definition ensure_lxml_html_clean `{!ImportSystem} (st : interpreter)
    : completion * interpreter :=
  match sys_modules st !! LXML_HTML_CLEAN with
  | Some _ => (Returns, st)
  | None =>
      match import_lxml_html_clean (sys_modules st) with
      | (Imported _clean, modules) =>
          (Returns,
           {| sys_modules := setdefault modules LXML_HTML_CLEAN _clean;
              warnings := warnings st |})
      | (ImportRaisesException, modules) =>
          (Returns,
           {| sys_modules := <[LXML_HTML_CLEAN := ShimModule LXML_HTML_CLEAN]> modules;
              warnings := (warnings st ++ [SHIM_WARNING])%list |})
      | (ImportRaisesBaseException, modules) =>
          (Escapes, {| sys_modules := modules; warnings := warnings st |})
      end
  end.

(** The shim's [Cleaner]: [__init__] takes any keyword arguments and sets
    two flags, [clean_html] returns its argument. *)
Record Cleaner : Type := { javascript : bool; style : bool }.

Definition Cleaner_init (kwargs : gmap string json) : Cleaner :=
  {| javascript := true; style := true |}.

Definition clean_html (self : Cleaner) (html : string) : string := html.

(** * The test suite's request builder *)

(** The environ [_invoke(path, method, body, content_type)] of
    [tests/test_api.py] hands to [app]: [body or b""] as the stream, its
    length in decimal as CONTENT_LENGTH, and CONTENT_TYPE only when a body
    was given. *)
Definition invoke_environ (path method : string) (body : option string)
    (content_type : string) : environ :=
  let raw_body := str_or body "" in
  {| REQUEST_METHOD := Some method;
     PATH_INFO := Some path;
     CONTENT_TYPE := match body with Some _ => Some content_type | None => None end;
     CONTENT_LENGTH := Some (py_str_int (Z.of_nat (String.length raw_body)));
     wsgi_input := Some raw_body |}.

(** * More sample collaborators *)


(** An installation without lxml_html_clean: the import raises an
    ImportError and leaves [sys.modules] as it was. *)
Definition missing_lxml_html_clean : ImportSystem :=
  {| import_lxml_html_clean := fun modules => (ImportRaisesException, modules) |}.

(** An interpreter that has imported nothing and logged nothing. *)
Definition fresh_interpreter : interpreter :=
  {| sys_modules := ∅; warnings := [] |}.

(** An interpreter in which lxml.html.clean is already imported. *)
Definition interpreter_with_clean : interpreter :=
  {| sys_modules := <[LXML_HTML_CLEAN := ImportedModule LXML_HTML_CLEAN]> ∅;
     warnings := [] |}.

(** * More notions *)

Section MoreNotions.

Context `{!PythonRuntime} `{!Scraper}.

(** The bytes of the stream [wsgi.input], none when there is no stream. *)
Definition stream_content (env : environ) : string :=
  match wsgi_input env with Some b => b | None => "" end.

(** The shape of the trace of one request: the body is read once; then the
    capability is called at most once, with [kwargs], and its iterator is
    asked for at most [MAX_LIMIT] posts; then at most one exception is
    logged. *)
Definition request_trace (trace : list event) : Prop :=
  trace = []
  \/ exists size calls log,
      trace = (EvReadBody size :: calls ++ log)%list
      /\ (calls = []
          \/ exists kwargs k,
              calls = EvGetPosts kwargs :: replicate k EvNext
              /\ (k <= Z.to_nat MAX_LIMIT)%nat)
      /\ (log = [] \/ exists e, log = [EvLogException e]).

(** The keyword names [get_posts] can be called with. *)
Definition KNOWN_KWARGS : list string :=
  (TARGET_FIELDS ++ INT_KEYS ++ ["options"; "cookies"] ++ BOOL_KEYS)%list.

(** The fields of a request the pipeline reads. *)
Definition KNOWN_FIELDS : list string := (KNOWN_KWARGS ++ ["limit"])%list.

(** The status lines the application answers with. *)
Definition STATUS_LINES : list string :=
  ["200 OK"; "204 No Content"; "400 Bad Request"; "401 Unauthorized";
   "404 Not Found"; "415 Unsupported Media Type"; "502 Bad Gateway"].

(** A capability that raises nothing but [Exception]s, and none of them
    the module's own [APIError]. *)
Definition raises_plain_exceptions : Prop :=
  forall e, from_capability e ->
    match e with
    | APIError _ _ | BaseException _ _ => False
    | _ => True
    end.

(** A capability whose iterators produce only posts [json.dumps] can
    write. *)
Definition yields_writable_posts : Prop :=
  forall it post it',
    gen_next it = GenYield post it' -> exists written, to_json post = Ret written.

(** The environ with the method and path [app] dispatches on written out. *)
Definition normalised (env : environ) : environ :=
  {| REQUEST_METHOD := Some (request_method env);
     PATH_INFO := Some (request_path env);
     CONTENT_TYPE := CONTENT_TYPE env;
     CONTENT_LENGTH := CONTENT_LENGTH env;
     wsgi_input := wsgi_input env |}.

(** The environ with another method. *)
Definition with_method (env : environ) (method : option string) : environ :=
  {| REQUEST_METHOD := method;
     PATH_INFO := PATH_INFO env;
     CONTENT_TYPE := CONTENT_TYPE env;
     CONTENT_LENGTH := CONTENT_LENGTH env;
     wsgi_input := wsgi_input env |}.

End MoreNotions.

(** * Properties *)

Section Properties.

Context `{!PythonRuntime} `{!Scraper}.

(** ** The bounded collector *)

Lemma next_yield it post it' :
  gen_next it = GenYield post it' ->
  next it = Run (Ret (Some (post, it'))) [EvNext].
Proof. unfold next. intros ->. reflexivity. Qed.

Lemma next_stop it :
  gen_next it = GenStop -> next it = Run (Ret None) [EvNext].
Proof. unfold next. intros ->. reflexivity. Qed.

(** A source with enough posts: the loop keeps the first [wanted] of them
    and asks for no more. *)
Lemma for_post_in_enough it posts it' :
  yields it posts it' ->
  forall fuel limit results,
    (wanted limit (length results) <= length posts)%nat ->
    (wanted limit (length results) <= fuel)%nat ->
    for_post_in fuel limit it results
    = Run (Ret (results ++ take (wanted limit (length results)) posts)%list)
          (replicate (wanted limit (length results)) EvNext).
Proof.
  induction 1 as [it | it post it' posts it'' Hnext _ IH];
    intros fuel limit results Hlen Hfuel.
  - unfold wanted in Hlen. simpl in Hlen. lia.
  - destruct fuel as [| fuel]; [unfold wanted in Hfuel; lia |].
    simpl. rewrite (next_yield _ _ _ Hnext). cbn.
    destruct (Z.geb_spec (Z.of_nat (length (results ++ [post]))) limit) as [Hge | Hlt];
      rewrite length_app in *; simpl length in *.
    + assert (wanted limit (length results) = 1%nat) as -> by (unfold wanted; lia).
      reflexivity.
    + assert (wanted limit (length results)
              = S (wanted limit (length results + 1))) as Hw by (unfold wanted; lia).
      specialize (IH fuel limit (results ++ [post])%list).
      rewrite length_app in IH. simpl length in IH.
      rewrite IH by (simpl in Hlen; lia).
      rewrite Hw. cbn. rewrite <- app_assoc. reflexivity.
Qed.

(** A source that stops early: the loop keeps everything and has asked
    once more than there were posts. *)
Lemma for_post_in_short it posts it' :
  yields it posts it' ->
  gen_next it' = GenStop ->
  forall fuel limit results,
    (length posts < wanted limit (length results))%nat ->
    (length posts < fuel)%nat ->
    for_post_in fuel limit it results
    = Run (Ret (results ++ posts)%list) (replicate (S (length posts)) EvNext).
Proof.
  induction 1 as [it | it post it' posts it'' Hnext _ IH];
    intros Hstop fuel limit results Hlen Hfuel.
  - destruct fuel as [| fuel]; [simpl in Hfuel; lia |].
    simpl. rewrite (next_stop _ Hstop). cbn. rewrite app_nil_r. reflexivity.
  - destruct fuel as [| fuel]; [lia |].
    simpl. rewrite (next_yield _ _ _ Hnext). cbn.
    destruct (Z.geb_spec (Z.of_nat (length (results ++ [post]))) limit) as [Hge | Hlt];
      rewrite length_app in *; simpl length in *.
    + unfold wanted in Hlen. lia.
    + specialize (IH Hstop fuel limit (results ++ [post])%list).
      rewrite length_app in IH. simpl length in IH.
      rewrite IH by (unfold wanted in *; lia).
      cbn. rewrite <- app_assoc. reflexivity.
Qed.

(** The loop never needs more than [wanted] iterations: with that much
    fuel it finishes, whatever the iterator does. *)
Lemma for_post_in_finishes fuel limit it results :
  (wanted limit (length results) <= fuel)%nat ->
  for_post_in fuel limit it results <> OutOfFuel.
Proof.
  revert it results.
  induction fuel as [| fuel IH]; intros it results Hfuel.
  - unfold wanted in Hfuel. lia.
  - simpl. unfold next. destruct (gen_next it) as [post it' | | e]; cbn; try discriminate.
    destruct (Z.geb_spec (Z.of_nat (length (results ++ [post]))) limit) as [Hge | Hlt];
      [discriminate |].
    specialize (IH it' (results ++ [post])%list).
    rewrite length_app in *. simpl length in *.
    destruct (for_post_in fuel limit it' (results ++ [post])) eqn:E; [discriminate |].
    exfalso. apply IH; [unfold wanted in *; lia | reflexivity].
Qed.

(** ** Target resolution *)

Lemma counts_as_present_iff v :
  counts_as_present v <-> in_None_empty_str_empty_list v = false.
Proof.
  unfold counts_as_present.
  destruct v as [| b | z | f | s | l | kvs]; simpl;
    try (split; [reflexivity | intros _; repeat split; discriminate]).
  - split; [intros [Hn _]; congruence | discriminate].
  - destruct s; simpl.
    + split; [intros (_ & Hs & _); congruence | discriminate].
    + split; [reflexivity | intros _; repeat split; discriminate].
  - destruct l; simpl.
    + split; [intros (_ & _ & Hl); congruence | discriminate].
    + split; [reflexivity | intros _; repeat split; discriminate].
Qed.

(** The candidates list, field by field. *)
Lemma target_candidates_eq payload :
  target_candidates payload
  = flat_map (fun field =>
                if in_None_empty_str_empty_list (dict_get payload field) then []
                else [(field, dict_get payload field)])
             TARGET_FIELDS.
Proof.
  unfold target_candidates. simpl.
  destruct (in_None_empty_str_empty_list (dict_get payload "account"));
  destruct (in_None_empty_str_empty_list (dict_get payload "group"));
  destruct (in_None_empty_str_empty_list (dict_get payload "post_urls"));
  destruct (in_None_empty_str_empty_list (dict_get payload "hashtag"));
  reflexivity.
Qed.

Lemma present_list_non_empty v :
  in_None_empty_str_empty_list v = false ->
  (negb (isinstance_list v) || negb (py_bool v) = false <-> non_empty_list v).
Proof.
  unfold non_empty_list.
  destruct v as [| b | z | f | s | l | kvs]; simpl; intros Hp;
    try (split; [discriminate | intros (x & l' & Hx); discriminate]).
  destruct l as [| x l]; [discriminate |]. simpl.
  split; [eauto | reflexivity].
Qed.

(** From the four presence tests to the specification's notion. *)
Lemma present_or_not payload field :
  (in_None_empty_str_empty_list (dict_get payload field) = false /\
   counts_as_present (dict_get payload field))
  \/ (in_None_empty_str_empty_list (dict_get payload field) = true /\
      ~ counts_as_present (dict_get payload field)).
Proof.
  destruct (in_None_empty_str_empty_list (dict_get payload field)) eqn:E.
  - right. split; [reflexivity |]. rewrite counts_as_present_iff. congruence.
  - left. split; [reflexivity |]. now apply counts_as_present_iff.
Qed.

(** Uses of a hypothesis [only_present_target payload field] against what
    is known of the four fields. *)
Ltac only_target H :=
  let Hin := fresh "Hin" in
  let Hc := fresh "Hc" in
  let Hu := fresh "Hu" in
  destruct H as (Hin & Hc & Hu);
  pose proof (Hu "account" ltac:(simpl; tauto)) as ?;
  pose proof (Hu "group" ltac:(simpl; tauto)) as ?;
  pose proof (Hu "post_urls" ltac:(simpl; tauto)) as ?;
  pose proof (Hu "hashtag" ltac:(simpl; tauto)) as ?;
  simpl in Hin;
  destruct Hin as [Hin | [Hin | [Hin | [Hin | []]]]];
  try discriminate Hin; try subst;
  try contradiction;
  repeat match goal with
         | Hp : counts_as_present ?v, Hi : counts_as_present ?v -> _ = _ |- _ =>
             specialize (Hi Hp); try discriminate Hi
         end.

Ltac is_only_target :=
  let other := fresh "other" in
  split; [simpl; tauto | split; [assumption |]];
  intros other [<- | [<- | [<- | [<- | []]]]] ?; try reflexivity; contradiction.

(** Target resolution as a table over the four presence tests. *)
Lemma extract_target_table payload :
  _extract_target payload
  = match in_None_empty_str_empty_list (dict_get payload "account"),
          in_None_empty_str_empty_list (dict_get payload "group"),
          in_None_empty_str_empty_list (dict_get payload "post_urls"),
          in_None_empty_str_empty_list (dict_get payload "hashtag") with
    | false, true, true, true => Ret ("account", dict_get payload "account")
    | true, false, true, true => Ret ("group", dict_get payload "group")
    | true, true, false, true =>
        if negb (isinstance_list (dict_get payload "post_urls"))
           || negb (py_bool (dict_get payload "post_urls"))
        then Raise (APIError 400 POST_URLS_LIST)
        else Ret ("post_urls", dict_get payload "post_urls")
    | true, true, true, false => Ret ("hashtag", dict_get payload "hashtag")
    | _, _, _, _ => Raise (APIError 400 EXACTLY_ONE)
    end.
Proof.
  unfold _extract_target. rewrite target_candidates_eq. simpl flat_map.
  destruct (in_None_empty_str_empty_list (dict_get payload "account"));
  destruct (in_None_empty_str_empty_list (dict_get payload "group"));
  destruct (in_None_empty_str_empty_list (dict_get payload "post_urls"));
  destruct (in_None_empty_str_empty_list (dict_get payload "hashtag"));
  reflexivity.
Qed.

(** C2. Target resolution returns (field, value) exactly when [field] is
    the one target field among account, group, post_urls and hashtag that
    counts as present (its value is not null, not the empty string, not the
    empty list), [value] is its value, and the value of a resolved post_urls
    is a non-empty list; with no or several fields present it fails with
    APIError(400, "Exactly one of account, group, post_urls, or hashtag is
    required"); with post_urls the one present field and its value not a
    non-empty list it fails with APIError(400, "post_urls must be a
    non-empty list of URLs"). *)
Theorem extract_target_exactly_one payload :
  (forall field value,
      _extract_target payload = Ret (field, value) <->
      only_present_target payload field /\ value = dict_get payload field /\
      (field = "post_urls" -> non_empty_list value))
  /\ ((~ exists field, only_present_target payload field) ->
      _extract_target payload = Raise (APIError 400 EXACTLY_ONE))
  /\ (only_present_target payload "post_urls" ->
      ~ non_empty_list (dict_get payload "post_urls") ->
      _extract_target payload = Raise (APIError 400 POST_URLS_LIST)).
Proof.
  rewrite extract_target_table.
  destruct (present_or_not payload "account") as [[Ea Ha] | [Ea Ha]];
  destruct (present_or_not payload "group") as [[Eg Hg] | [Eg Hg]];
  destruct (present_or_not payload "post_urls") as [[Ep Hp] | [Ep Hp]];
  destruct (present_or_not payload "hashtag") as [[Eh Hh] | [Eh Hh]];
  rewrite ?Ea, ?Eg, ?Ep, ?Eh; cbv iota.
  all: try (pose proof (present_list_non_empty _ Ep) as Hlist;
            destruct (negb (isinstance_list (dict_get payload "post_urls"))
                      || negb (py_bool (dict_get payload "post_urls")))).
  all: split; [intros field value; split |].
  all: try (intros Heq; discriminate Heq).
  all: try (intros Heq; injection Heq as <- <-;
            split; [is_only_target | split; [reflexivity |]];
            intros Hf; try discriminate Hf; now apply Hlist).
  all: try (intros (Honly & -> & Hl); only_target Honly;
            try reflexivity;
            specialize (Hl eq_refl); apply Hlist in Hl; discriminate Hl).
  all: split.
  all: try (intros Hnone; try reflexivity; exfalso; apply Hnone;
            first [ exists "account"; is_only_target
                  | exists "group"; is_only_target
                  | exists "post_urls"; is_only_target
                  | exists "hashtag"; is_only_target ]).
  all: intros Honly Hl; try reflexivity; only_target Honly;
       exfalso; apply Hl; now apply Hlist.
Qed.

(** ** Integer coercion *)

Lemma coerce_int_bool b field minimum maximum :
  _coerce_int (JBool b) field minimum maximum
  = Raise (APIError 400 (field ++ " must be an integer")).
Proof. reflexivity. Qed.

Lemma coerce_int_not_int value field minimum maximum :
  py_int value = IntTypeError \/ py_int value = IntValueError ->
  _coerce_int value field minimum maximum
  = Raise (APIError 400 (field ++ " must be an integer")).
Proof.
  unfold _coerce_int. intros [-> | ->]; destruct (isinstance_bool value); reflexivity.
Qed.

Lemma coerce_int_converted value field minimum maximum n :
  isinstance_bool value = false ->
  py_int value = IntOk n ->
  _coerce_int value field minimum maximum
  = if Z.ltb n minimum then
      Raise (APIError 400 (field ++ " must be >= " ++ py_str_int minimum))
    else match maximum with
         | Some maximum' =>
             if Z.gtb n maximum' then
               Raise (APIError 400 (field ++ " must be <= " ++ py_str_int maximum'))
             else Ret n
         | None => Ret n
         end.
Proof. unfold _coerce_int. intros -> ->. reflexivity. Qed.

(** Whatever [_coerce_int] returns lies in the range asked for. *)
Lemma coerce_int_in_range value field minimum maximum n :
  _coerce_int value field minimum maximum = Ret n ->
  minimum <= n /\ forall maximum', maximum = Some maximum' -> n <= maximum'.
Proof.
  unfold _coerce_int. destruct (isinstance_bool value); [discriminate |].
  destruct (py_int value) as [m | | |]; try discriminate.
  destruct (Z.ltb_spec m minimum); [discriminate |].
  destruct maximum as [mx |].
  - destruct (Z.gtb_spec m mx); [discriminate |].
    intros [= <-]. split; [lia |]. intros ? [= <-]. lia.
  - intros [= <-]. split; [lia | discriminate].
Qed.

(** What [_coerce_int] raises: a 400 of its own, or the [OverflowError] of
    [int] on an infinite float. *)
Lemma coerce_int_raises value field minimum maximum e :
  _coerce_int value field minimum maximum = Raise e ->
  (exists detail, e = APIError 400 (field ++ detail))
  \/ (py_int value = IntOverflowError /\
      e = OtherException "OverflowError" "cannot convert float infinity to integer").
Proof.
  unfold _coerce_int. destruct (isinstance_bool value).
  { intros [= <-]. left. eauto. }
  destruct (py_int value) as [m | | |].
  - destruct (Z.ltb m minimum); [intros [= <-]; left; eauto |].
    destruct maximum as [mx |]; [| discriminate].
    destruct (Z.gtb m mx); [intros [= <-]; left; eauto | discriminate].
  - intros [= <-]. left. eauto.
  - intros [= <-]. left. eauto.
  - intros [= <-]. right. split; reflexivity.
Qed.

(** Which values [int] refuses with [TypeError]. *)
Lemma py_int_type_error value :
  py_int value = IntTypeError <->
  value = JNull \/ isinstance_list value = true \/ isinstance_dict value = true.
Proof.
  destruct value as [| b | z | f | s | l | kvs]; simpl;
    try (split; [auto | reflexivity]);
    try (split; [discriminate | intros [? | [? | ?]]; discriminate]).
  - destruct f; simpl;
      (split; [discriminate | intros [? | [? | ?]]; discriminate]).
  - destruct (int_of_str s);
      (split; [discriminate | intros [? | [? | ?]]; discriminate]).
Qed.

(** C4 (amended). [_coerce_int] rejects every boolean with APIError(400,
    "<field> must be an integer"); it rejects with the same error every
    input on which [int] raises TypeError or ValueError (TypeError being
    raised on null, lists and objects); every other input that [int]
    converts (an integer is left as it is, a finite float is truncated, a
    string holding an integer literal is parsed) is checked as the
    converted integer: below the minimum it fails with "<field> must be >=
    <minimum>", above a supplied maximum with "<field> must be <=
    <maximum>", and otherwise the converted integer is returned. *)
Theorem coerce_int_contract value field minimum maximum :
  (isinstance_bool value = true ->
     _coerce_int value field minimum maximum
     = Raise (APIError 400 (field ++ " must be an integer")))
  /\ (py_int value = IntTypeError \/ py_int value = IntValueError ->
      _coerce_int value field minimum maximum
      = Raise (APIError 400 (field ++ " must be an integer")))
  /\ (value = JNull \/ isinstance_list value = true \/ isinstance_dict value = true ->
      py_int value = IntTypeError)
  /\ (forall z, py_int (JInt z) = IntOk z)
  /\ (forall n,
      isinstance_bool value = false ->
      py_int value = IntOk n ->
      (n < minimum ->
         _coerce_int value field minimum maximum
         = Raise (APIError 400 (field ++ " must be >= " ++ py_str_int minimum)))
      /\ (forall maximum',
            minimum <= n -> maximum = Some maximum' -> maximum' < n ->
            _coerce_int value field minimum maximum
            = Raise (APIError 400 (field ++ " must be <= " ++ py_str_int maximum')))
      /\ (minimum <= n ->
          (forall maximum', maximum = Some maximum' -> n <= maximum') ->
          _coerce_int value field minimum maximum = Ret n)).
Proof.
  split; [| split; [| split; [| split]]].
  - destruct value; try discriminate. intros _. apply coerce_int_bool.
  - apply coerce_int_not_int.
  - apply py_int_type_error.
  - reflexivity.
  - intros n Hb Hn. rewrite (coerce_int_converted _ _ _ _ _ Hb Hn).
    split; [| split].
    + intros Hlt. destruct (Z.ltb_spec n minimum); [reflexivity | lia].
    + intros mx Hge -> Hgt.
      destruct (Z.ltb_spec n minimum); [lia |].
      destruct (Z.gtb_spec n mx); [reflexivity | lia].
    + intros Hge Hmax.
      destruct (Z.ltb_spec n minimum); [lia |].
      destruct maximum as [mx |]; [| reflexivity].
      specialize (Hmax mx eq_refl).
      destruct (Z.gtb_spec n mx); [lia | reflexivity].
Qed.

(** ** Option extraction *)

Lemma dict_mem_true d key :
  dict_mem d key = true ->
  exists v, dict_lookup d key = Some v /\ dict_get d key = v.
Proof.
  unfold dict_get, dict_get_default.
  induction d as [| [k v] d IH]; simpl; [discriminate |].
  destruct (String.eqb k key); eauto.
Qed.

Lemma dict_mem_false d key :
  dict_mem d key = false -> dict_get d key = JNull.
Proof.
  unfold dict_get, dict_get_default.
  induction d as [| [k v] d IH]; simpl; [reflexivity |].
  destruct (String.eqb k key); [discriminate | exact IH].
Qed.

(** One turn of the first loop: [payload[key]] never raises [KeyError]
    behind the test [key in payload]. *)
Lemma coerce_int_keys_cons key keys payload kwargs :
  coerce_int_keys (key :: keys) payload kwargs
  = if dict_mem payload key then
      match _coerce_int (dict_get payload key) key 1 None with
      | Ret n => coerce_int_keys keys payload (<[key := JInt n]> kwargs)
      | Raise e => Raise e
      end
    else coerce_int_keys keys payload kwargs.
Proof.
  simpl. destruct (dict_mem payload key) eqn:Hmem; [| reflexivity].
  destruct (dict_mem_true _ _ Hmem) as (v & -> & ->). reflexivity.
Qed.

Lemma bool_keys_cons key keys payload kwargs :
  bool_keys (key :: keys) payload kwargs
  = if dict_mem payload key then
      bool_keys keys payload (<[key := JBool (py_bool (dict_get payload key))]> kwargs)
    else bool_keys keys payload kwargs.
Proof.
  simpl. destruct (dict_mem payload key) eqn:Hmem; [| reflexivity].
  destruct (dict_mem_true _ _ Hmem) as (v & -> & ->). reflexivity.
Qed.

(** What the first loop leaves under each key. *)
Lemma coerce_int_keys_lookup keys payload :
  forall kwargs kwargs',
    coerce_int_keys keys payload kwargs = Ret kwargs' ->
    forall key,
      kwargs' !! key
      = if key_in key keys && dict_mem payload key then
          match _coerce_int (dict_get payload key) key 1 None with
          | Ret n => Some (JInt n)
          | Raise _ => None
          end
        else kwargs !! key.
Proof.
  induction keys as [| k keys IH]; intros kwargs kwargs' Hrun key.
  - simpl in Hrun. injection Hrun as <-. reflexivity.
  - rewrite coerce_int_keys_cons in Hrun. unfold key_in. simpl existsb.
    fold (key_in key keys).
    destruct (dict_mem payload k) eqn:Hmem.
    + destruct (_coerce_int (dict_get payload k) k 1 None) as [n | e] eqn:Hn;
        [| discriminate].
      rewrite (IH _ _ Hrun key).
      destruct (String.eqb_spec key k) as [-> | Hne].
      * rewrite Hmem, Hn, lookup_insert_eq. simpl.
        destruct (key_in k keys); reflexivity.
      * rewrite lookup_insert_ne by congruence. reflexivity.
    + rewrite (IH _ _ Hrun key).
      destruct (String.eqb_spec key k) as [-> | Hne]; [| reflexivity].
      rewrite Hmem. simpl. rewrite andb_false_r. reflexivity.
Qed.

(** The first loop succeeds exactly when every integer option is fine. *)
Lemma coerce_int_keys_ok keys payload :
  Forall (int_key_ok payload) keys ->
  forall kwargs, exists kwargs', coerce_int_keys keys payload kwargs = Ret kwargs'.
Proof.
  induction 1 as [| k keys Hk _ IH]; intros kwargs.
  - simpl. eauto.
  - rewrite coerce_int_keys_cons.
    destruct Hk as [-> | [n Hn]]; [apply IH |].
    destruct (dict_mem payload k); [| apply IH]. rewrite Hn. apply IH.
Qed.

(** It stops at the first integer option that is not, with its error. *)
Lemma coerce_int_keys_raise before key after payload e :
  Forall (int_key_ok payload) before ->
  dict_mem payload key = true ->
  _coerce_int (dict_get payload key) key 1 None = Raise e ->
  forall kwargs, coerce_int_keys (before ++ key :: after) payload kwargs = Raise e.
Proof.
  intros Hbefore Hmem He.
  induction Hbefore as [| k before Hk _ IH]; intros kwargs.
  - rewrite app_nil_l, coerce_int_keys_cons, Hmem, He. reflexivity.
  - rewrite <- app_comm_cons, coerce_int_keys_cons.
    destruct Hk as [-> | [n Hn]]; [apply IH |].
    destruct (dict_mem payload k); [| apply IH]. rewrite Hn. apply IH.
Qed.

(** The last loop never fails. *)
Lemma bool_keys_lookup keys payload :
  forall kwargs, exists kwargs',
    bool_keys keys payload kwargs = Ret kwargs' /\
    forall key,
      kwargs' !! key
      = if key_in key keys && dict_mem payload key then
          Some (JBool (py_bool (dict_get payload key)))
        else kwargs !! key.
Proof.
  induction keys as [| k keys IH]; intros kwargs.
  - exists kwargs. split; reflexivity.
  - rewrite bool_keys_cons. unfold key_in. simpl existsb. fold key_in.
    destruct (dict_mem payload k) eqn:Hmem.
    + destruct (IH (<[k := JBool (py_bool (dict_get payload k))]> kwargs))
        as (kwargs' & -> & Hlook).
      exists kwargs'. split; [reflexivity |]. intros key. rewrite Hlook.
      fold (key_in key keys).
      destruct (String.eqb_spec key k) as [-> | Hne].
      * rewrite Hmem, lookup_insert_eq. simpl.
        destruct (key_in k keys); reflexivity.
      * rewrite lookup_insert_ne by congruence. reflexivity.
    + destruct (IH kwargs) as (kwargs' & -> & Hlook).
      exists kwargs'. split; [reflexivity |]. intros key. rewrite Hlook.
      fold (key_in key keys).
      destruct (String.eqb_spec key k) as [-> | Hne]; [| reflexivity].
      rewrite Hmem. simpl. rewrite andb_false_r. reflexivity.
Qed.

(** [_extract_request_kwargs] as its four stages. *)
Lemma extract_request_kwargs_stages payload :
  _extract_request_kwargs payload
  = match coerce_int_keys INT_KEYS payload ∅ with
    | Raise e => Raise e
    | Ret kwargs =>
        let options := dict_get payload "options" in
        let cookies := dict_get payload "cookies" in
        if is_not_None options && negb (isinstance_dict options) then
          Raise (APIError 400 OPTIONS_OBJECT)
        else if is_not_None cookies && negb (isinstance_dict_or_str cookies) then
          Raise (APIError 400 COOKIES_STRING_OR_MAPPING)
        else
          let kwargs := if is_not_None options then <["options" := options]> kwargs
                        else kwargs in
          let kwargs := if is_not_None cookies then <["cookies" := cookies]> kwargs
                        else kwargs in
          bool_keys BOOL_KEYS payload kwargs
    end.
Proof.
  unfold _extract_request_kwargs, INT_KEYS, BOOL_KEYS.
  destruct (coerce_int_keys _ payload ∅) as [kwargs | e]; [| reflexivity].
  cbn. destruct (is_not_None (dict_get payload "options"));
    [destruct (isinstance_dict (dict_get payload "options")) |]; reflexivity.
Qed.

(** What a successful extraction holds under each key. *)
Lemma extract_request_kwargs_lookup payload kwargs :
  _extract_request_kwargs payload = Ret kwargs ->
  forall key,
    kwargs !! key
    = if key_in key BOOL_KEYS && dict_mem payload key then
        Some (JBool (py_bool (dict_get payload key)))
      else if String.eqb key "cookies" && is_not_None (dict_get payload "cookies") then
        Some (dict_get payload "cookies")
      else if String.eqb key "options" && is_not_None (dict_get payload "options") then
        Some (dict_get payload "options")
      else if key_in key INT_KEYS && dict_mem payload key then
        match _coerce_int (dict_get payload key) key 1 None with
        | Ret n => Some (JInt n)
        | Raise _ => None
        end
      else None.
Proof.
  rewrite extract_request_kwargs_stages.
  destruct (coerce_int_keys INT_KEYS payload ∅) as [kw1 | e] eqn:Hint; [| discriminate].
  pose proof (coerce_int_keys_lookup _ _ _ _ Hint) as Hlook1.
  cbv zeta.
  destruct (is_not_None (dict_get payload "options") &&
            negb (isinstance_dict (dict_get payload "options"))); [discriminate |].
  destruct (is_not_None (dict_get payload "cookies") &&
            negb (isinstance_dict_or_str (dict_get payload "cookies"))); [discriminate |].
  match goal with
  | |- bool_keys _ _ ?kw = _ -> _ =>
      destruct (bool_keys_lookup BOOL_KEYS payload kw) as (kw4 & -> & Hlook4)
  end.
  intros [= <-] key. rewrite Hlook4.
  destruct (key_in key BOOL_KEYS && dict_mem payload key); [reflexivity |].
  destruct (String.eqb_spec key "cookies") as [-> | Hc]; simpl andb.
  - destruct (is_not_None (dict_get payload "cookies")).
    + apply lookup_insert_eq.
    + destruct (is_not_None (dict_get payload "options")).
      * rewrite lookup_insert_ne by discriminate. rewrite Hlook1.
        rewrite lookup_empty. reflexivity.
      * rewrite Hlook1, lookup_empty. reflexivity.
  - assert (forall (m : gmap string json),
              (if is_not_None (dict_get payload "cookies")
               then <["cookies" := dict_get payload "cookies"]> m else m) !! key
              = m !! key) as ->.
    { intros m. destruct (is_not_None (dict_get payload "cookies"));
        [apply lookup_insert_ne; congruence | reflexivity]. }
    destruct (String.eqb_spec key "options") as [-> | Ho]; simpl andb.
    + destruct (is_not_None (dict_get payload "options")).
      * apply lookup_insert_eq.
      * rewrite Hlook1, lookup_empty. reflexivity.
    + destruct (is_not_None (dict_get payload "options")).
      * rewrite lookup_insert_ne by congruence. rewrite Hlook1, lookup_empty.
        reflexivity.
      * rewrite Hlook1, lookup_empty. reflexivity.
Qed.

Lemma is_not_None_iff v : is_not_None v = true <-> v <> JNull.
Proof. destruct v; simpl; split; congruence. Qed.

Lemma is_not_None_false v : is_not_None v = false <-> v = JNull.
Proof. destruct v; simpl; split; congruence. Qed.

Lemma coerce_int_keys_ret keys payload :
  forall kwargs kwargs',
    coerce_int_keys keys payload kwargs = Ret kwargs' ->
    Forall (int_key_ok payload) keys.
Proof.
  induction keys as [| k keys IH]; intros kwargs kwargs' Hrun; [constructor |].
  rewrite coerce_int_keys_cons in Hrun.
  destruct (dict_mem payload k) eqn:Hmem.
  - destruct (_coerce_int (dict_get payload k) k 1 None) as [n | e] eqn:Hn;
      [| discriminate].
    constructor; [right; eauto | eapply IH; eassumption].
  - constructor; [left; assumption | eapply IH; eassumption].
Qed.

(** What a successful extraction says of the request. *)
Lemma extract_request_kwargs_ret payload kwargs :
  _extract_request_kwargs payload = Ret kwargs ->
  Forall (int_key_ok payload) INT_KEYS
  /\ (dict_get payload "options" <> JNull ->
      isinstance_dict (dict_get payload "options") = true)
  /\ (dict_get payload "cookies" <> JNull ->
      isinstance_dict_or_str (dict_get payload "cookies") = true).
Proof.
  rewrite extract_request_kwargs_stages.
  destruct (coerce_int_keys INT_KEYS payload ∅) as [kw1 | e] eqn:Hint; [| discriminate].
  cbv zeta.
  destruct (is_not_None (dict_get payload "options")) eqn:Ho;
    destruct (isinstance_dict (dict_get payload "options")) eqn:Ho';
    simpl; try discriminate;
    destruct (is_not_None (dict_get payload "cookies")) eqn:Hc;
    destruct (isinstance_dict_or_str (dict_get payload "cookies")) eqn:Hc';
    simpl; try discriminate; intros _;
    (split; [eapply coerce_int_keys_ret; eassumption |]);
    apply is_not_None_false in Ho || apply is_not_None_iff in Ho;
    apply is_not_None_false in Hc || apply is_not_None_iff in Hc;
    split; intros; congruence.
Qed.

(** The members of the two tuples of keys, for case analysis. *)
Lemma in_INT_KEYS key :
  In key INT_KEYS -> key = "pages" \/ key = "page_limit" \/ key = "timeout".
Proof. simpl. intuition auto. Qed.

Lemma in_BOOL_KEYS key :
  In key BOOL_KEYS -> key = "extra_info" \/ key = "youtube_dl".
Proof. simpl. intuition auto. Qed.

Lemma key_in_false key keys : ~ In key keys -> key_in key keys = false.
Proof.
  unfold key_in. induction keys as [| k keys IH]; simpl; [reflexivity |].
  intros Hn. destruct (String.eqb_spec key k) as [-> | _]; [tauto |].
  apply IH. tauto.
Qed.

(** C7 (amended). Option extraction reads pages, page_limit and timeout in
    this order: each one that is a key of the request is coerced as an
    integer with minimum 1 and no maximum and kept under the same key, and
    the first coercion that fails ends the extraction with its error.  Then
    an options value other than null must be an object, else APIError(400,
    "options must be an object"), and is kept unmodified; then a cookies
    value other than null must be a string or an object, else APIError(400,
    "cookies must be a string path or name/value mapping"), and is kept
    unmodified; a null options or cookies value is treated as absent.
    Then extra_info and youtube_dl, when they are keys of the request, are
    kept as the truthiness of their value, of whatever JSON type.  A key
    that is absent from the request, or is none of the seven, is absent
    from the output map. *)
Theorem extract_request_kwargs_contract payload :
  (forall kwargs,
      _extract_request_kwargs payload = Ret kwargs ->
      (forall key, In key INT_KEYS ->
         (dict_mem payload key = true ->
            exists n, _coerce_int (dict_get payload key) key 1 None = Ret n /\
                      1 <= n /\ kwargs !! key = Some (JInt n))
         /\ (dict_mem payload key = false -> kwargs !! key = None))
      /\ (dict_get payload "options" <> JNull ->
          isinstance_dict (dict_get payload "options") = true /\
          kwargs !! "options" = Some (dict_get payload "options"))
      /\ (dict_get payload "options" = JNull -> kwargs !! "options" = None)
      /\ (dict_get payload "cookies" <> JNull ->
          isinstance_dict_or_str (dict_get payload "cookies") = true /\
          kwargs !! "cookies" = Some (dict_get payload "cookies"))
      /\ (dict_get payload "cookies" = JNull -> kwargs !! "cookies" = None)
      /\ (forall key, In key BOOL_KEYS ->
          (dict_mem payload key = true ->
             kwargs !! key = Some (JBool (py_bool (dict_get payload key))))
          /\ (dict_mem payload key = false -> kwargs !! key = None))
      /\ (forall key, dict_mem payload key = false -> kwargs !! key = None)
      /\ (forall key,
            ~ In key (INT_KEYS ++ ["options"; "cookies"] ++ BOOL_KEYS)%list ->
            kwargs !! key = None))
  /\ (forall before key after e,
        INT_KEYS = (before ++ key :: after)%list ->
        Forall (int_key_ok payload) before ->
        dict_mem payload key = true ->
        _coerce_int (dict_get payload key) key 1 None = Raise e ->
        _extract_request_kwargs payload = Raise e)
  /\ (Forall (int_key_ok payload) INT_KEYS ->
      dict_get payload "options" <> JNull ->
      isinstance_dict (dict_get payload "options") = false ->
      _extract_request_kwargs payload = Raise (APIError 400 OPTIONS_OBJECT))
  /\ (Forall (int_key_ok payload) INT_KEYS ->
      dict_get payload "options" = JNull \/
        isinstance_dict (dict_get payload "options") = true ->
      dict_get payload "cookies" <> JNull ->
      isinstance_dict_or_str (dict_get payload "cookies") = false ->
      _extract_request_kwargs payload = Raise (APIError 400 COOKIES_STRING_OR_MAPPING))
  /\ (Forall (int_key_ok payload) INT_KEYS ->
      dict_get payload "options" = JNull \/
        isinstance_dict (dict_get payload "options") = true ->
      dict_get payload "cookies" = JNull \/
        isinstance_dict_or_str (dict_get payload "cookies") = true ->
      exists kwargs, _extract_request_kwargs payload = Ret kwargs).
Proof.
  split; [| split; [| split; [| split]]].
  - intros kwargs Hret.
    pose proof (extract_request_kwargs_lookup _ _ Hret) as Hlook.
    destruct (extract_request_kwargs_ret _ _ Hret) as (Hints & Hopt & Hcook).
    split; [| split; [| split; [| split; [| split; [| split; [| split]]]]]].
    + intros key Hin. split; intros Hmem.
      * assert (int_key_ok payload key) as [Hno | [n Hn]]
          by (exact (proj1 (List.Forall_forall _ _) Hints key Hin)); [congruence |].
        exists n. split; [exact Hn |].
        split; [apply (coerce_int_in_range _ _ _ _ _ Hn) |].
        rewrite Hlook, Hmem, Hn.
        apply in_INT_KEYS in Hin as [-> | [-> | ->]]; reflexivity.
      * rewrite Hlook, Hmem, (dict_mem_false _ _ Hmem).
        apply in_INT_KEYS in Hin as [-> | [-> | ->]];
          rewrite ?andb_false_r; simpl;
          repeat match goal with
                 | |- context [is_not_None (dict_get payload ?k)] =>
                     destruct (is_not_None (dict_get payload k))
                 end; reflexivity.
    + intros Hnn. split; [auto |].
      rewrite Hlook. apply is_not_None_iff in Hnn. rewrite Hnn. simpl.
      destruct (is_not_None (dict_get payload "cookies")); reflexivity.
    + intros Hnull. rewrite Hlook, Hnull. simpl.
      destruct (is_not_None (dict_get payload "cookies")); reflexivity.
    + intros Hnn. split; [auto |].
      rewrite Hlook. apply is_not_None_iff in Hnn. rewrite Hnn. reflexivity.
    + intros Hnull. rewrite Hlook, Hnull. reflexivity.
    + intros key Hin. split; intros Hmem.
      * rewrite Hlook, Hmem.
        apply in_BOOL_KEYS in Hin as [-> | ->]; reflexivity.
      * rewrite Hlook, Hmem, (dict_mem_false _ _ Hmem).
        rewrite !andb_false_r.
        apply in_BOOL_KEYS in Hin as [-> | ->]; simpl;
          repeat match goal with
                 | |- context [is_not_None (dict_get payload ?k)] =>
                     destruct (is_not_None (dict_get payload k))
                 end; reflexivity.
    + intros key Hmem. rewrite Hlook, Hmem. rewrite !andb_false_r.
      destruct (String.eqb_spec key "cookies") as [-> | _].
      { rewrite (dict_mem_false _ _ Hmem). reflexivity. }
      destruct (String.eqb_spec key "options") as [-> | _]; [| reflexivity].
      rewrite (dict_mem_false _ _ Hmem). reflexivity.
    + intros key Hnot. rewrite Hlook.
      rewrite (key_in_false key BOOL_KEYS), (key_in_false key INT_KEYS)
        by (intros Hin; apply Hnot; simpl in *; tauto).
      destruct (String.eqb_spec key "cookies");
        [exfalso; apply Hnot; simpl; auto 6 |].
      destruct (String.eqb_spec key "options");
        [exfalso; apply Hnot; simpl; auto 6 |].
      reflexivity.
  - intros before key after e Hsplit Hbefore Hmem He.
    rewrite extract_request_kwargs_stages, Hsplit.
    rewrite (coerce_int_keys_raise _ _ _ _ _ Hbefore Hmem He). reflexivity.
  - intros Hints Hopt Hnot.
    rewrite extract_request_kwargs_stages.
    destruct (coerce_int_keys_ok _ _ Hints ∅) as (kw1 & ->). cbv zeta.
    apply is_not_None_iff in Hopt. rewrite Hopt, Hnot. reflexivity.
  - intros Hints Hopt Hcook Hnot.
    rewrite extract_request_kwargs_stages.
    destruct (coerce_int_keys_ok _ _ Hints ∅) as (kw1 & ->). cbv zeta.
    apply is_not_None_iff in Hcook. rewrite Hcook, Hnot.
    destruct Hopt as [-> | ->]; [reflexivity |].
    rewrite andb_false_r. reflexivity.
  - intros Hints Hopt Hcook.
    rewrite extract_request_kwargs_stages.
    destruct (coerce_int_keys_ok _ _ Hints ∅) as (kw1 & ->). cbv zeta.
    assert (is_not_None (dict_get payload "options") &&
            negb (isinstance_dict (dict_get payload "options")) = false) as ->.
    { destruct Hopt as [-> | ->]; [reflexivity | apply andb_false_r]. }
    assert (is_not_None (dict_get payload "cookies") &&
            negb (isinstance_dict_or_str (dict_get payload "cookies")) = false) as ->.
    { destruct Hcook as [-> | ->]; [reflexivity | apply andb_false_r]. }
    match goal with
    | |- exists _, bool_keys _ _ ?kw = _ =>
        destruct (bool_keys_lookup BOOL_KEYS payload kw) as (kw4 & -> & _)
    end.
    eauto.
Qed.

(** ** The collector behind its validation *)

Lemma lift_ret_bind {A B : Type} (a : A) (f : A -> M B) :
  lift (Ret a) ≫= f = f a.
Proof. unfold lift, mbind, M_bind. destruct (f a); reflexivity. Qed.

Lemma run_ret_bind {A B : Type} (a : A) (trace : list event) (f : A -> M B) :
  Run (Ret a) trace ≫= f
  = match f a with
    | OutOfFuel => OutOfFuel
    | Run r trace' => Run r (trace ++ trace')%list
    end.
Proof. reflexivity. Qed.

Lemma target_is_target_field payload field value :
  _extract_target payload = Ret (field, value) -> In field TARGET_FIELDS.
Proof.
  rewrite extract_target_table.
  destruct (in_None_empty_str_empty_list (dict_get payload "account"));
  destruct (in_None_empty_str_empty_list (dict_get payload "group"));
  destruct (in_None_empty_str_empty_list (dict_get payload "post_urls"));
  destruct (in_None_empty_str_empty_list (dict_get payload "hashtag"));
  try discriminate;
  try destruct (negb (isinstance_list (dict_get payload "post_urls"))
                || negb (py_bool (dict_get payload "post_urls")));
  try discriminate;
  intros [= <- _]; simpl; tauto.
Qed.

(** The keyword arguments never clash: no option is named like a target. *)
Lemma kwargs_no_target payload field value kwargs :
  _extract_target payload = Ret (field, value) ->
  _extract_request_kwargs payload = Ret kwargs ->
  kwargs !! field = None.
Proof.
  intros Htarget Hkwargs.
  apply target_is_target_field in Htarget.
  rewrite (extract_request_kwargs_lookup _ _ Hkwargs).
  simpl in Htarget.
  destruct Htarget as [<- | [<- | [<- | [<- | []]]]]; reflexivity.
Qed.

(** After a validation that passes, [_collect_posts] is the call of the
    capability followed by the loop. *)
Lemma collect_posts_valid payload field value kwargs limit :
  _extract_target payload = Ret (field, value) ->
  _extract_request_kwargs payload = Ret kwargs ->
  _coerce_int (supplied_limit payload) "limit" 1 (Some MAX_LIMIT) = Ret limit ->
  _collect_posts payload = collect_with field value kwargs limit.
Proof.
  intros Htarget Hkwargs Hlimit. unfold _collect_posts, collect_with.
  unfold supplied_limit in Hlimit.
  rewrite Htarget, lift_ret_bind, Hkwargs, lift_ret_bind, Hlimit, lift_ret_bind.
  rewrite (kwargs_no_target _ _ _ _ Htarget Hkwargs).
  unfold call_get_posts.
  destruct (get_posts (<[field := value]> kwargs)); reflexivity.
Qed.

(** A validation that fails ends [_collect_posts] before any effect. *)
Lemma collect_posts_invalid payload e :
  _extract_target payload = Raise e
  \/ (exists target, _extract_target payload = Ret target /\
                     _extract_request_kwargs payload = Raise e)
  \/ (exists target kwargs,
        _extract_target payload = Ret target /\
        _extract_request_kwargs payload = Ret kwargs /\
        _coerce_int (supplied_limit payload) "limit" 1 (Some MAX_LIMIT) = Raise e) ->
  _collect_posts payload = Run (Raise e) [].
Proof.
  unfold _collect_posts, supplied_limit.
  intros [-> | [([field value] & -> & ->) | ([field value] & kwargs & -> & -> & ->)]];
    rewrite ?lift_ret_bind; reflexivity.
Qed.

Lemma wanted_0 limit : 1 <= limit -> wanted limit 0 = Z.to_nat limit.
Proof. unfold wanted. simpl. lia. Qed.

(** The loop with the fuel [_collect_posts] gives it, on a source that
    produces exactly [posts]: the first [limit] of them, and no more [next]
    than that, or one more than there are posts when they are fewer. *)
Lemma for_post_in_take it posts limit :
  1 <= limit ->
  yields_exactly it posts ->
  for_post_in (S (Z.to_nat limit)) limit it []
  = Run (Ret (take (Z.to_nat limit) posts))
        (replicate (Nat.min (Z.to_nat limit) (S (length posts))) EvNext).
Proof.
  intros Hlimit (it' & Hyields & Hstop).
  destruct (Nat.le_gt_cases (Z.to_nat limit) (length posts)) as [Hle | Hgt].
  - rewrite (for_post_in_enough _ _ _ Hyields); simpl length;
      rewrite ?wanted_0 by assumption; try lia.
    rewrite Nat.min_l by lia. reflexivity.
  - rewrite (for_post_in_short _ _ _ Hyields Hstop); simpl length;
      rewrite ?wanted_0 by assumption; try lia.
    rewrite Nat.min_r by lia. rewrite take_ge by lia. reflexivity.
Qed.

(** [_collect_posts] always finishes: the fuel of its loop is enough. *)
Lemma collect_posts_terminates payload : _collect_posts payload <> OutOfFuel.
Proof.
  unfold _collect_posts.
  destruct (_extract_target payload) as [[field value] | e]; [| discriminate].
  destruct (_extract_request_kwargs payload) as [kwargs | e]; [| discriminate].
  destruct (_coerce_int _ "limit" 1 (Some MAX_LIMIT)) as [limit | e]; [| discriminate].
  rewrite !lift_ret_bind. destruct (kwargs !! field); [discriminate |].
  unfold call_get_posts.
  destruct (get_posts _) as [iterator | e]; [| discriminate].
  rewrite run_ret_bind.
  pose proof (for_post_in_finishes (S (Z.to_nat limit)) limit iterator []) as Hfin.
  destruct (for_post_in _ _ _ _); [discriminate |].
  exfalso. apply Hfin; [unfold wanted; simpl; lia | reflexivity].
Qed.

(** ** The handler *)

Lemma load_and_collect_loaded env payload trace :
  _load_json_body env = Run (Ret payload) trace ->
  load_and_collect env
  = match _collect_posts payload with
    | OutOfFuel => OutOfFuel
    | Run r trace' => Run r (trace ++ trace')%list
    end.
Proof. unfold load_and_collect. intros ->. apply run_ret_bind. Qed.

Lemma load_and_collect_not_loaded env e trace :
  _load_json_body env = Run (Raise e) trace ->
  load_and_collect env = Run (Raise e) trace.
Proof. unfold load_and_collect. intros ->. reflexivity. Qed.

(** ** What [json.dumps] makes of the posts *)

Lemma to_json_PyList l :
  to_json (PyList l)
  = match to_json_list l with
    | Raise e => Raise e
    | Ret written => Ret (JList written)
    end.
Proof. reflexivity. Qed.

(** The payload of the success response. *)
Lemma to_json_count_posts n posts :
  to_json (PyDict [("count", PyInt n); ("posts", PyList posts)])
  = match to_json_list posts with
    | Raise e => Raise e
    | Ret written => Ret (JObj [("count", JInt n); ("posts", JList written)])
    end.
Proof.
  cbn [to_json]. fold (to_json_list posts).
  destruct (to_json_list posts); reflexivity.
Qed.

(** [json.dumps] raises nothing but the TypeError that names a type. *)
Lemma to_json_raises :
  forall v e, to_json v = Raise e -> exists type_name, e = NOT_SERIALIZABLE type_name.
Proof.
  fix IH 1. intros [| b | z | f | s | l | kvs | type_name] e;
    try discriminate.
  - rewrite to_json_PyList.
    assert (to_json_list l = Raise e -> exists type_name, e = NOT_SERIALIZABLE type_name)
      as Hlist.
    { induction l as [| x l IHl]; [discriminate |].
      cbn [to_json_list].
      destruct (to_json x) as [x' | e'] eqn:Hx.
      - destruct (to_json_list l); [discriminate |].
        intros [= ->]. now apply IHl.
      - intros [= ->]. exact (IH x e Hx). }
    destruct (to_json_list l); [discriminate |].
    intros [= ->]. now apply Hlist.
  - cbn [to_json].
    match goal with
    | |- match ?items kvs with _ => _ end = _ -> _ =>
        assert (items kvs = Raise e -> exists type_name, e = NOT_SERIALIZABLE type_name)
          as Hitems;
        [| destruct (items kvs); [discriminate | intros [= ->]; now apply Hitems]]
    end.
    induction kvs as [| [k x] kvs IHkvs]; [discriminate |].
    destruct (to_json x) as [x' | e'] eqn:Hx.
    + match goal with
      | |- match ?items kvs with _ => _ end = _ -> _ => destruct (items kvs)
      end; [discriminate |].
      intros [= ->]. now apply IHkvs.
    + intros [= ->]. exact (IH x e Hx).
  - intros [= <-]. eauto.
Qed.

Lemma to_json_list_raises posts e :
  to_json_list posts = Raise e -> exists type_name, e = NOT_SERIALIZABLE type_name.
Proof.
  intros Hposts. apply (to_json_raises (PyList posts)).
  rewrite to_json_PyList, Hposts. reflexivity.
Qed.

(** What [json.dumps] writes for an object made of a JSON value is that
    value. *)
Lemma to_json_of_json : forall v, to_json (of_json v) = Ret v.
Proof.
  fix IH 1. intros [| b | z | f | s | l | kvs]; try reflexivity.
  - cbn [of_json]. rewrite to_json_PyList.
    assert (to_json_list (List.map of_json l) = Ret l) as ->; [| reflexivity].
    induction l as [| x l IHl]; [reflexivity |].
    cbn [List.map to_json_list]. rewrite (IH x), IHl. reflexivity.
  - cbn [of_json to_json].
    match goal with
    | |- match ?items _ with _ => _ end = _ =>
        assert (items (List.map (fun kv => (fst kv, of_json (snd kv))) kvs) = Ret kvs)
          as ->; [| reflexivity]
    end.
    induction kvs as [| [k x] kvs IHkvs]; [reflexivity |].
    cbn [List.map fst snd]. rewrite (IH x), IHkvs. reflexivity.
Qed.

Lemma to_json_list_of_json posts : to_json_list (List.map of_json posts) = Ret posts.
Proof.
  induction posts as [| x posts IH]; [reflexivity |].
  cbn [List.map to_json_list]. rewrite to_json_of_json, IH. reflexivity.
Qed.

Lemma to_json_list_length posts written :
  to_json_list posts = Ret written -> length written = length posts.
Proof.
  revert written. induction posts as [| x posts IH]; intros written.
  - intros [= <-]. reflexivity.
  - cbn [to_json_list]. destruct (to_json x); [| discriminate].
    destruct (to_json_list posts) as [l |]; [| discriminate].
    intros [= <-]. simpl. f_equal. now apply IH.
Qed.

(** The answer to a collection that returns: the success response, or the
    TypeError of its [json.dumps], which nothing catches. *)
Lemma handle_posts_returns env posts trace :
  _is_json (CONTENT_TYPE env) = true ->
  load_and_collect env = Run (Ret posts) trace ->
  _handle_posts env
  = Run (match to_json_list posts with
         | Raise e => Raise e
         | Ret written =>
             Ret (_json_response HTTPStatus.OK
                    (JObj [("count", JInt (Z.of_nat (length posts)));
                           ("posts", JList written)]))
         end)
        trace.
Proof.
  unfold _handle_posts, try_except, _json_response_of. intros -> ->.
  simpl negb. cbv iota. rewrite to_json_count_posts.
  destruct (to_json_list posts); simpl; rewrite app_nil_r; reflexivity.
Qed.

Lemma handle_posts_raises env e trace :
  _is_json (CONTENT_TYPE env) = true ->
  load_and_collect env = Run (Raise e) trace ->
  _handle_posts env
  = match except_clauses e with
    | OutOfFuel => OutOfFuel
    | Run r trace' => Run r (trace ++ trace')%list
    end.
Proof. unfold _handle_posts. intros -> ->. reflexivity. Qed.

Lemma next_calls_replicate n : next_calls (replicate n EvNext) = n.
Proof.
  unfold next_calls. induction n as [| n IH]; [reflexivity |].
  cbn [replicate List.filter length]. now f_equal.
Qed.

(** The bounded collection where it is answered.  When the request passes
    validation and the capability returns a source that produces N posts:
    if N > limit,
    the collector returns the first [limit] posts in the order produced,
    after exactly [limit] calls of [next] on the source, and, when
    [json.dumps] can write these posts, the response is 200 with count =
    limit and these posts; if N = 0, the collector returns the empty list
    and the response is 200 with count = 0 and posts = []. *)
Lemma collect_posts_bounded env payload trace field value kwargs limit it posts :
  _is_json (CONTENT_TYPE env) = true ->
  _load_json_body env = Run (Ret payload) trace ->
  _extract_target payload = Ret (field, value) ->
  _extract_request_kwargs payload = Ret kwargs ->
  _coerce_int (supplied_limit payload) "limit" 1 (Some MAX_LIMIT) = Ret limit ->
  get_posts (<[field := value]> kwargs) = Ret it ->
  yields_exactly it posts ->
  let call := EvGetPosts (<[field := value]> kwargs) in
  (Z.of_nat (length posts) > limit ->
     let kept := take (Z.to_nat limit) posts in
     let events := call :: replicate (Z.to_nat limit) EvNext in
     _collect_posts payload = Run (Ret kept) events
     /\ next_calls events = Z.to_nat limit
     /\ (forall written,
           to_json_list kept = Ret written ->
           _handle_posts env
           = Run (Ret (_json_response HTTPStatus.OK
                         (JObj [("count", JInt limit); ("posts", JList written)])))
                 (trace ++ events)%list
           /\ status (_json_response HTTPStatus.OK
                        (JObj [("count", JInt limit); ("posts", JList written)]))
              = "200 OK"))
  /\ (posts = [] ->
      _collect_posts payload = Run (Ret []) [call; EvNext]
      /\ _handle_posts env
         = Run (Ret (_json_response HTTPStatus.OK
                       (JObj [("count", JInt 0); ("posts", JList [])])))
               (trace ++ [call; EvNext])%list).
Proof.
  intros Hjson Hload Htarget Hkwargs Hlimit Hcall Hyields call.
  pose proof (proj1 (coerce_int_in_range _ _ _ _ _ Hlimit)) as Hone.
  pose proof (collect_posts_valid _ _ _ _ _ Htarget Hkwargs Hlimit) as Hcollect.
  unfold collect_with in Hcollect.
  rewrite Hcall, (for_post_in_take _ _ _ Hone Hyields) in Hcollect.
  split.
  - intros Hmany kept events.
    assert (_collect_posts payload = Run (Ret kept) events) as Hrun.
    { rewrite Hcollect. rewrite Nat.min_l by lia. reflexivity. }
    split; [exact Hrun |]. split.
    + exact (next_calls_replicate (Z.to_nat limit)).
    + intros written Hwritten. split; [| reflexivity].
      rewrite (handle_posts_returns env kept (trace ++ events)%list Hjson).
      * rewrite Hwritten. unfold kept at 1. rewrite length_take.
        replace (Z.of_nat (Z.to_nat limit `min` length posts)) with limit by lia.
        reflexivity.
      * rewrite (load_and_collect_loaded _ _ _ Hload), Hrun. reflexivity.
  - intros ->.
    assert (_collect_posts payload = Run (Ret []) [call; EvNext]) as Hrun.
    { rewrite Hcollect. simpl length. rewrite Nat.min_r by lia.
      rewrite take_nil. reflexivity. }
    split; [exact Hrun |].
    rewrite (handle_posts_returns env [] (trace ++ [call; EvNext])%list Hjson).
    + reflexivity.
    + rewrite (load_and_collect_loaded _ _ _ Hload), Hrun. reflexivity.
Qed.

(** C1, where it fails.  When the request passes validation, the
    capability returns a source that produces N > limit posts, and one of
    the first [limit] posts holds an object [json.dumps] cannot write (the
    [datetime] of a post's time, say): the collector returns the first
    [limit] posts after exactly [limit] calls of [next], as the claim has
    it, but there is no response with count = limit: the final
    [_json_response], which is outside the [try], raises TypeError, and
    the exception leaves the handler. *)
Theorem unwritable_posts_are_not_answered
    env payload trace field value kwargs limit it posts e :
  _is_json (CONTENT_TYPE env) = true ->
  _load_json_body env = Run (Ret payload) trace ->
  _extract_target payload = Ret (field, value) ->
  _extract_request_kwargs payload = Ret kwargs ->
  _coerce_int (supplied_limit payload) "limit" 1 (Some MAX_LIMIT) = Ret limit ->
  get_posts (<[field := value]> kwargs) = Ret it ->
  yields_exactly it posts ->
  Z.of_nat (length posts) > limit ->
  to_json_list (take (Z.to_nat limit) posts) = Raise e ->
  let kept := take (Z.to_nat limit) posts in
  let events :=
    EvGetPosts (<[field := value]> kwargs) :: replicate (Z.to_nat limit) EvNext in
  _collect_posts payload = Run (Ret kept) events
  /\ next_calls events = Z.to_nat limit
  /\ _handle_posts env = Run (Raise e) (trace ++ events)%list
  /\ exists type_name, e = NOT_SERIALIZABLE type_name.
Proof.
  intros Hjson Hload Htarget Hkwargs Hlimit Hcall Hyields Hmany Hunwritable
    kept events.
  pose proof (proj1 (coerce_int_in_range _ _ _ _ _ Hlimit)) as Hone.
  pose proof (collect_posts_valid _ _ _ _ _ Htarget Hkwargs Hlimit) as Hcollect.
  unfold collect_with in Hcollect.
  rewrite Hcall, (for_post_in_take _ _ _ Hone Hyields) in Hcollect.
  assert (_collect_posts payload = Run (Ret kept) events) as Hrun.
  { rewrite Hcollect. rewrite Nat.min_l by lia. reflexivity. }
  split; [exact Hrun |]. split; [exact (next_calls_replicate (Z.to_nat limit)) |].
  split; [| eapply to_json_list_raises; eassumption].
  rewrite (handle_posts_returns env kept (trace ++ events)%list Hjson).
  - unfold kept. rewrite Hunwritable. reflexivity.
  - rewrite (load_and_collect_loaded _ _ _ Hload), Hrun. reflexivity.
Qed.

(** ** Where exceptions come from *)

Lemma load_json_body_raises env e trace :
  _load_json_body env = Run (Raise e) trace ->
  (exists detail, e = APIError 400 detail)
  \/ (exists class_name message, e = OtherException class_name message).
Proof.
  unfold _load_json_body.
  destruct (String.eqb _ ""); [intros [= <- _]; eauto |].
  destruct (utf8_decode _) as [text |]; [| intros [= <- _]; eauto].
  destruct (json_loads text) as [[| | | | | | kvs] | msg | c m];
    intros [= <- _]; eauto.
Qed.

Lemma extract_target_raises payload e :
  _extract_target payload = Raise e -> exists detail, e = APIError 400 detail.
Proof.
  unfold _extract_target.
  destruct (target_candidates payload) as [| [field value] [| c cs]]; simpl;
    try (intros [= <-]; eauto).
  destruct (String.eqb field "post_urls"); [| discriminate].
  destruct (negb (isinstance_list value) || negb (py_bool value));
    [intros [= <-]; eauto | discriminate].
Qed.

Lemma coerce_int_keys_raises keys payload :
  forall kwargs e,
    coerce_int_keys keys payload kwargs = Raise e ->
    exists key, _coerce_int (dict_get payload key) key 1 None = Raise e.
Proof.
  induction keys as [| k keys IH]; intros kwargs e; [discriminate |].
  rewrite coerce_int_keys_cons.
  destruct (dict_mem payload k); [| apply IH].
  destruct (_coerce_int (dict_get payload k) k 1 None) as [n | e'] eqn:Hn;
    [apply IH |].
  intros [= <-]. eauto.
Qed.

Lemma extract_request_kwargs_raises payload e :
  _extract_request_kwargs payload = Raise e ->
  (exists detail, e = APIError 400 detail)
  \/ (exists class_name message, e = OtherException class_name message).
Proof.
  rewrite extract_request_kwargs_stages.
  destruct (coerce_int_keys INT_KEYS payload ∅) as [kw1 | e'] eqn:Hint.
  - cbv zeta.
    destruct (_ && _); [intros [= <-]; eauto |].
    destruct (_ && _); [intros [= <-]; eauto |].
    match goal with
    | |- bool_keys _ _ ?kw = _ -> _ =>
        destruct (bool_keys_lookup BOOL_KEYS payload kw) as (kw4 & -> & _)
    end.
    discriminate.
  - intros [= <-].
    destruct (coerce_int_keys_raises _ _ _ _ Hint) as (key & Hkey).
    destruct (coerce_int_raises _ _ _ _ _ Hkey) as [(d & ->) | (_ & ->)]; eauto.
Qed.

Lemma for_post_in_raises fuel limit :
  forall it results e trace,
    for_post_in fuel limit it results = Run (Raise e) trace ->
    exists it', gen_next it' = GenRaise e.
Proof.
  induction fuel as [| fuel IH]; intros it results e trace; [discriminate |].
  simpl. unfold next.
  destruct (gen_next it) as [post it' | | e'] eqn:Hnext.
  - rewrite run_ret_bind.
    destruct (Z.geb _ limit); [discriminate |].
    destruct (for_post_in fuel limit it' _) as [[posts | e''] trace' |] eqn:Hrec;
      try discriminate.
    intros [= <- _]. eapply IH. eassumption.
  - discriminate.
  - intros [= <- _]. eauto.
Qed.

(** An exception leaving the body of the [try] is a 400 of the module, an
    exception of another class, or comes from the capability. *)
Lemma load_and_collect_raises env e trace :
  load_and_collect env = Run (Raise e) trace ->
  (exists detail, e = APIError 400 detail)
  \/ (exists class_name message, e = OtherException class_name message)
  \/ from_capability e.
Proof.
  unfold load_and_collect.
  destruct (_load_json_body env) as [[payload | e'] trace0 |] eqn:Hload;
    [| intros [= <- _] | discriminate].
  2: { destruct (load_json_body_raises _ _ _ Hload); auto. }
  rewrite run_ret_bind. unfold _collect_posts.
  destruct (_extract_target payload) as [[field value] | e'] eqn:Htarget.
  2: { intros [= <- _]. left. eapply extract_target_raises. eassumption. }
  rewrite lift_ret_bind.
  destruct (_extract_request_kwargs payload) as [kwargs | e'] eqn:Hkwargs.
  2: { intros [= <- _].
       destruct (extract_request_kwargs_raises _ _ Hkwargs); auto. }
  rewrite lift_ret_bind.
  destruct (_coerce_int _ "limit" 1 (Some MAX_LIMIT)) as [limit | e'] eqn:Hlimit.
  2: { intros [= <- _].
       destruct (coerce_int_raises _ _ _ _ _ Hlimit) as [(d & ->) | (_ & ->)]; eauto. }
  rewrite lift_ret_bind.
  destruct (kwargs !! field); [intros [= <- _]; eauto |].
  unfold call_get_posts.
  destruct (get_posts _) as [it | e'] eqn:Hcall.
  2: { intros [= <- _]. right. right. left. eauto. }
  rewrite run_ret_bind.
  destruct (for_post_in _ limit it []) as [[posts | e'] trace' |] eqn:Hloop;
    try discriminate.
  intros [= <- _]. right. right. right. eapply for_post_in_raises. eassumption.
Qed.

(** ** The error classifier *)

Lemma of_value_value code st :
  HTTPStatus.of_value code = Some st -> HTTPStatus.value st = code.
Proof.
  unfold HTTPStatus.of_value. intros Hfind.
  apply List.find_some in Hfind as [_ Heq]. now apply Z.eqb_eq.
Qed.

(** The classifier where it answers.  An exception that leaves the body
    of the [try] is answered as the classifier of the specification says: an
    APIError whose status code is a member of HTTPStatus (as is the 400 of
    every APIError that does not come from the capability) with that code
    and its detail, the capability's InvalidCookies with 401 and the
    raised message, and every other [Exception] with 502 and the detail
    "Failed to fetch posts", the exception going to the log only.  An
    exception that is no [Exception] comes from the capability and is not
    caught. *)
Lemma handle_posts_classifies env e trace :
  _is_json (CONTENT_TYPE env) = true ->
  load_and_collect env = Run (Raise e) trace ->
  (forall status_code detail st,
      e = APIError status_code detail ->
      HTTPStatus.of_value status_code = Some st ->
      HTTPStatus.value st = status_code
      /\ _handle_posts env
         = Run (Ret (_json_response st (JObj [("detail", JStr detail)]))) trace)
  /\ (forall status_code detail,
        e = APIError status_code detail -> status_code = 400 \/ from_capability e)
  /\ (forall message,
        e = InvalidCookies message ->
        _handle_posts env
        = Run (Ret (_json_response HTTPStatus.UNAUTHORIZED
                      (JObj [("detail", JStr message)])))
              trace
        /\ _status_line HTTPStatus.UNAUTHORIZED = "401 Unauthorized")
  /\ (forall class_name message,
        e = OtherException class_name message ->
        _handle_posts env
        = Run (Ret (_json_response HTTPStatus.BAD_GATEWAY
                      (JObj [("detail", JStr "Failed to fetch posts")])))
              (trace ++ [EvLogException e])%list
        /\ _status_line HTTPStatus.BAD_GATEWAY = "502 Bad Gateway")
  /\ (forall class_name message,
        e = BaseException class_name message ->
        _handle_posts env = Run (Raise e) trace /\ from_capability e).
Proof.
  intros Hjson Hraise.
  pose proof (handle_posts_raises _ _ _ Hjson Hraise) as Hhandle.
  split; [| split; [| split; [| split]]].
  - intros status_code detail st -> Hst. split; [now apply of_value_value |].
    rewrite Hhandle. simpl. rewrite Hst. simpl. rewrite app_nil_r. reflexivity.
  - intros status_code detail ->.
    destruct (load_and_collect_raises _ _ _ Hraise)
      as [(d & [= -> _]) | [(c & m & [=]) | Hcap]]; auto.
  - intros message ->. split; [| reflexivity].
    rewrite Hhandle. simpl. rewrite app_nil_r. reflexivity.
  - intros class_name message ->. split; [| reflexivity].
    rewrite Hhandle. reflexivity.
  - intros class_name message ->. split.
    + rewrite Hhandle. simpl. rewrite app_nil_r. reflexivity.
    + destruct (load_and_collect_raises _ _ _ Hraise)
        as [(d & [=]) | [(c & m & [=]) | Hcap]]; exact Hcap.
Qed.

(** C3, where it fails.  Two failures at the POST /posts boundary are
    answered by no response, where the claim has a 502 or the error's own
    status: the TypeError that [json.dumps] raises on a collected post it
    cannot write, raised by the final [_json_response] outside the [try];
    and the ValueError that [HTTPStatus(exc.status_code)] raises, inside
    the [except] clause, for an APIError of the capability whose code is
    no member of HTTPStatus.  Both leave the handler, and nothing is
    logged. *)
Theorem unclassified_failures env trace :
  _is_json (CONTENT_TYPE env) = true ->
  (forall posts e,
      load_and_collect env = Run (Ret posts) trace ->
      to_json_list posts = Raise e ->
      _handle_posts env = Run (Raise e) trace
      /\ exists type_name, e = NOT_SERIALIZABLE type_name)
  /\ (forall status_code detail,
        load_and_collect env = Run (Raise (APIError status_code detail)) trace ->
        HTTPStatus.of_value status_code = None ->
        _handle_posts env
        = Run (Raise (OtherException "ValueError"
                        (py_str_int status_code ++ " is not a valid HTTPStatus")))
              trace
        /\ from_capability (APIError status_code detail)).
Proof.
  intros Hjson. split.
  - intros posts e Hreturn Hunwritable.
    split; [| eapply to_json_list_raises; eassumption].
    rewrite (handle_posts_returns _ _ _ Hjson Hreturn), Hunwritable. reflexivity.
  - intros status_code detail Hraise Hcode. split.
    + rewrite (handle_posts_raises _ _ _ Hjson Hraise). simpl. rewrite Hcode.
      simpl. rewrite app_nil_r. reflexivity.
    + destruct (load_and_collect_raises _ _ _ Hraise)
        as [(d & [= -> _]) | [(c & m & [=]) | Hcap]]; [discriminate | exact Hcap].
Qed.

(** ** The router and the response writer *)

(** The decimal text of an integer reads back as that integer. *)
Lemma decimal_int_of_py_str_int n : decimal_int_of_str (py_str_int n) = Some n.
Proof.
  unfold decimal_int_of_str, py_str_int.
  rewrite NilZero.isi.
  - simpl. now rewrite DecimalZ.of_to.
  - destruct n; simpl; try discriminate.
    intros [= Hnil]. now apply DecimalPos.Unsigned.to_uint_nonnil in Hnil.
  - destruct n; simpl; try discriminate.
    intros [= Hnil]. now apply DecimalPos.Unsigned.to_uint_nonnil in Hnil.
Qed.

Lemma handle_posts_json_response env r trace :
  _handle_posts env = Run (Ret r) trace ->
  exists st payload, r = _json_response st payload.
Proof.
  unfold _handle_posts.
  destruct (negb (_is_json (CONTENT_TYPE env))); [intros [= <- _]; eauto |].
  unfold try_except.
  destruct (load_and_collect env) as [[posts | e] trace0 |]; [| | discriminate].
  - unfold _json_response_of.
    destruct (to_json _); [| discriminate]. intros [= <- _]. eauto.
  - destruct e as [status_code detail | message | class_name message
                  | class_name message]; simpl.
    + destruct (HTTPStatus.of_value status_code); [| discriminate].
      intros [= <- _]. eauto.
    + intros [= <- _]. eauto.
    + intros [= <- _]. eauto.
    + discriminate.
Qed.

(** C8. Every response of the application other than the answer to
    OPTIONS /posts and the page of GET /docs is a JSON response, and a JSON
    response, whatever its status, carries Content-Type: application/json;
    charset=utf-8, a Content-Length that is the decimal text of the byte
    length of its body, and the three CORS headers; its body is the
    serialised payload. *)
Theorem json_responses_carry_headers :
  (forall st payload,
      let r := _json_response st payload in
      body r = [json_dumps payload]
      /\ headers r = json_headers (json_dumps payload)
      /\ header "Content-Type" (headers r) = Some "application/json; charset=utf-8"
      /\ (exists text,
            header "Content-Length" (headers r) = Some text /\
            decimal_int_of_str text
            = Some (Z.of_nat (String.length (json_dumps payload))))
      /\ header "Access-Control-Allow-Origin" (headers r) = Some "*"
      /\ header "Access-Control-Allow-Methods" (headers r) = Some "GET,POST,OPTIONS"
      /\ header "Access-Control-Allow-Headers" (headers r) = Some "Content-Type")
  /\ (forall env r trace,
        app env = Run (Ret r) trace ->
        (request_method env = "OPTIONS" /\ request_path env = "/posts" /\
         r = _options_response)
        \/ (request_method env = "GET" /\ request_path env = "/docs" /\
            r = _html_response SWAGGER_HTML)
        \/ (exists st payload, r = _json_response st payload)).
Proof.
  split.
  - intros st payload r. subst r. unfold _json_response. simpl.
    repeat split; try reflexivity.
    eexists. split; [reflexivity |]. apply decimal_int_of_py_str_int.
  - intros env r trace. unfold app.
    fold (request_method env). fold (request_path env).
    destruct (String.eqb_spec (request_method env) "OPTIONS") as [Ho | _];
      destruct (String.eqb_spec (request_path env) "/posts") as [Hp | _];
      simpl andb; cbv iota.
    1: intros [= <- _]; left; auto.
    all: repeat match goal with
           | |- context [String.eqb (request_path ?e) ?p] =>
               destruct (String.eqb_spec (request_path e) p)
           | |- context [String.eqb (request_method ?e) ?m] =>
               destruct (String.eqb_spec (request_method e) m)
           end; simpl andb; cbv iota.
    all: try (intros [= <- _]; right; right; eauto; fail).
    all: try (intros [= <- _]; right; left; auto; fail).
    all: intros Hh; right; right; eapply handle_posts_json_response; eassumption.
Qed.

(** C9 (amended).  The application dispatches on the method of the
    request put in upper case, GET standing in for a missing or empty
    method, and on its path, / standing in for a missing or empty path.
    When the method so read is OPTIONS and the path /posts, the answer is
    204 with an empty body and the three CORS headers and nothing else;
    when the pair so read is outside the dispatch table (GET /, GET
    /health, GET /openapi.json, GET /docs, POST /posts, OPTIONS /posts),
    the answer is 404 with the body {"detail": "Not Found"}. *)
Theorem app_options_and_not_found env :
  (request_method env = "OPTIONS" -> request_path env = "/posts" ->
     app env
     = Run (Ret {| status := "204 No Content";
                   headers := CORS_HEADERS;
                   body := [""] |}) [])
  /\ (~ In (request_method env, request_path env) ROUTES ->
      app env
      = Run (Ret (_json_response HTTPStatus.NOT_FOUND
                    (JObj [("detail", JStr "Not Found")]))) []
      /\ status (_json_response HTTPStatus.NOT_FOUND
                   (JObj [("detail", JStr "Not Found")])) = "404 Not Found").
Proof.
  unfold app. fold (request_method env). fold (request_path env).
  split.
  - intros -> ->. reflexivity.
  - intros Hroute. split; [| reflexivity].
    destruct (String.eqb_spec (request_method env) "OPTIONS") as [Hm1 | _];
      destruct (String.eqb_spec (request_method env) "GET") as [Hm2 | _];
      destruct (String.eqb_spec (request_method env) "POST") as [Hm3 | _];
      try congruence;
      destruct (String.eqb_spec (request_path env) "/posts") as [Hp1 | _];
      destruct (String.eqb_spec (request_path env) "/") as [Hp2 | _];
      destruct (String.eqb_spec (request_path env) "/health") as [Hp3 | _];
      destruct (String.eqb_spec (request_path env) "/openapi.json") as [Hp4 | _];
      destruct (String.eqb_spec (request_path env) "/docs") as [Hp5 | _];
      try congruence; simpl; try reflexivity;
      exfalso; apply Hroute;
      match goal with
      | Hm : request_method env = _, Hp : request_path env = _ |- _ =>
          rewrite Hm, Hp; simpl; auto 8
      end.
Qed.

(** ** The limit *)

Lemma dict_mem_false_lookup d key :
  dict_mem d key = false -> dict_lookup d key = None.
Proof.
  induction d as [| [k v] d IH]; simpl; [reflexivity |].
  destruct (String.eqb k key); [discriminate | exact IH].
Qed.

(** A request that fails validation after its body was loaded is answered
    by the [except] clauses, and nothing else has happened. *)
Lemma handle_posts_invalid env payload trace detail :
  _is_json (CONTENT_TYPE env) = true ->
  _load_json_body env = Run (Ret payload) trace ->
  _collect_posts payload = Run (Raise (APIError 400 detail)) [] ->
  _handle_posts env = Run (Ret (bad_request detail)) trace.
Proof.
  intros Hjson Hload Hcollect.
  rewrite (handle_posts_raises env (APIError 400 detail) trace Hjson).
  - simpl. rewrite app_nil_r. reflexivity.
  - rewrite (load_and_collect_loaded _ _ _ Hload), Hcollect, app_nil_r.
    reflexivity.
Qed.

(** C5 (amended). For a POST /posts request that has passed the checks
    made before the limit is read (JSON Content-Type, a body that loads as
    an object, target resolution, option extraction): when the limit field
    is absent, the collection runs with the limit 10; when the supplied
    value is a boolean or one on which [int] raises TypeError or
    ValueError, the response is the 400 "limit must be an integer"; when
    [int] converts it to an integer below 1 or above 100, the response is
    the 400 "limit must be >= 1" or "limit must be <= 100", and nothing is
    clamped: the capability is not called; when [int] converts it to an
    integer in [1, 100], the collection runs with that integer as the
    limit, which for a supplied integer is the supplied value itself. *)
Theorem limit_contract env payload trace field value kwargs :
  _is_json (CONTENT_TYPE env) = true ->
  _load_json_body env = Run (Ret payload) trace ->
  _extract_target payload = Ret (field, value) ->
  _extract_request_kwargs payload = Ret kwargs ->
  (dict_mem payload "limit" = false ->
     _collect_posts payload = collect_with field value kwargs 10)
  /\ (forall supplied,
        dict_lookup payload "limit" = Some supplied ->
        (isinstance_bool supplied = true \/ py_int supplied = IntTypeError
         \/ py_int supplied = IntValueError ->
           _handle_posts env = Run (Ret (bad_request "limit must be an integer")) trace)
        /\ (forall n,
              isinstance_bool supplied = false ->
              py_int supplied = IntOk n ->
              (n < 1 ->
                 _handle_posts env = Run (Ret (bad_request "limit must be >= 1")) trace)
              /\ (100 < n ->
                  _handle_posts env = Run (Ret (bad_request "limit must be <= 100")) trace)
              /\ (1 <= n <= 100 ->
                  _collect_posts payload = collect_with field value kwargs n))
        /\ (forall n,
              supplied = JInt n -> 1 <= n <= 100 ->
              _collect_posts payload = collect_with field value kwargs n)).
Proof.
  intros Hjson Hload Htarget Hkwargs.
  assert (forall e,
             _coerce_int (supplied_limit payload) "limit" 1 (Some MAX_LIMIT) = Raise e ->
             _collect_posts payload = Run (Raise e) []) as Hbad.
  { intros e He. apply collect_posts_invalid. right. right. eauto. }
  split.
  - intros Hmem. apply collect_posts_valid; try assumption.
    unfold supplied_limit, dict_get_default.
    rewrite (dict_mem_false_lookup _ _ Hmem). reflexivity.
  - intros supplied Hsupplied.
    assert (supplied_limit payload = supplied) as Hsl.
    { unfold supplied_limit, dict_get_default. rewrite Hsupplied. reflexivity. }
    rewrite Hsl in *.
    split; [| split].
    + intros [Hb | Hn];
        (eapply handle_posts_invalid; [eassumption | eassumption |]);
        apply Hbad.
      * destruct supplied; try discriminate Hb. apply coerce_int_bool.
      * now apply coerce_int_not_int.
    + intros n Hb Hn.
      pose proof (coerce_int_converted _ "limit" 1 (Some MAX_LIMIT) _ Hb Hn) as Hconv.
      split; [| split].
      * intros Hlt. eapply handle_posts_invalid; [eassumption | eassumption |].
        apply Hbad. rewrite Hconv.
        destruct (Z.ltb_spec n 1); [reflexivity | lia].
      * intros Hgt. eapply handle_posts_invalid; [eassumption | eassumption |].
        apply Hbad. rewrite Hconv.
        destruct (Z.ltb_spec n 1); [lia |].
        destruct (Z.gtb_spec n MAX_LIMIT); unfold MAX_LIMIT in *; [reflexivity | lia].
      * intros Hrange. apply collect_posts_valid; try assumption.
        rewrite ?Hsl, Hconv.
        destruct (Z.ltb_spec n 1); [lia |].
        destruct (Z.gtb_spec n MAX_LIMIT); unfold MAX_LIMIT in *; [lia | reflexivity].
    + intros n -> Hrange. apply collect_posts_valid; try assumption.
      rewrite ?Hsl.
      rewrite (coerce_int_converted (JInt n) "limit" 1 (Some MAX_LIMIT) n eq_refl eq_refl).
      destruct (Z.ltb_spec n 1); [lia |].
      destruct (Z.gtb_spec n MAX_LIMIT); unfold MAX_LIMIT in *; [lia | reflexivity].
Qed.

(** ** Falsy targets *)

(** C10 (amended). When one target field holds a falsy value other than
    null, the empty string and the empty list (0, false, 0.0 or the empty
    object, say) and no other target field counts as present, that field
    is the one present target.  If it is account, group or hashtag,
    resolution succeeds with that value, and once options and limit are
    valid the capability is called with the value, unchanged, under the
    field's name.  If it is post_urls, resolution fails with APIError(400,
    "post_urls must be a non-empty list of URLs"). *)
Theorem falsy_target_forwarded payload field :
  In field TARGET_FIELDS ->
  counts_as_present (dict_get payload field) ->
  py_bool (dict_get payload field) = false ->
  (forall other, In other TARGET_FIELDS -> other <> field ->
     ~ counts_as_present (dict_get payload other)) ->
  only_present_target payload field
  /\ (field <> "post_urls" ->
      _extract_target payload = Ret (field, dict_get payload field)
      /\ forall kwargs limit,
          _extract_request_kwargs payload = Ret kwargs ->
          _coerce_int (supplied_limit payload) "limit" 1 (Some MAX_LIMIT) = Ret limit ->
          (<[field := dict_get payload field]> kwargs) !! field
          = Some (dict_get payload field)
          /\ exists r trace,
              _collect_posts payload
              = Run r (EvGetPosts (<[field := dict_get payload field]> kwargs) :: trace))
  /\ (field = "post_urls" ->
      _extract_target payload = Raise (APIError 400 POST_URLS_LIST)).
Proof.
  intros Hin Hpresent Hfalsy Hothers.
  assert (only_present_target payload field) as Honly.
  { split; [exact Hin | split; [exact Hpresent |]].
    intros other Hother Hc.
    destruct (String.eqb_spec other field) as [-> | Hne]; [reflexivity |].
    exfalso. exact (Hothers other Hother Hne Hc). }
  assert (forall other, In other TARGET_FIELDS ->
            in_None_empty_str_empty_list (dict_get payload other)
            = negb (String.eqb other field)) as Htests.
  { intros other Hother.
    destruct (String.eqb_spec other field) as [-> | Hne]; simpl.
    - now apply counts_as_present_iff.
    - destruct (in_None_empty_str_empty_list (dict_get payload other)) eqn:Ht;
        [reflexivity |].
      exfalso. apply (Hothers other Hother Hne). now apply counts_as_present_iff. }
  pose proof (extract_target_table payload) as Htable.
  rewrite (Htests "account"), (Htests "group"), (Htests "post_urls"),
    (Htests "hashtag") in Htable by (simpl; tauto).
  split; [exact Honly | split].
  - intros Hne.
    assert (_extract_target payload = Ret (field, dict_get payload field)) as Htarget.
    { rewrite Htable. simpl in Hin.
      destruct Hin as [<- | [<- | [<- | [<- | []]]]]; try reflexivity; congruence. }
    split; [exact Htarget |].
    intros kwargs limit Hkwargs Hlimit.
    split; [apply lookup_insert_eq |].
    rewrite (collect_posts_valid _ _ _ _ _ Htarget Hkwargs Hlimit).
    unfold collect_with.
    destruct (get_posts _) as [it | e]; [| eauto].
    pose proof (for_post_in_finishes (S (Z.to_nat limit)) limit it []) as Hfin.
    destruct (for_post_in _ limit it []) as [r trace |]; [eauto |].
    exfalso. apply Hfin; [unfold wanted; simpl; lia | reflexivity].
  - intros ->. rewrite Htable. simpl. rewrite Hfalsy, orb_true_r. reflexivity.
Qed.

(** ** Termination *)

(** The application always answers or raises: no request makes it run
    out of fuel. *)
Lemma app_terminates env : app env <> OutOfFuel.
Proof.
  assert (_handle_posts env <> OutOfFuel) as Hhandle.
  { unfold _handle_posts.
    destruct (negb (_is_json (CONTENT_TYPE env))); [discriminate |].
    unfold try_except, load_and_collect.
    destruct (_load_json_body env) as [[payload | e] trace |] eqn:Hload.
    - rewrite run_ret_bind.
      pose proof (collect_posts_terminates payload) as Hcollect.
      destruct (_collect_posts payload) as [[posts | e] trace' |];
        [discriminate | | contradiction].
      destruct e as [status_code detail | message | class_name message
                  | class_name message]; simpl;
        try discriminate.
      destruct (HTTPStatus.of_value status_code); discriminate.
    - simpl.
      destruct e as [status_code detail | message | class_name message
                  | class_name message]; simpl;
        try discriminate.
      destruct (HTTPStatus.of_value status_code); discriminate.
    - unfold _load_json_body in Hload. discriminate. }
  unfold app.
  repeat match goal with
         | |- (if ?c then _ else _) <> _ => destruct c; try discriminate
         end.
  exact Hhandle.
Qed.

(** ** The order of the checks *)

Lemma load_json_body_eq env :
  _load_json_body env
  = Run (if String.eqb (body_read env) "" then
           Raise (APIError 400 "Request body is required")
         else
           match utf8_decode (body_read env) with
           | None =>
               Raise (OtherException "UnicodeDecodeError"
                        "'utf-8' codec can't decode bytes")
           | Some text =>
               match json_loads text with
               | LoadsRaises class_name message =>
                   Raise (OtherException class_name message)
               | JSONDecodeError msg =>
                   Raise (APIError 400 ("Invalid JSON payload: " ++ msg))
               | Loaded (JObj payload) => Ret payload
               | Loaded _ => Raise (APIError 400 "JSON payload must be an object")
               end
           end)
        [EvReadBody (read_size env)].
Proof.
  unfold _load_json_body, body_read, read_size.
  destruct (String.eqb _ ""); [reflexivity |].
  destruct (utf8_decode _) as [text |]; [| reflexivity].
  destruct (json_loads text) as [[| | | | | |] | |]; reflexivity.
Qed.

Lemma handle_posts_not_loaded env detail trace :
  _is_json (CONTENT_TYPE env) = true ->
  _load_json_body env = Run (Raise (APIError 400 detail)) trace ->
  _handle_posts env = Run (Ret (bad_request detail)) trace.
Proof.
  intros Hjson Hload.
  rewrite (handle_posts_raises _ _ _ Hjson (load_and_collect_not_loaded _ _ _ Hload)).
  simpl. rewrite app_nil_r. reflexivity.
Qed.

(** The checks of POST /posts that do hold in the order the specification
    gives: 415 before the body is read; 400 for an empty body, for a text
    [json.loads] rejects and for a value that is no object, the body having
    been read and nothing else done; then target, options and limit, the
    first failure being the one answered, without any call of the
    capability. *)
Lemma handle_posts_checks_in_order env :
  (_is_json (CONTENT_TYPE env) = false ->
     _handle_posts env
     = Run (Ret (_json_response HTTPStatus.UNSUPPORTED_MEDIA_TYPE
                   (JObj [("detail", JStr "Content-Type must be application/json")])))
           [])
  /\ (_is_json (CONTENT_TYPE env) = true ->
      let read := [EvReadBody (read_size env)] in
      (body_read env = "" ->
         _handle_posts env = Run (Ret (bad_request "Request body is required")) read)
      /\ (forall text msg,
            body_read env <> "" ->
            utf8_decode (body_read env) = Some text ->
            json_loads text = JSONDecodeError msg ->
            _handle_posts env
            = Run (Ret (bad_request ("Invalid JSON payload: " ++ msg))) read)
      /\ (forall text v,
            body_read env <> "" ->
            utf8_decode (body_read env) = Some text ->
            json_loads text = Loaded v ->
            isinstance_dict v = false ->
            _handle_posts env
            = Run (Ret (bad_request "JSON payload must be an object")) read)
      /\ (forall text payload,
            body_read env <> "" ->
            utf8_decode (body_read env) = Some text ->
            json_loads text = Loaded (JObj payload) ->
            forall e,
              _extract_target payload = Raise e
              \/ (exists target, _extract_target payload = Ret target /\
                                 _extract_request_kwargs payload = Raise e)
              \/ (exists target kwargs,
                    _extract_target payload = Ret target /\
                    _extract_request_kwargs payload = Ret kwargs /\
                    _coerce_int (supplied_limit payload) "limit" 1 (Some MAX_LIMIT)
                    = Raise e) ->
              exists r,
                _handle_posts env = Run r (read ++ logged e)%list
                /\ capability_untouched (read ++ logged e)%list)).
Proof.
  split.
  - unfold _handle_posts. intros ->. reflexivity.
  - intros Hjson read.
    pose proof (load_json_body_eq env) as Hload. fold read in Hload.
    split; [| split; [| split]].
    + intros Hempty. rewrite Hempty in Hload. simpl in Hload.
      now apply handle_posts_not_loaded.
    + intros text msg Hne Htext Hmsg.
      apply String.eqb_neq in Hne. rewrite Hne, Htext, Hmsg in Hload.
      now apply handle_posts_not_loaded.
    + intros text v Hne Htext Hv Hobj.
      apply String.eqb_neq in Hne. rewrite Hne, Htext, Hv in Hload.
      apply handle_posts_not_loaded; [assumption |].
      rewrite Hload. destruct v; try reflexivity. discriminate.
    + intros text payload Hne Htext Hv e He.
      apply String.eqb_neq in Hne. rewrite Hne, Htext, Hv in Hload.
      pose proof (collect_posts_invalid _ _ He) as Hcollect.
      assert (load_and_collect env = Run (Raise e) read) as Hraise.
      { rewrite (load_and_collect_loaded _ _ _ Hload), Hcollect, app_nil_r.
        reflexivity. }
      rewrite (handle_posts_raises _ _ _ Hjson Hraise).
      assert (capability_untouched (read ++ logged e)%list) as Hun.
      { intros ev Hev. apply in_app_or in Hev as [Hev | Hev].
        - destruct Hev as [<- | []]. exact I.
        - destruct e; simpl in Hev; try contradiction.
          destruct Hev as [<- | []]. exact I. }
      destruct e as [status_code detail | message | class_name message
                  | class_name message]; simpl.
      * destruct (HTTPStatus.of_value status_code); eexists; split;
          try reflexivity; exact Hun.
      * eexists. split; [reflexivity | exact Hun].
      * eexists. split; [reflexivity | exact Hun].
      * eexists. split; [reflexivity | exact Hun].
Qed.

(** ** A body that is not UTF-8 *)

Lemma substring_one c n : String.substring 0 (S n) (String c "") = String c "".
Proof. simpl. destruct n; reflexivity. Qed.

(** C6, at the body of one byte 0xFF sent with a JSON content type, for
    whatever Python and capability: the body is read, [raw.decode] raises
    UnicodeDecodeError, which is no JSONDecodeError, and the request is
    answered with 502 "Failed to fetch posts" where the claim has 400 for
    a malformed body. *)
Theorem undecodable_body_is_bad_gateway :
  exists size,
    app (post_request BYTE_FF)
    = Run (Ret (_json_response HTTPStatus.BAD_GATEWAY
                  (JObj [("detail", JStr "Failed to fetch posts")])))
          [EvReadBody size;
           EvLogException (OtherException "UnicodeDecodeError"
                             "'utf-8' codec can't decode bytes")]
    /\ status (_json_response HTTPStatus.BAD_GATEWAY
                 (JObj [("detail", JStr "Failed to fetch posts")]))
       = "502 Bad Gateway".
Proof.
  assert (exists size, _load_json_body (post_request BYTE_FF)
                       = Run (Raise (OtherException "UnicodeDecodeError"
                                       "'utf-8' codec can't decode bytes"))
                             [EvReadBody size]) as (size & Hload).
  { unfold _load_json_body.
    change (str_or (CONTENT_LENGTH (post_request BYTE_FF)) "0") with "1".
    change (wsgi_input (post_request BYTE_FF)) with (Some BYTE_FF).
    destruct (int_of_str "1") as [n |]; [| eexists; reflexivity].
    destruct (Z.eqb_spec n 0) as [-> | Hn0]; [eexists; reflexivity |].
    exists (Some n). unfold stream_read.
    destruct (Z.ltb_spec n 0) as [Hneg | Hpos]; [reflexivity |].
    destruct (Z.to_nat n) as [| k] eqn:Hk; [lia |].
    unfold BYTE_FF. rewrite substring_one. reflexivity. }
  exists size. split; [| reflexivity].
  change (app (post_request BYTE_FF)) with (_handle_posts (post_request BYTE_FF)).
  assert (_is_json (CONTENT_TYPE (post_request BYTE_FF)) = true) as Hjson
    by reflexivity.
  rewrite (handle_posts_raises _ _ _ Hjson (load_and_collect_not_loaded _ _ _ Hload)).
  reflexivity.
Qed.

End Properties.

(** * The properties on examples *)

(** C4, counterexample. The float 2.5 is not integer-valued, and
    [_coerce_int] accepts it for a limit: it returns 2. *)
Lemma coerce_int_accepts_fraction :
  integer_valued (JFloat TWO_AND_A_HALF) = false
  /\ isinstance_bool (JFloat TWO_AND_A_HALF) = false
  /\ @_coerce_int (sample_python JNull) (JFloat TWO_AND_A_HALF) "limit" 1 (Some MAX_LIMIT)
     = Ret 2.
Proof. repeat split. Qed.

(** C5, counterexample. A request with account "nintendo" and the limit
    2.5, which is no integer, is not answered with a 400: the response is
    200 with count 2 and the first two of the three posts the capability
    produces. *)
Lemma fractional_limit_is_accepted :
  integer_valued (JFloat TWO_AND_A_HALF) = false
  /\ exists trace,
      sample_handle_posts (account_nintendo (JFloat TWO_AND_A_HALF)) three_posts
        (post_request "{}")
      = Run (Ret {| status := "200 OK";
                    headers := json_headers
                                 (sample_dumps
                                    (JObj [("count", JInt 2);
                                           ("posts", JList (take 2 three_posts))]));
                    body := [sample_dumps
                               (JObj [("count", JInt 2);
                                      ("posts", JList (take 2 three_posts))])] |})
            trace.
Proof. split; [reflexivity |]. eexists. vm_compute. reflexivity. Qed.

(** C7, counterexample. In the request {"options": null} the options value
    is present and is not an object, and the extraction does not fail: it
    returns the empty map. *)
Lemma null_options_is_not_rejected :
  dict_mem [("options", JNull)] "options" = true
  /\ isinstance_dict (dict_get [("options", JNull)] "options") = false
  /\ @_extract_request_kwargs (sample_python JNull) [("options", JNull)] = Ret ∅.
Proof. repeat split. Qed.

(** C9, counterexample.  The method get, in lower case, with the path
    /health is a pair outside the dispatch table, and the request is not
    answered with 404: the application reads the method as GET and answers
    200 with {"status": "ok"}. *)
Lemma lower_case_method_is_routed :
  ~ In ("get", "/health") ROUTES
  /\ @app (sample_python JNull) (list_scraper [])
       {| REQUEST_METHOD := Some "get"; PATH_INFO := Some "/health";
          CONTENT_TYPE := None; CONTENT_LENGTH := None; wsgi_input := None |}
     = Run (Ret (@_json_response (sample_python JNull) HTTPStatus.OK
                   (JObj [("status", JStr "ok")]))) []
  /\ status (@_json_response (sample_python JNull) HTTPStatus.OK
               (JObj [("status", JStr "ok")])) = "200 OK".
Proof.
  split; [| split; reflexivity].
  simpl. intros [H | [H | [H | [H | [H | [H | []]]]]]]; discriminate H.
Qed.

(** C10, counterexample. In the request {"post_urls": 0} the target field
    post_urls holds a falsy value that is none of null, "" and [], no other
    target field is there, and resolution does not succeed. *)
Lemma falsy_post_urls_is_rejected :
  in_None_empty_str_empty_list (dict_get [("post_urls", JInt 0)] "post_urls") = false
  /\ py_bool (dict_get [("post_urls", JInt 0)] "post_urls") = false
  /\ _extract_target [("post_urls", JInt 0)] = Raise (APIError 400 POST_URLS_LIST).
Proof. repeat split. Qed.

(** The round trip of the test suite: account "nintendo" with limit 2
    against three posts, and against none. *)
Lemma collect_posts_bounded_example :
  sample_handle_posts (account_nintendo (JInt 2)) three_posts (post_request "{}")
  = Run (Ret (@_json_response (sample_python (account_nintendo (JInt 2)))
                HTTPStatus.OK
                (JObj [("count", JInt 2); ("posts", JList (take 2 three_posts))])))
        ([EvReadBody (Some 2)]
         ++ EvGetPosts (<["account" := JStr "nintendo"]> ∅) :: replicate 2 EvNext)%list
  /\ sample_handle_posts (account_nintendo (JInt 2)) [] (post_request "{}")
     = Run (Ret (@_json_response (sample_python (account_nintendo (JInt 2)))
                   HTTPStatus.OK
                   (JObj [("count", JInt 0); ("posts", JList [])])))
           ([EvReadBody (Some 2)]
            ++ [EvGetPosts (<["account" := JStr "nintendo"]> ∅); EvNext])%list.
Proof.
  split.
  - refine (proj1 (proj2 (proj2 (proj1
      (@collect_posts_bounded (sample_python (account_nintendo (JInt 2)))
         (list_scraper three_posts) (post_request "{}")
         [("account", JStr "nintendo"); ("limit", JInt 2)]
         [EvReadBody (Some 2)] "account" (JStr "nintendo") ∅ 2
         three_posts (List.map of_json three_posts)
         eq_refl eq_refl eq_refl eq_refl eq_refl eq_refl _) _))
      (take 2 three_posts) eq_refl)).
    + exists []. split; [repeat econstructor | reflexivity].
    + reflexivity.
  - refine (proj2 (proj2
      (@collect_posts_bounded (sample_python (account_nintendo (JInt 2)))
         (list_scraper []) (post_request "{}")
         [("account", JStr "nintendo"); ("limit", JInt 2)]
         [EvReadBody (Some 2)] "account" (JStr "nintendo") ∅ 2
         [] []
         eq_refl eq_refl eq_refl eq_refl eq_refl eq_refl _) eq_refl)).
    exists []. split; [constructor | reflexivity].
Defined.

(** C1 on account "nintendo" with limit 2 against three posts as the
    scraper makes them, each with its time as a [datetime]: no response,
    the TypeError of [json.dumps] leaves the handler. *)
Lemma unwritable_posts_are_not_answered_witness :
  @_handle_posts (sample_python (account_nintendo (JInt 2)))
     (object_scraper three_dated_posts) (post_request "{}")
  = Run (Raise (NOT_SERIALIZABLE "datetime"))
        ([EvReadBody (Some 2)]
         ++ EvGetPosts (<["account" := JStr "nintendo"]> ∅) :: replicate 2 EvNext)%list.
Proof.
  refine (proj1 (proj2 (proj2
    (@unwritable_posts_are_not_answered
       (sample_python (account_nintendo (JInt 2)))
       (object_scraper three_dated_posts) (post_request "{}")
       [("account", JStr "nintendo"); ("limit", JInt 2)]
       [EvReadBody (Some 2)] "account" (JStr "nintendo") ∅ 2
       three_dated_posts three_dated_posts (NOT_SERIALIZABLE "datetime")
       eq_refl eq_refl eq_refl eq_refl eq_refl eq_refl _ _ eq_refl)))).
  - exists []. split; [repeat econstructor | reflexivity].
  - reflexivity.
Defined.

(** C2 on three requests: {"account": "nintendo"}, the empty object, and
    {"post_urls": "x"}. *)
Lemma extract_target_exactly_one_witness :
  only_present_target [("account", JStr "nintendo")] "account"
  /\ _extract_target [] = Raise (APIError 400 EXACTLY_ONE)
  /\ _extract_target [("post_urls", JStr "x")] = Raise (APIError 400 POST_URLS_LIST).
Proof.
  split; [| split].
  - exact (proj1 (proj1 (proj1 (extract_target_exactly_one
                                  [("account", JStr "nintendo")])
                           "account" (JStr "nintendo")) eq_refl)).
  - apply (proj1 (proj2 (extract_target_exactly_one []))).
    intros (field & _ & (Hnull & _) & _). exact (Hnull eq_refl).
  - apply (proj2 (proj2 (extract_target_exactly_one [("post_urls", JStr "x")]))).
    + split; [simpl; tauto | split; [repeat split; discriminate |]].
      intros other [<- | [<- | [<- | [<- | []]]]] (Hnull & _);
        try reflexivity; exfalso; exact (Hnull eq_refl).
    + intros (x & l & Hx). discriminate Hx.
Defined.

(** The classifier on a capability that raises InvalidCookies("bad
    cookies"), as in the test suite, on one that raises a RuntimeError,
    and on a request without target. *)
Lemma handle_posts_classifies_example :
  @_handle_posts (sample_python (JObj [("account", JStr "nintendo")]))
     (raising_scraper (InvalidCookies "bad cookies")) (post_request "{}")
  = Run (Ret (@_json_response (sample_python (JObj [("account", JStr "nintendo")]))
                HTTPStatus.UNAUTHORIZED (JObj [("detail", JStr "bad cookies")])))
        [EvReadBody (Some 2); EvGetPosts (<["account" := JStr "nintendo"]> ∅)]
  /\ @_handle_posts (sample_python (JObj [("account", JStr "nintendo")]))
       (raising_scraper (OtherException "RuntimeError" "boom")) (post_request "{}")
     = Run (Ret (@_json_response (sample_python (JObj [("account", JStr "nintendo")]))
                   HTTPStatus.BAD_GATEWAY
                   (JObj [("detail", JStr "Failed to fetch posts")])))
           ([EvReadBody (Some 2); EvGetPosts (<["account" := JStr "nintendo"]> ∅)]
            ++ [EvLogException (OtherException "RuntimeError" "boom")])%list
  /\ (400 = 400 \/
      @from_capability (list_scraper []) (APIError 400 EXACTLY_ONE))
  /\ @_handle_posts (sample_python (JObj [])) (list_scraper []) (post_request "{}")
     = Run (Ret (@_json_response (sample_python (JObj []))
                   (HTTPStatus.Build_t 400 "Bad Request")
                   (JObj [("detail", JStr EXACTLY_ONE)])))
           [EvReadBody (Some 2)].
Proof.
  split; [| split; [| split]].
  - exact (proj1 (proj1 (proj2 (proj2
      (@handle_posts_classifies (sample_python (JObj [("account", JStr "nintendo")]))
         (raising_scraper (InvalidCookies "bad cookies")) (post_request "{}")
         (InvalidCookies "bad cookies")
         [EvReadBody (Some 2); EvGetPosts (<["account" := JStr "nintendo"]> ∅)]
         eq_refl eq_refl))) "bad cookies" eq_refl)).
  - exact (proj1 (proj1 (proj2 (proj2 (proj2
      (@handle_posts_classifies (sample_python (JObj [("account", JStr "nintendo")]))
         (raising_scraper (OtherException "RuntimeError" "boom")) (post_request "{}")
         (OtherException "RuntimeError" "boom")
         [EvReadBody (Some 2); EvGetPosts (<["account" := JStr "nintendo"]> ∅)]
         eq_refl eq_refl)))) "RuntimeError" "boom" eq_refl)).
  - exact (proj1 (proj2
      (@handle_posts_classifies (sample_python (JObj [])) (list_scraper [])
         (post_request "{}") (APIError 400 EXACTLY_ONE) [EvReadBody (Some 2)]
         eq_refl eq_refl)) 400 EXACTLY_ONE eq_refl).
  - exact (proj2 (proj1
      (@handle_posts_classifies (sample_python (JObj [])) (list_scraper [])
         (post_request "{}") (APIError 400 EXACTLY_ONE) [EvReadBody (Some 2)]
         eq_refl eq_refl)
      400 EXACTLY_ONE (HTTPStatus.Build_t 400 "Bad Request") eq_refl eq_refl)).
Defined.

(** C3 on a capability that produces one post with its time as a
    [datetime], and on one that raises APIError(299, "odd"): neither
    request is answered. *)
Lemma unclassified_failures_witness :
  @_handle_posts (sample_python (JObj [("account", JStr "nintendo")]))
     (object_scraper [dated_post "1"]) (post_request "{}")
  = Run (Raise (NOT_SERIALIZABLE "datetime"))
        [EvReadBody (Some 2); EvGetPosts (<["account" := JStr "nintendo"]> ∅);
         EvNext; EvNext]
  /\ @_handle_posts (sample_python (JObj [("account", JStr "nintendo")]))
       (raising_scraper (APIError 299 "odd")) (post_request "{}")
     = Run (Raise (OtherException "ValueError"
                     (py_str_int 299 ++ " is not a valid HTTPStatus")))
           [EvReadBody (Some 2); EvGetPosts (<["account" := JStr "nintendo"]> ∅)].
Proof.
  split.
  - exact (proj1 (proj1
      (@unclassified_failures (sample_python (JObj [("account", JStr "nintendo")]))
         (object_scraper [dated_post "1"]) (post_request "{}")
         [EvReadBody (Some 2); EvGetPosts (<["account" := JStr "nintendo"]> ∅);
          EvNext; EvNext]
         eq_refl)
      [dated_post "1"] (NOT_SERIALIZABLE "datetime") eq_refl eq_refl)).
  - exact (proj1 (proj2
      (@unclassified_failures (sample_python (JObj [("account", JStr "nintendo")]))
         (raising_scraper (APIError 299 "odd")) (post_request "{}")
         [EvReadBody (Some 2); EvGetPosts (<["account" := JStr "nintendo"]> ∅)]
         eq_refl)
      299 "odd" eq_refl eq_refl)).
Defined.

(** C4 (amended) on a boolean, on null, and on the integers 0, 101 and 7
    for a limit. *)
Lemma coerce_int_contract_witness :
  @_coerce_int (sample_python JNull) (JBool true) "limit" 1 (Some 100)
  = Raise (APIError 400 "limit must be an integer")
  /\ @_coerce_int (sample_python JNull) JNull "limit" 1 (Some 100)
     = Raise (APIError 400 "limit must be an integer")
  /\ @_coerce_int (sample_python JNull) (JInt 0) "limit" 1 (Some 100)
     = Raise (APIError 400 "limit must be >= 1")
  /\ @_coerce_int (sample_python JNull) (JInt 101) "limit" 1 (Some 100)
     = Raise (APIError 400 "limit must be <= 100")
  /\ @_coerce_int (sample_python JNull) (JInt 7) "limit" 1 (Some 100) = Ret 7.
Proof.
  split; [| split; [| split; [| split]]].
  - exact (proj1 (@coerce_int_contract (sample_python JNull)
                    (JBool true) "limit" 1 (Some 100)) eq_refl).
  - exact (proj1 (proj2 (@coerce_int_contract (sample_python JNull)
                           JNull "limit" 1 (Some 100))) (or_introl eq_refl)).
  - apply (proj1 (proj2 (proj2 (proj2 (proj2
             (@coerce_int_contract (sample_python JNull)
                (JInt 0) "limit" 1 (Some 100))))) 0 eq_refl eq_refl)).
    lia.
  - apply (proj1 (proj2 (proj2 (proj2 (proj2 (proj2
             (@coerce_int_contract (sample_python JNull)
                (JInt 101) "limit" 1 (Some 100))))) 101 eq_refl eq_refl)) 100);
      [lia | reflexivity | lia].
  - apply (proj2 (proj2 (proj2 (proj2 (proj2 (proj2
             (@coerce_int_contract (sample_python JNull)
                (JInt 7) "limit" 1 (Some 100))))) 7 eq_refl eq_refl))).
    + lia.
    + intros maximum' [= <-]. lia.
Defined.

(** C5 (amended) on account "nintendo" without limit, with the limit 0 and
    with the limit 2. *)
Lemma limit_contract_witness :
  @_collect_posts (sample_python JNull) (list_scraper three_posts)
     [("account", JStr "nintendo")]
  = @collect_with (list_scraper three_posts) "account" (JStr "nintendo") ∅ 10
  /\ sample_handle_posts (account_nintendo (JInt 0)) three_posts (post_request "{}")
     = Run (Ret (@bad_request (sample_python (account_nintendo (JInt 0)))
                   "limit must be >= 1"))
           [EvReadBody (Some 2)]
  /\ @_collect_posts (sample_python JNull) (list_scraper three_posts)
       [("account", JStr "nintendo"); ("limit", JInt 2)]
     = @collect_with (list_scraper three_posts) "account" (JStr "nintendo") ∅ 2.
Proof.
  split; [| split].
  - exact (proj1
      (@limit_contract (sample_python (JObj [("account", JStr "nintendo")]))
         (list_scraper three_posts) (post_request "{}")
         [("account", JStr "nintendo")] [EvReadBody (Some 2)]
         "account" (JStr "nintendo") ∅ eq_refl eq_refl eq_refl eq_refl)
      eq_refl).
  - apply (proj1 (proj1 (proj2 (proj2
      (@limit_contract (sample_python (account_nintendo (JInt 0)))
         (list_scraper three_posts) (post_request "{}")
         [("account", JStr "nintendo"); ("limit", JInt 0)] [EvReadBody (Some 2)]
         "account" (JStr "nintendo") ∅ eq_refl eq_refl eq_refl eq_refl)
      (JInt 0) eq_refl)) 0 eq_refl eq_refl)).
    lia.
  - apply (proj2 (proj2 (proj2
      (@limit_contract (sample_python (account_nintendo (JInt 2)))
         (list_scraper three_posts) (post_request "{}")
         [("account", JStr "nintendo"); ("limit", JInt 2)] [EvReadBody (Some 2)]
         "account" (JStr "nintendo") ∅ eq_refl eq_refl eq_refl eq_refl)
      (JInt 2) eq_refl)) 2 eq_refl).
    lia.
Defined.

(** C7 (amended) on {"pages": 3, "options": null, "extra_info": "x"}, on
    {"pages": 0} and on {"options": 5}. *)
Lemma extract_request_kwargs_contract_witness :
  (exists n,
      @_coerce_int (sample_python JNull) (JInt 3) "pages" 1 None = Ret n /\
      1 <= n /\
      (<["extra_info" := JBool true]> (<["pages" := JInt 3]> (∅ : gmap string json)))
        !! "pages" = Some (JInt n))
  /\ @_extract_request_kwargs (sample_python JNull) [("pages", JInt 0)]
     = Raise (APIError 400 "pages must be >= 1")
  /\ @_extract_request_kwargs (sample_python JNull) [("options", JInt 5)]
     = Raise (APIError 400 OPTIONS_OBJECT).
Proof.
  split; [| split].
  - apply (proj1 (proj1 (proj1
      (@extract_request_kwargs_contract (sample_python JNull)
         [("pages", JInt 3); ("options", JNull); ("extra_info", JStr "x")])
      (<["extra_info" := JBool true]> (<["pages" := JInt 3]> ∅)) eq_refl)
      "pages" (or_introl eq_refl))).
    reflexivity.
  - apply (proj1 (proj2
      (@extract_request_kwargs_contract (sample_python JNull) [("pages", JInt 0)]))
      [] "pages" ["page_limit"; "timeout"]);
      [reflexivity | constructor | reflexivity | reflexivity].
  - apply (proj1 (proj2 (proj2
      (@extract_request_kwargs_contract (sample_python JNull) [("options", JInt 5)])))).
    + repeat constructor.
    + discriminate.
    + reflexivity.
Defined.

(** C8 on GET /health. *)
Lemma json_responses_carry_headers_witness :
  let env := {| REQUEST_METHOD := Some "GET"; PATH_INFO := Some "/health";
                CONTENT_TYPE := None; CONTENT_LENGTH := None;
                wsgi_input := None |} in
  (request_method env = "OPTIONS" /\ request_path env = "/posts" /\
   @_json_response (sample_python JNull) HTTPStatus.OK (JObj [("status", JStr "ok")])
   = _options_response)
  \/ (request_method env = "GET" /\ request_path env = "/docs" /\
      @_json_response (sample_python JNull) HTTPStatus.OK (JObj [("status", JStr "ok")])
      = _html_response SWAGGER_HTML)
  \/ (exists st payload,
         @_json_response (sample_python JNull) HTTPStatus.OK
           (JObj [("status", JStr "ok")])
         = @_json_response (sample_python JNull) st payload).
Proof.
  exact (proj2 (@json_responses_carry_headers (sample_python JNull) (list_scraper []))
           {| REQUEST_METHOD := Some "GET"; PATH_INFO := Some "/health";
              CONTENT_TYPE := None; CONTENT_LENGTH := None; wsgi_input := None |}
           (@_json_response (sample_python JNull) HTTPStatus.OK
              (JObj [("status", JStr "ok")]))
           [] eq_refl).
Defined.

(** C9 (amended) on OPTIONS /posts, the method spelt in lower case, and
    on DELETE /posts. *)
Lemma app_options_and_not_found_witness :
  @app (sample_python JNull) (list_scraper [])
     {| REQUEST_METHOD := Some "options"; PATH_INFO := Some "/posts";
        CONTENT_TYPE := None; CONTENT_LENGTH := None; wsgi_input := None |}
  = Run (Ret {| status := "204 No Content"; headers := CORS_HEADERS; body := [""] |}) []
  /\ @app (sample_python JNull) (list_scraper [])
       {| REQUEST_METHOD := Some "DELETE"; PATH_INFO := Some "/posts";
          CONTENT_TYPE := None; CONTENT_LENGTH := None; wsgi_input := None |}
     = Run (Ret (@_json_response (sample_python JNull) HTTPStatus.NOT_FOUND
                   (JObj [("detail", JStr "Not Found")]))) [].
Proof.
  split.
  - exact (proj1 (@app_options_and_not_found (sample_python JNull) (list_scraper [])
                    {| REQUEST_METHOD := Some "options"; PATH_INFO := Some "/posts";
                       CONTENT_TYPE := None; CONTENT_LENGTH := None;
                       wsgi_input := None |})
             eq_refl eq_refl).
  - apply (proj2 (@app_options_and_not_found (sample_python JNull) (list_scraper [])
                    {| REQUEST_METHOD := Some "DELETE"; PATH_INFO := Some "/posts";
                       CONTENT_TYPE := None; CONTENT_LENGTH := None;
                       wsgi_input := None |})).
    simpl. intros [H | [H | [H | [H | [H | [H | []]]]]]]; discriminate H.
Defined.

(** C10 (amended) on {"account": 0}. *)
Lemma falsy_target_forwarded_witness :
  only_present_target [("account", JInt 0)] "account"
  /\ _extract_target [("account", JInt 0)] = Ret ("account", JInt 0).
Proof.
  assert (only_present_target [("account", JInt 0)] "account"
          /\ ("account" <> "post_urls" ->
              _extract_target [("account", JInt 0)] = Ret ("account", JInt 0)
              /\ forall kwargs limit,
                  @_extract_request_kwargs (sample_python JNull) [("account", JInt 0)]
                  = Ret kwargs ->
                  @_coerce_int (sample_python JNull)
                    (supplied_limit [("account", JInt 0)]) "limit" 1 (Some MAX_LIMIT)
                  = Ret limit ->
                  (<["account" := JInt 0]> kwargs) !! "account" = Some (JInt 0)
                  /\ exists r trace,
                      @_collect_posts (sample_python JNull) (list_scraper [])
                        [("account", JInt 0)]
                      = Run r (EvGetPosts (<["account" := JInt 0]> kwargs) :: trace))
          /\ ("account" = "post_urls" ->
              _extract_target [("account", JInt 0)]
              = Raise (APIError 400 POST_URLS_LIST))) as (Honly & Hgood & _).
  { apply (@falsy_target_forwarded (sample_python JNull) (list_scraper [])
             [("account", JInt 0)] "account").
    - simpl. tauto.
    - repeat split; discriminate.
    - reflexivity.
    - intros other [<- | [<- | [<- | [<- | []]]]] Hne (Hnull & _);
        try congruence; exact (Hnull eq_refl). }
  split; [exact Honly |].
  apply Hgood. discriminate.
Defined.

(** * Further properties of the module *)

Section Collector.

Context `{!PythonRuntime} `{!Scraper}.

(** ** The loop, for any source *)

Lemma wanted_positive limit len : (1 <= wanted limit len)%nat.
Proof. unfold wanted. lia. Qed.

Lemma wanted_step limit len :
  Z.of_nat (len + 1) < limit -> wanted limit len = S (wanted limit (len + 1)).
Proof. unfold wanted. lia. Qed.

(** Every finished run of the loop: the [next] calls are the only events,
    there are at most [wanted] of them, and what is returned is what was
    held plus the posts the source produced, in their order. *)
Lemma for_post_in_run fuel limit :
  forall it results r trace,
    for_post_in fuel limit it results = Run r trace ->
    exists k new it',
      trace = replicate k EvNext
      /\ (k <= wanted limit (length results))%nat
      /\ yields it new it'
      /\ match r with
         | Ret posts =>
             posts = (results ++ new)%list
             /\ (length new <= wanted limit (length results))%nat
             /\ (k = length new \/ (k = S (length new) /\ gen_next it' = GenStop))
         | Raise e => k = S (length new) /\ gen_next it' = GenRaise e
         end.
Proof.
  induction fuel as [| fuel IH]; intros it results r trace; [discriminate |].
  simpl. unfold next.
  pose proof (wanted_positive limit (length results)) as Hpos.
  destruct (gen_next it) as [post rest | | e] eqn:Hnext.
  - rewrite run_ret_bind.
    destruct (Z.geb_spec (Z.of_nat (length (results ++ [post]))) limit) as [Hge | Hlt].
    + intros [= <- <-]. exists 1%nat, [post], rest.
      split; [reflexivity |]. split; [exact Hpos |].
      split; [econstructor; [eassumption | constructor] |].
      split; [reflexivity |]. split; [exact Hpos | left; reflexivity].
    + rewrite length_app in Hlt. simpl length in Hlt.
      destruct (for_post_in fuel limit rest (results ++ [post])) as [r' trace' |] eqn:Hrec;
        [| discriminate].
      intros [= <- <-].
      destruct (IH _ _ _ _ Hrec) as (k & new & it' & -> & Hk & Hyields & Hr).
      rewrite length_app in Hk. simpl length in Hk.
      pose proof (wanted_step limit (length results) Hlt) as Hw.
      exists (S k), (post :: new), it'.
      split; [reflexivity |]. split; [lia |].
      split; [econstructor; eassumption |].
      destruct r' as [posts | e].
      * destruct Hr as (-> & Hnew & Hcount).
        rewrite length_app in Hnew. simpl length in Hnew |- *.
        split; [now rewrite <- app_assoc |]. split; [lia |].
        destruct Hcount as [-> | [-> Hstop]]; auto.
      * destruct Hr as (-> & Hraise). simpl length. auto.
  - intros [= <- <-]. exists 1%nat, [], it.
    split; [reflexivity |]. split; [exact Hpos |]. split; [constructor |].
    split; [now rewrite app_nil_r |]. split; [simpl; lia | right; auto].
  - intros [= <- <-]. exists 1%nat, [], it.
    split; [reflexivity |]. split; [exact Hpos |]. split; [constructor |]. auto.
Qed.


(** ** [_collect_posts], for any request and any capability *)

(** Either validation stops [_collect_posts] before any effect, or it is
    the call of the capability and the loop, with a limit in [1, 100]. *)
Lemma collect_posts_cases payload :
  (exists e, _collect_posts payload = Run (Raise e) []
             /\ ((exists detail, e = APIError 400 detail)
                 \/ exists class_name message, e = OtherException class_name message))
  \/ (exists field value kwargs limit,
        _extract_target payload = Ret (field, value)
        /\ _extract_request_kwargs payload = Ret kwargs
        /\ _coerce_int (supplied_limit payload) "limit" 1 (Some MAX_LIMIT) = Ret limit
        /\ 1 <= limit <= MAX_LIMIT
        /\ _collect_posts payload = collect_with field value kwargs limit).
Proof.
  destruct (_extract_target payload) as [[field value] | e] eqn:Htarget.
  2: { left. exists e. split; [apply collect_posts_invalid; auto |].
       left. eapply extract_target_raises. eassumption. }
  destruct (_extract_request_kwargs payload) as [kwargs | e] eqn:Hkwargs.
  2: { left. exists e. split; [apply collect_posts_invalid; eauto |].
       eapply extract_request_kwargs_raises. eassumption. }
  destruct (_coerce_int (supplied_limit payload) "limit" 1 (Some MAX_LIMIT))
    as [limit | e] eqn:Hlimit.
  2: { left. exists e. split; [apply collect_posts_invalid; eauto 7 |].
       destruct (coerce_int_raises _ _ _ _ _ Hlimit) as [(d & ->) | (_ & ->)]; eauto. }
  right. exists field, value, kwargs, limit.
  destruct (coerce_int_in_range _ _ _ _ _ Hlimit) as (Hlow & Hhigh).
  repeat split; try assumption.
  - exact (Hhigh _ eq_refl).
  - now apply collect_posts_valid.
Qed.

(** X1. Whatever the capability does, the posts [_collect_posts] returns
    are the posts its iterator produced, in their order and without gap,
    and there are at most [limit] of them, where [limit] is the coerced
    limit of the request and lies in [1, 100]; the iterator was asked as
    many times as there are posts, or once more when it stopped by
    itself. *)
Theorem collect_posts_sound payload posts trace :
  _collect_posts payload = Run (Ret posts) trace ->
  exists field value kwargs limit it it' k,
    _extract_target payload = Ret (field, value)
    /\ _extract_request_kwargs payload = Ret kwargs
    /\ _coerce_int (supplied_limit payload) "limit" 1 (Some MAX_LIMIT) = Ret limit
    /\ get_posts (<[field := value]> kwargs) = Ret it
    /\ yields it posts it'
    /\ Z.of_nat (length posts) <= limit <= MAX_LIMIT
    /\ trace = EvGetPosts (<[field := value]> kwargs) :: replicate k EvNext
    /\ (k = length posts \/ (k = S (length posts) /\ gen_next it' = GenStop)).
Proof.
  intros Hrun.
  destruct (collect_posts_cases payload)
    as [(e & He & _) | (field & value & kwargs & limit & Ht & Hk & Hl & Hrange & Hcollect)].
  { rewrite He in Hrun. discriminate. }
  rewrite Hcollect in Hrun. unfold collect_with in Hrun.
  destruct (get_posts (<[field := value]> kwargs)) as [it | e] eqn:Hcall;
    [| discriminate].
  destruct (for_post_in (S (Z.to_nat limit)) limit it []) as [r loop |] eqn:Hloop;
    [| discriminate].
  injection Hrun as -> <-.
  destruct (for_post_in_run _ _ _ _ _ _ Hloop)
    as (k & new & it' & -> & Hbound & Hyields & -> & Hnew & Hcount).
  simpl length in *. rewrite wanted_0 in * by lia.
  exists field, value, kwargs, limit, it, it', k.
  repeat split; try assumption; simpl; try lia.
Qed.

End Collector.

Section Calls.

Context `{!PythonRuntime} `{!Scraper}.

(** ** What reaches the capability *)

Lemma key_in_true key keys : key_in key keys = true -> In key keys.
Proof.
  unfold key_in. induction keys as [| k keys IH]; simpl; [discriminate |].
  destruct (String.eqb_spec key k) as [-> | _]; auto.
Qed.

(** What a resolved target is. *)
Lemma extract_target_ret payload field value :
  _extract_target payload = Ret (field, value) ->
  In field TARGET_FIELDS
  /\ value = dict_get payload field
  /\ in_None_empty_str_empty_list value = false
  /\ (field = "post_urls" -> non_empty_list value).
Proof.
  rewrite extract_target_table.
  destruct (in_None_empty_str_empty_list (dict_get payload "account")) eqn:Ea;
  destruct (in_None_empty_str_empty_list (dict_get payload "group")) eqn:Eg;
  destruct (in_None_empty_str_empty_list (dict_get payload "post_urls")) eqn:Ep;
  destruct (in_None_empty_str_empty_list (dict_get payload "hashtag")) eqn:Eh;
  try discriminate;
  try destruct (negb (isinstance_list (dict_get payload "post_urls"))
                || negb (py_bool (dict_get payload "post_urls"))) eqn:El;
  try discriminate;
  intros [= <- <-]; (split; [simpl; tauto |]); (split; [reflexivity |]);
  (split; [assumption |]); intros Hf; try discriminate Hf.
  now apply (present_list_non_empty _ Ep).
Qed.

(** What a successful extraction holds: under each key it has, a value of
    the kind the key stands for. *)
Lemma extract_request_kwargs_typed payload kwargs key v :
  _extract_request_kwargs payload = Ret kwargs ->
  kwargs !! key = Some v ->
  (In key INT_KEYS /\ exists n, v = JInt n /\ 1 <= n)
  \/ (key = "options" /\ isinstance_dict v = true)
  \/ (key = "cookies" /\ isinstance_dict_or_str v = true)
  \/ (In key BOOL_KEYS /\ exists b, v = JBool b).
Proof.
  intros Hret.
  destruct (extract_request_kwargs_ret _ _ Hret) as (_ & Hopt & Hcook).
  rewrite (extract_request_kwargs_lookup _ _ Hret).
  destruct (key_in key BOOL_KEYS) eqn:Hb; rewrite ?andb_true_l, ?andb_false_l.
  { destruct (dict_mem payload key); rewrite ?andb_true_l, ?andb_false_l; cbv iota.
    - intros [= <-]. right. right. right.
      split; [now apply key_in_true | eauto].
    - apply key_in_true in Hb. apply in_BOOL_KEYS in Hb as [-> | ->]; simpl;
        discriminate. }
  destruct (String.eqb_spec key "cookies") as [-> | _]; rewrite ?andb_true_l, ?andb_false_l.
  { destruct (is_not_None (dict_get payload "cookies")) eqn:Hc; cbv iota.
    - intros [= <-]. right. right. left. split; [reflexivity |].
      apply Hcook. now apply is_not_None_iff.
    - simpl. discriminate. }
  destruct (String.eqb_spec key "options") as [-> | _]; rewrite ?andb_true_l, ?andb_false_l.
  { destruct (is_not_None (dict_get payload "options")) eqn:Ho; cbv iota.
    - intros [= <-]. right. left. split; [reflexivity |].
      apply Hopt. now apply is_not_None_iff.
    - simpl. discriminate. }
  destruct (key_in key INT_KEYS) eqn:Hi; rewrite ?andb_true_l, ?andb_false_l; cbv iota; [| discriminate].
  destruct (dict_mem payload key); rewrite ?andb_true_l, ?andb_false_l; cbv iota; [| discriminate].
  destruct (_coerce_int (dict_get payload key) key 1 None) as [n | e] eqn:Hn;
    [| discriminate].
  intros [= <-]. left. split; [now apply key_in_true |].
  exists n. split; [reflexivity |]. apply (coerce_int_in_range _ _ _ _ _ Hn).
Qed.

(** The events of the body of the [try], for any request: the read, then
    nothing, or the call with the resolved target and the extracted
    options followed by at most [MAX_LIMIT] calls of [next]. *)
Lemma load_and_collect_trace env r trace :
  load_and_collect env = Run r trace ->
  exists calls,
    trace = EvReadBody (read_size env) :: calls
    /\ (calls = []
        \/ exists payload field value kwargs k,
            _extract_target payload = Ret (field, value)
            /\ _extract_request_kwargs payload = Ret kwargs
            /\ calls = EvGetPosts (<[field := value]> kwargs) :: replicate k EvNext
            /\ (k <= Z.to_nat MAX_LIMIT)%nat).
Proof.
  unfold load_and_collect. rewrite load_json_body_eq.
  match goal with
  | |- Run ?r0 _ ≫= _ = _ -> _ => destruct r0 as [payload | e]
  end.
  2: { intros [= <- <-]. eauto. }
  rewrite run_ret_bind.
  destruct (collect_posts_cases payload)
    as [(e & -> & _) | (field & value & kwargs & limit & Ht & Hk & Hl & Hrange & ->)].
  { intros [= <- <-]. eauto. }
  unfold collect_with.
  destruct (get_posts (<[field := value]> kwargs)) as [it | e].
  - destruct (for_post_in (S (Z.to_nat limit)) limit it []) as [r' loop |] eqn:Hloop;
      [| discriminate].
    intros [= <- <-].
    destruct (for_post_in_run _ _ _ _ _ _ Hloop) as (k & new & it' & -> & Hbound & _).
    simpl length in Hbound. rewrite wanted_0 in Hbound by lia.
    eexists. split; [reflexivity |]. right.
    exists payload, field, value, kwargs, k.
    repeat split; try assumption. lia.
  - intros [= <- <-]. eexists. split; [reflexivity |]. right.
    exists payload, field, value, kwargs, 0%nat.
    repeat split; try assumption. lia.
Qed.

Lemma in_replicate_next k ev : In ev (replicate k EvNext) -> ev = EvNext.
Proof. induction k as [| k IH]; simpl; [contradiction | intros [<- | Hin]; auto]. Qed.

(** What the [except] clauses add to the trace. *)
Lemma except_clauses_trace e r trace :
  except_clauses e = Run r trace -> trace = [] \/ trace = [EvLogException e].
Proof.
  destruct e as [status_code detail | message | class_name message
                  | class_name message]; simpl.
  - destruct (HTTPStatus.of_value status_code); intros [= _ <-]; auto.
  - intros [= _ <-]. auto.
  - intros [= _ <-]. auto.
  - intros [= _ <-]. auto.
Qed.

(** The trace of the handler, with what the call was made from. *)
Lemma handle_posts_trace env r trace :
  _handle_posts env = Run r trace ->
  trace = []
  \/ exists calls log,
      trace = (EvReadBody (read_size env) :: calls ++ log)%list
      /\ (calls = []
          \/ exists payload field value kwargs k,
              _extract_target payload = Ret (field, value)
              /\ _extract_request_kwargs payload = Ret kwargs
              /\ calls = EvGetPosts (<[field := value]> kwargs) :: replicate k EvNext
              /\ (k <= Z.to_nat MAX_LIMIT)%nat)
      /\ (log = [] \/ exists e, log = [EvLogException e]).
Proof.
  unfold _handle_posts.
  destruct (negb (_is_json (CONTENT_TYPE env))); [intros [= _ <-]; auto |].
  unfold try_except.
  destruct (load_and_collect env) as [r0 trace0 |] eqn:Hbody; [| discriminate].
  destruct (load_and_collect_trace _ _ _ Hbody) as (calls & -> & Hcalls).
  destruct r0 as [posts | e].
  - intros [= _ <-]. right. exists calls, []. auto.
  - destruct (except_clauses e) as [r' log |] eqn:Hlog; [| discriminate].
    intros [= _ <-]. right. exists calls, log.
    split; [reflexivity |]. split; [exact Hcalls |].
    destruct (except_clauses_trace _ _ _ Hlog) as [-> | ->]; eauto.
Qed.

(** Outside POST /posts the application has no effect. *)
Lemma app_trace env r trace :
  app env = Run r trace -> trace = [] \/ _handle_posts env = Run r trace.
Proof.
  unfold app.
  repeat match goal with
         | |- (if ?c then _ else _) = _ -> _ => destruct c
         end;
    try (intros [= _ <-]; left; reflexivity).
  auto.
Qed.

(** X2. The effects of one request, whatever the request and the
    capability: nothing at all, or the body is read once, then the
    capability is called at most once and its iterator asked for at most
    100 posts, then at most one exception is logged. *)
Theorem request_trace_shape env r trace :
  app env = Run r trace -> request_trace trace.
Proof.
  intros Happ. unfold request_trace.
  destruct (app_trace _ _ _ Happ) as [-> | Hhandle]; [auto |].
  destruct (handle_posts_trace _ _ _ Hhandle)
    as [-> | (calls & log & -> & Hcalls & Hlog)]; [auto |].
  right. exists (read_size env), calls, log.
  split; [reflexivity |]. split; [| exact Hlog].
  destruct Hcalls as [-> | (payload & field & value & kwargs & k & _ & _ & -> & Hk)];
    eauto.
Qed.

(** X4. Whenever the application calls the capability, the keyword
    arguments hold exactly one of the four targets, with a value that is
    none of null, "" and [] (a non-empty list for post_urls); pages,
    page_limit and timeout are integers of at least 1, extra_info and
    youtube_dl booleans, options an object, cookies a string or an
    object; and there is no other keyword: the limit, in particular, is
    never passed on. *)
Theorem capability_call_arguments env r trace kwargs :
  app env = Run r trace ->
  In (EvGetPosts kwargs) trace ->
  (exists field value,
      In field TARGET_FIELDS
      /\ kwargs !! field = Some value
      /\ counts_as_present value
      /\ (field = "post_urls" -> non_empty_list value)
      /\ forall other, In other TARGET_FIELDS -> other <> field ->
           kwargs !! other = None)
  /\ (forall key v, kwargs !! key = Some v -> In key KNOWN_KWARGS)
  /\ (forall key v, In key INT_KEYS -> kwargs !! key = Some v ->
        exists n, v = JInt n /\ 1 <= n)
  /\ (forall key v, In key BOOL_KEYS -> kwargs !! key = Some v ->
        exists b, v = JBool b)
  /\ (forall v, kwargs !! "options" = Some v -> isinstance_dict v = true)
  /\ (forall v, kwargs !! "cookies" = Some v -> isinstance_dict_or_str v = true)
  /\ kwargs !! "limit" = None.
Proof.
  intros Happ Hin.
  destruct (app_trace _ _ _ Happ) as [-> | Hhandle]; [contradiction |].
  destruct (handle_posts_trace _ _ _ Hhandle)
    as [-> | (calls & log & -> & Hcalls & Hlog)]; [contradiction |].
  assert (exists payload field value options,
             _extract_target payload = Ret (field, value)
             /\ _extract_request_kwargs payload = Ret options
             /\ kwargs = <[field := value]> options)
    as (payload & field & value & options & Htarget & Hoptions & ->).
  { destruct Hin as [Hin | Hin]; [discriminate |].
    apply in_app_or in Hin as [Hin | Hin].
    - destruct Hcalls as [-> | (payload & field & value & options & k & Ht & Ho & -> & _)];
        [contradiction |].
      destruct Hin as [[= <-] | Hin]; [eauto 8 |].
      apply in_replicate_next in Hin. discriminate.
    - destruct Hlog as [-> | (e & ->)]; [contradiction |].
      destruct Hin as [Hin | []]. discriminate. }
  destruct (extract_target_ret _ _ _ Htarget) as (Hfield & _ & Hpresent & Hurls).
  pose proof (fun key v => extract_request_kwargs_typed payload options key v Hoptions)
    as Htyped.
  assert (forall key v, (<[field := value]> options) !! key = Some v ->
            key = field \/ (key <> field /\ options !! key = Some v)) as Hlook.
  { intros key v. destruct (String.eqb_spec key field) as [-> | Hne]; [auto |].
    rewrite lookup_insert_ne by congruence. auto. }
  assert (forall key, In key TARGET_FIELDS -> options !! key = None) as Hnone.
  { intros key Hkey. destruct (options !! key) as [v |] eqn:Hv; [| reflexivity].
    exfalso. simpl in Hkey.
    destruct (Htyped _ _ Hv) as [(Hi & _) | [(-> & _) | [(-> & _) | (Hb & _)]]];
      simpl in *; intuition (subst; discriminate). }
  split; [| split; [| split; [| split; [| split; [| split]]]]].
  - exists field, value.
    split; [exact Hfield |]. split; [apply lookup_insert_eq |].
    split; [now apply counts_as_present_iff |]. split; [exact Hurls |].
    intros other Hother Hne. rewrite lookup_insert_ne by congruence. auto.
  - intros key v Hv. unfold KNOWN_KWARGS.
    destruct (Hlook _ _ Hv) as [-> | (_ & Hv')];
      [apply in_or_app; left; exact Hfield |].
    apply in_or_app. right.
    destruct (Htyped _ _ Hv') as [(Hi & _) | [(-> & _) | [(-> & _) | (Hb & _)]]].
    + apply in_or_app. left. exact Hi.
    + apply in_or_app. right. simpl. auto.
    + apply in_or_app. right. simpl. auto.
    + apply in_or_app. right. simpl in Hb |- *. tauto.
  - intros key v Hkey Hv.
    destruct (Hlook _ _ Hv) as [-> | (_ & Hv')].
    { exfalso. simpl in Hkey, Hfield. intuition (subst; discriminate). }
    destruct (Htyped _ _ Hv') as [(_ & Hn) | [(-> & _) | [(-> & _) | (Hb & _)]]];
      [exact Hn | | |]; exfalso; simpl in *; intuition (subst; discriminate).
  - intros key v Hkey Hv.
    destruct (Hlook _ _ Hv) as [-> | (_ & Hv')].
    { exfalso. simpl in Hkey, Hfield. intuition (subst; discriminate). }
    destruct (Htyped _ _ Hv') as [(Hi & _) | [(-> & _) | [(-> & _) | (_ & Hb)]]];
      [| | | exact Hb]; exfalso; simpl in *; intuition (subst; discriminate).
  - intros v Hv.
    destruct (Hlook _ _ Hv) as [<- | (_ & Hv')].
    { exfalso. simpl in Hfield. intuition discriminate. }
    destruct (Htyped _ _ Hv') as [(Hi & _) | [(_ & Ho) | [([=] & _) | (Hb & _)]]];
      [| exact Ho |]; exfalso; simpl in *; intuition discriminate.
  - intros v Hv.
    destruct (Hlook _ _ Hv) as [<- | (_ & Hv')].
    { exfalso. simpl in Hfield. intuition discriminate. }
    destruct (Htyped _ _ Hv') as [(Hi & _) | [([=] & _) | [(_ & Hc) | (Hb & _)]]];
      [| exact Hc |]; exfalso; simpl in *; intuition discriminate.
  - destruct ((<[field := value]> options) !! "limit") as [v |] eqn:Hv;
      [| reflexivity].
    exfalso. destruct (Hlook _ _ Hv) as [<- | (_ & Hv')].
    { simpl in Hfield. intuition discriminate. }
    destruct (Htyped _ _ Hv') as [(Hi & _) | [([=] & _) | [([=] & _) | (Hb & _)]]];
      simpl in *; intuition discriminate.
Qed.

End Calls.

Section Failures.

Context `{!PythonRuntime} `{!Scraper}.

(** ** A source that fails on the way *)


(** ** Every way a request can end *)

Lemma json_response_status st payload :
  status (_json_response st payload) = _status_line st.
Proof. reflexivity. Qed.

(** Every request ends, with a response or with an exception.  The
    status line of a response is one of 200 OK, 204 No Content, 400 Bad
    Request, 401 Unauthorized, 404 Not Found, 415 Unsupported Media Type
    and 502 Bad Gateway, unless the capability raised an [APIError] with
    another code that HTTPStatus has, which is then the status.  An
    exception leaves the application in three cases only: the posts
    collected hold an object [json.dumps] cannot write; the capability
    raised something that is no [Exception]; the capability raised an
    [APIError] whose code is no member of HTTPStatus. *)
Lemma app_responds_or_escapes env :
  exists r trace,
    app env = Run r trace
    /\ match r with
       | Ret answer =>
           In (status answer) STATUS_LINES
           \/ exists status_code detail st,
                from_capability (APIError status_code detail)
                /\ HTTPStatus.of_value status_code = Some st
                /\ status answer = _status_line st
       | Raise e =>
           (exists posts,
               load_and_collect env = Run (Ret posts) trace
               /\ to_json_list posts = Raise e)
           \/ (from_capability e
               /\ exists class_name message, e = BaseException class_name message)
           \/ (exists status_code detail,
                 from_capability (APIError status_code detail)
                 /\ HTTPStatus.of_value status_code = None
                 /\ e = OtherException "ValueError"
                          (py_str_int status_code ++ " is not a valid HTTPStatus"))
       end.
Proof.
  match goal with
  | |- exists r trace, _ /\ @?P r trace => set (ends := P)
  end.
  assert (forall st payload trace,
             In (_status_line st) STATUS_LINES ->
             ends (Ret (_json_response st payload)) trace) as Hanswer.
  { intros st payload trace Hin. left. exact Hin. }
  assert (exists r trace, _handle_posts env = Run r trace /\ ends r trace)
    as Hhandle.
  { destruct (_is_json (CONTENT_TYPE env)) eqn:Hjson.
    2: { unfold _handle_posts. rewrite Hjson.
         eexists _, _. split; [reflexivity |]. apply Hanswer. simpl. tauto. }
    destruct (load_and_collect env) as [[posts | e] trace |] eqn:Hbody.
    - rewrite (handle_posts_returns _ _ _ Hjson Hbody).
      destruct (to_json_list posts) as [written | e] eqn:Hwritten.
      + eexists _, _. split; [reflexivity |]. apply Hanswer. simpl. tauto.
      + eexists _, _. split; [reflexivity |]. left. eauto.
    - rewrite (handle_posts_raises _ _ _ Hjson Hbody).
      destruct (load_and_collect_raises _ _ _ Hbody)
        as [(detail & ->) | [(class_name & message & ->) | Hfrom]].
      + eexists _, _. split; [reflexivity |]. apply Hanswer. simpl. tauto.
      + eexists _, _. split; [reflexivity |]. apply Hanswer. simpl. tauto.
      + destruct e as [status_code detail | message | class_name message
                      | class_name message]; simpl.
        * destruct (HTTPStatus.of_value status_code) as [st |] eqn:Hst.
          -- eexists _, _. split; [reflexivity |]. right.
             exists status_code, detail, st. auto.
          -- eexists _, _. split; [reflexivity |]. right. right.
             exists status_code, detail. auto.
        * eexists _, _. split; [reflexivity |]. apply Hanswer. simpl. tauto.
        * eexists _, _. split; [reflexivity |]. apply Hanswer. simpl. tauto.
        * eexists _, _. split; [reflexivity |]. right. left. eauto.
    - exfalso. unfold load_and_collect in Hbody.
      rewrite load_json_body_eq in Hbody.
      match type of Hbody with
      | Run ?r0 _ ≫= _ = _ => destruct r0 as [payload | e]
      end; [| discriminate].
      rewrite run_ret_bind in Hbody.
      pose proof (collect_posts_terminates payload) as Hfin.
      destruct (_collect_posts payload); [discriminate | contradiction]. }
  unfold app.
  repeat match goal with
         | |- exists _ _, (if ?c then _ else _) = _ /\ _ => destruct c
         end;
    try exact Hhandle;
    (eexists _, _; split; [reflexivity |]; left; simpl; tauto).
Qed.

(** The posts a collection returns were produced by an iterator of the
    capability. *)
Lemma load_and_collect_yielded env posts trace :
  load_and_collect env = Run (Ret posts) trace ->
  exists it it', yields it posts it'.
Proof.
  unfold load_and_collect.
  destruct (_load_json_body env) as [[payload | e] read |]; [| discriminate ..].
  rewrite run_ret_bind.
  destruct (collect_posts_cases payload)
    as [(e & -> & _) | (field & value & kwargs & limit & _ & _ & _ & _ & ->)];
    [discriminate |].
  unfold collect_with.
  destruct (get_posts (<[field := value]> kwargs)) as [it | e]; [| discriminate].
  destruct (for_post_in (S (Z.to_nat limit)) limit it []) as [r loop |] eqn:Hloop;
    [| discriminate].
  intros [= -> _].
  destruct (for_post_in_run _ _ _ _ _ _ Hloop)
    as (k & new & it' & _ & _ & Hyields & -> & _).
  exists it, it'. exact Hyields.
Qed.

Lemma yielded_posts_are_written it posts it' :
  yields_writable_posts ->
  yields it posts it' ->
  exists written, to_json_list posts = Ret written.
Proof.
  intros Hwritable Hyields.
  induction Hyields as [it | it post it' posts it'' Hnext _ (written & IH)].
  - exists []. reflexivity.
  - destruct (Hwritable _ _ _ Hnext) as (first & Hfirst).
    exists (first :: written). cbn [to_json_list]. rewrite Hfirst, IH. reflexivity.
Qed.

(** X5. When the capability raises nothing but [Exception]s other than
    the module's [APIError], and produces only posts [json.dumps] can
    write, every request is answered: the application returns a response,
    never an exception, and its status line is one of 200 OK, 204 No
    Content, 400 Bad Request, 401 Unauthorized, 404 Not Found, 415
    Unsupported Media Type and 502 Bad Gateway. *)
Theorem app_always_responds env :
  raises_plain_exceptions ->
  yields_writable_posts ->
  exists r trace, app env = Run (Ret r) trace /\ In (status r) STATUS_LINES.
Proof.
  intros Hplain Hwritable.
  destruct (app_responds_or_escapes env) as ([answer | e] & trace & Happ & Hends).
  - exists answer, trace. split; [exact Happ |].
    destruct Hends as [Hin | (status_code & detail & st & Hfrom & _)];
      [exact Hin |].
    destruct (Hplain _ Hfrom).
  - exfalso.
    destruct Hends
      as [(posts & Hbody & Hunwritable)
         | [(Hfrom & class_name & message & ->)
           | (status_code & detail & Hfrom & _)]].
    + destruct (load_and_collect_yielded _ _ _ Hbody) as (it & it' & Hyields).
      destruct (yielded_posts_are_written _ _ _ Hwritable Hyields) as (written & Hw).
      congruence.
    + exact (Hplain _ Hfrom).
    + exact (Hplain _ Hfrom).
Qed.

(** X6. When the capability raises, at its call, an [APIError] whose
    status code is no member of HTTPStatus, the handler does not answer:
    building the response raises a ValueError that leaves the
    application. *)
Theorem foreign_status_code_escapes
    env payload trace field value kwargs limit status_code detail :
  _is_json (CONTENT_TYPE env) = true ->
  _load_json_body env = Run (Ret payload) trace ->
  _extract_target payload = Ret (field, value) ->
  _extract_request_kwargs payload = Ret kwargs ->
  _coerce_int (supplied_limit payload) "limit" 1 (Some MAX_LIMIT) = Ret limit ->
  get_posts (<[field := value]> kwargs) = Raise (APIError status_code detail) ->
  HTTPStatus.of_value status_code = None ->
  _handle_posts env
  = Run (Raise (OtherException "ValueError"
                  (py_str_int status_code ++ " is not a valid HTTPStatus")))
        (trace ++ [EvGetPosts (<[field := value]> kwargs)])%list.
Proof.
  intros Hjson Hload Htarget Hkwargs Hlimit Hcall Hcode.
  rewrite (handle_posts_raises env (APIError status_code detail)
             (trace ++ [EvGetPosts (<[field := value]> kwargs)])%list Hjson).
  - simpl. rewrite Hcode. simpl. rewrite app_nil_r. reflexivity.
  - rewrite (load_and_collect_loaded _ _ _ Hload).
    rewrite (collect_posts_valid _ _ _ _ _ Htarget Hkwargs Hlimit).
    unfold collect_with. rewrite Hcall. reflexivity.
Qed.

(** ** Floats that are no numbers *)

(** X7. An infinite float is not refused as a bad integer: [int] raises
    OverflowError on it, which [_coerce_int] lets through, so that a
    request whose limit is an infinite float is answered 502 with the
    generic detail, the exception being logged; a NaN limit is answered
    with the 400 "limit must be an integer". *)
Theorem infinite_limit_is_bad_gateway env payload trace field value kwargs :
  _is_json (CONTENT_TYPE env) = true ->
  _load_json_body env = Run (Ret payload) trace ->
  _extract_target payload = Ret (field, value) ->
  _extract_request_kwargs payload = Ret kwargs ->
  (forall sign name minimum maximum,
      _coerce_int (JFloat (S754_infinity sign)) name minimum maximum
      = Raise (OtherException "OverflowError"
                 "cannot convert float infinity to integer"))
  /\ (forall sign,
        dict_lookup payload "limit" = Some (JFloat (S754_infinity sign)) ->
        _handle_posts env
        = Run (Ret (_json_response HTTPStatus.BAD_GATEWAY
                      (JObj [("detail", JStr "Failed to fetch posts")])))
              (trace ++ [EvLogException
                           (OtherException "OverflowError"
                              "cannot convert float infinity to integer")])%list)
  /\ (dict_lookup payload "limit" = Some (JFloat S754_nan) ->
      _handle_posts env
      = Run (Ret (bad_request "limit must be an integer")) trace).
Proof.
  intros Hjson Hload Htarget Hkwargs.
  split; [reflexivity | split].
  - intros sign Hsupplied.
    assert (_collect_posts payload
            = Run (Raise (OtherException "OverflowError"
                            "cannot convert float infinity to integer")) [])
      as Hcollect.
    { apply collect_posts_invalid. right. right.
      exists (field, value), kwargs. repeat split; try assumption.
      unfold supplied_limit, dict_get_default. rewrite Hsupplied. reflexivity. }
    rewrite (handle_posts_raises env
               (OtherException "OverflowError"
                  "cannot convert float infinity to integer") trace Hjson);
      [reflexivity |].
    rewrite (load_and_collect_loaded _ _ _ Hload), Hcollect, app_nil_r.
    reflexivity.
  - intros Hsupplied. eapply handle_posts_invalid; [eassumption | eassumption |].
    apply collect_posts_invalid. right. right.
    exists (field, value), kwargs. repeat split; try assumption.
    unfold supplied_limit, dict_get_default. rewrite Hsupplied. reflexivity.
Qed.

End Failures.

Section Routing.

Context `{!PythonRuntime} `{!Scraper}.

(** ** Letter case *)

Lemma ascii_upper_upper c : ascii_upper (ascii_upper c) = ascii_upper c.
Proof. destruct c as [[] [] [] [] [] [] [] []]; reflexivity. Qed.

Lemma ascii_upper_lower c : ascii_upper (ascii_lower c) = ascii_upper c.
Proof. destruct c as [[] [] [] [] [] [] [] []]; reflexivity. Qed.

Lemma ascii_lower_upper c : ascii_lower (ascii_upper c) = ascii_lower c.
Proof. destruct c as [[] [] [] [] [] [] [] []]; reflexivity. Qed.

Lemma str_map_map f g s : str_map f (str_map g s) = str_map (fun c => f (g c)) s.
Proof. induction s as [| c s IH]; simpl; [reflexivity | now rewrite IH]. Qed.

Lemma str_map_ext f g s : (forall c, f c = g c) -> str_map f s = str_map g s.
Proof. intros Hfg. induction s as [| c s IH]; simpl; [reflexivity | now rewrite Hfg, IH]. Qed.

Lemma str_upper_upper s : str_upper (str_upper s) = str_upper s.
Proof.
  unfold str_upper. rewrite str_map_map. apply str_map_ext, ascii_upper_upper.
Qed.

Lemma str_upper_lower s : str_upper (str_lower s) = str_upper s.
Proof.
  unfold str_upper, str_lower. rewrite str_map_map.
  apply str_map_ext, ascii_upper_lower.
Qed.

Lemma str_lower_upper s : str_lower (str_upper s) = str_lower s.
Proof.
  unfold str_upper, str_lower. rewrite str_map_map.
  apply str_map_ext, ascii_lower_upper.
Qed.

Lemma str_map_empty f s : String.eqb (str_map f s) "" = String.eqb s "".
Proof. destruct s; reflexivity. Qed.

Lemma str_map_append f s t : str_map f (s ++ t) = str_map f s ++ str_map f t.
Proof. induction s as [| c s IH]; simpl; [reflexivity | now rewrite IH]. Qed.

(** [str_or] never returns the empty string for a non-empty default. *)
Lemma str_or_not_empty x default :
  String.eqb default "" = false -> String.eqb (str_or x default) "" = false.
Proof.
  intros Hd. unfold str_or. destruct x as [s |]; [| exact Hd].
  destruct (String.eqb s "") eqn:Hs; assumption.
Qed.

(** ** Dispatch *)

(** [app] looks at the environ through the dispatched method and path, and
    through what [_handle_posts] reads. *)
Lemma app_ext env env' :
  request_method env = request_method env' ->
  request_path env = request_path env' ->
  _handle_posts env = _handle_posts env' ->
  app env = app env'.
Proof.
  unfold app. fold (request_method env) (request_path env).
  fold (request_method env') (request_path env').
  intros -> -> ->. reflexivity.
Qed.

Lemma request_method_with_method env m :
  request_method (with_method env m) = str_upper (str_or m "GET").
Proof. reflexivity. Qed.

(** X8. The application matches the method without regard to letter
    case, takes a missing or empty method for GET and a missing or empty
    path for /: it answers a request as it answers the one whose method
    and path are written out in that form. *)
Theorem app_normalises_method_and_path env :
  app (normalised env) = app env
  /\ (forall m, app (with_method env (Some (str_lower m)))
                = app (with_method env (Some m)))
  /\ (forall m, app (with_method env (Some (str_upper m)))
                = app (with_method env (Some m)))
  /\ app (with_method env None) = app (with_method env (Some "GET"))
  /\ app (with_method env (Some "")) = app (with_method env (Some "GET")).
Proof.
  split; [| split; [| split; [| split]]].
  - apply app_ext; [| | reflexivity].
    + unfold normalised, request_method at 1. simpl REQUEST_METHOD.
      fold (request_method env). unfold str_or at 1.
      assert (String.eqb (request_method env) "" = false) as ->.
      { unfold request_method, str_upper. rewrite str_map_empty.
        now apply str_or_not_empty. }
      unfold request_method. apply str_upper_upper.
    + unfold normalised, request_path at 1. simpl PATH_INFO.
      fold (request_path env). unfold str_or at 1.
      assert (String.eqb (request_path env) "" = false) as ->.
      { unfold request_path. now apply str_or_not_empty. }
      reflexivity.
  - intros m. apply app_ext; [| reflexivity | reflexivity].
    rewrite !request_method_with_method. unfold str_or.
    unfold str_lower at 1. rewrite str_map_empty.
    destruct (String.eqb m ""); [reflexivity | apply str_upper_lower].
  - intros m. apply app_ext; [| reflexivity | reflexivity].
    rewrite !request_method_with_method. unfold str_or.
    unfold str_upper at 2. rewrite str_map_empty.
    destruct (String.eqb m ""); [reflexivity | apply str_upper_upper].
  - apply app_ext; reflexivity.
  - apply app_ext; reflexivity.
Qed.

(** X9. Outside POST /posts the application always answers, and without
    any effect: it reads no body, calls no capability, logs nothing. *)
Theorem static_routes_have_no_effect env :
  ~ (request_method env = "POST" /\ request_path env = "/posts") ->
  exists r, app env = Run (Ret r) [].
Proof.
  intros Hnot. unfold app. fold (request_method env) (request_path env).
  destruct (String.eqb_spec (request_method env) "POST") as [Hm | _];
    destruct (String.eqb_spec (request_path env) "/posts") as [Hp | _];
    try (exfalso; apply Hnot; split; assumption);
    repeat (rewrite ?andb_false_r, ?andb_false_l; cbv iota;
            try match goal with
                | |- exists _, (if ?c then _ else _) = _ => destruct c
                end);
    eexists; reflexivity.
Qed.

(** ** The documentation page *)

(** X10. GET /docs is answered with the page, under status 200, content
    type text/html and a Content-Length that is the decimal text of the
    page's length; unlike a JSON response, the response carries none of
    the three CORS headers. *)
Theorem docs_page_response env :
  request_method env = "GET" ->
  request_path env = "/docs" ->
  app env = Run (Ret (_html_response SWAGGER_HTML)) []
  /\ forall html,
      let r := _html_response html in
      status r = "200 OK"
      /\ body r = [html]
      /\ header "Content-Type" (headers r) = Some "text/html; charset=utf-8"
      /\ (exists text,
            header "Content-Length" (headers r) = Some text /\
            decimal_int_of_str text = Some (Z.of_nat (String.length html)))
      /\ Forall (fun cors => header (fst cors) (headers r) = None) CORS_HEADERS.
Proof.
  intros Hm Hp. split.
  - unfold app. fold (request_method env) (request_path env).
    rewrite Hm, Hp. reflexivity.
  - intros html r. subst r. unfold _html_response. simpl.
    repeat split.
    + eexists. split; [reflexivity |]. apply decimal_int_of_py_str_int.
    + repeat constructor.
Qed.

End Routing.

Section Reading.

Context `{!PythonRuntime} `{!Scraper}.

(** ** The content type test *)

Lemma prefix_append needle haystack :
  String.prefix needle haystack = true <-> exists post, haystack = needle ++ post.
Proof.
  revert haystack. induction needle as [| a needle IH]; intros haystack.
  - destruct haystack; simpl; split; eauto.
  - destruct haystack as [| b haystack]; simpl.
    + split; [discriminate | intros (post & Hp); discriminate].
    + destruct (ascii_dec a b) as [<- | Hne].
      * rewrite IH. split; intros (post & Hp); exists post; [now rewrite Hp |].
        now injection Hp.
      * split; [discriminate |]. intros (post & [= Hab _]). congruence.
Qed.

Lemma str_contains_append needle haystack :
  str_contains needle haystack = true <->
  exists pre post, haystack = pre ++ needle ++ post.
Proof.
  induction haystack as [| c haystack IH].
  - cbn [str_contains]. destruct (String.prefix needle "") eqn:Hp.
    + apply prefix_append in Hp as (post & Hp). split; [| reflexivity].
      intros _. exists "", post. exact Hp.
    + split; [discriminate |]. intros (pre & post & Hh).
      destruct pre; [| discriminate]. simpl in Hh.
      assert (String.prefix needle "" = true) by (apply prefix_append; eauto).
      congruence.
  - cbn [str_contains]. destruct (String.prefix needle (String c haystack)) eqn:Hp.
    + apply prefix_append in Hp as (post & Hp). split; [| reflexivity].
      intros _. exists "", post. exact Hp.
    + rewrite IH. split.
      * intros (pre & post & ->). exists (String c pre), post. reflexivity.
      * intros (pre & post & Hh). destruct pre as [| c' pre].
        -- simpl in Hh.
           assert (String.prefix needle (String c haystack) = true)
             by (apply prefix_append; eauto).
           congruence.
        -- injection Hh as _ ->. eauto.
Qed.

(** X11. [_is_json] holds exactly of a content type that, put in lower
    case, has "application/json" somewhere in it: nothing else is looked
    at, so that parameters such as a charset are accepted, and so is any
    longer type the text is part of; a missing or empty content type is
    refused, and letter case does not matter. *)
Theorem is_json_iff content_type :
  (_is_json content_type = true <->
   exists s pre post,
     content_type = Some s /\ str_lower s = pre ++ "application/json" ++ post)
  /\ _is_json None = false
  /\ _is_json (Some "") = false
  /\ (forall s, _is_json (Some (str_upper s)) = _is_json (Some s))
  /\ (forall pre post,
        _is_json (Some (pre ++ "application/json" ++ post)) = true).
Proof.
  assert (forall s, _is_json (Some s)
                    = str_contains "application/json" (str_lower s)) as Hsome.
  { intros s. unfold _is_json. destruct s; reflexivity. }
  split; [| split; [| split; [| split]]]; try reflexivity.
  - destruct content_type as [s |].
    + rewrite Hsome, str_contains_append. split.
      * intros (pre & post & Hs). eauto.
      * intros (s' & pre & post & [= <-] & Hs). eauto.
    + split; [discriminate | intros (s & pre & post & [=] & _)].
  - intros s. rewrite !Hsome, str_lower_upper. reflexivity.
  - intros pre post. rewrite Hsome. apply str_contains_append.
    exists (str_lower pre), (str_lower post).
    unfold str_lower. rewrite !str_map_append. reflexivity.
Qed.

(** ** The bytes that are parsed *)

Lemma str_append_nil_r s : s ++ "" = s.
Proof.
  induction s as [| c s IH]; [reflexivity |].
  change (String c (s ++ "") = String c s). now f_equal.
Qed.

Lemma str_length_append s t :
  String.length (s ++ t) = (String.length s + String.length t)%nat.
Proof.
  induction s as [| c s IH]; [reflexivity |].
  change (S (String.length (s ++ t)) = S (String.length s + String.length t)).
  now f_equal.
Qed.

Lemma substring_prefix n s : exists rest, s = String.substring 0 n s ++ rest.
Proof.
  revert s. induction n as [| n IH]; intros s.
  - exists s. destruct s; reflexivity.
  - destruct s as [| c s]; [exists ""; reflexivity |].
    destruct (IH s) as (rest & Hrest). exists rest.
    change (String c s = String c (String.substring 0 n s ++ rest)).
    f_equal. exact Hrest.
Qed.

Lemma substring_length n s :
  String.length (String.substring 0 n s) = Nat.min n (String.length s).
Proof.
  revert s. induction n as [| n IH]; intros s.
  - destruct s; reflexivity.
  - destruct s as [| c s]; [reflexivity |]. simpl. now rewrite IH.
Qed.

(** What a body that loads says of the bytes read. *)
Lemma load_json_body_ret env payload trace :
  _load_json_body env = Run (Ret payload) trace ->
  trace = [EvReadBody (read_size env)]
  /\ body_read env <> ""
  /\ exists text,
      utf8_decode (body_read env) = Some text
      /\ json_loads text = Loaded (JObj payload).
Proof.
  rewrite load_json_body_eq. intros [= Hr <-]. split; [reflexivity |].
  destruct (String.eqb_spec (body_read env) "") as [| Hne]; [discriminate |].
  split; [exact Hne |].
  destruct (utf8_decode (body_read env)) as [text |]; [| discriminate].
  exists text. split; [reflexivity |].
  destruct (json_loads text) as [[| | | | | | kvs] | |]; try discriminate.
  now injection Hr as ->.
Qed.

(** X12. What [_load_json_body] parses is a prefix of the request body:
    the first [n] bytes when CONTENT_LENGTH reads as a positive integer
    [n] (all of them when there are fewer), and the whole body when
    CONTENT_LENGTH is missing, empty, no integer, zero or negative; the
    payload it returns is the object [json.loads] makes of those bytes. *)
Theorem body_read_is_prefix env :
  let declared := int_of_str (str_or (CONTENT_LENGTH env) "0") in
  (exists rest, stream_content env = body_read env ++ rest)
  /\ (forall n, declared = Some n -> 0 < n ->
        String.length (body_read env)
        = Nat.min (Z.to_nat n) (String.length (stream_content env)))
  /\ (declared = None \/ (exists n, declared = Some n /\ n <= 0) ->
      body_read env = stream_content env)
  /\ (forall payload trace,
        _load_json_body env = Run (Ret payload) trace ->
        trace = [EvReadBody (read_size env)]
        /\ body_read env <> ""
        /\ exists text,
            utf8_decode (body_read env) = Some text
            /\ json_loads text = Loaded (JObj payload)).
Proof.
  intros declared. unfold body_read, read_size. fold declared.
  fold (stream_content env).
  split; [| split; [| split]].
  - destruct declared as [n |]; simpl.
    + destruct (Z.eqb_spec n 0); simpl; [exists ""; now rewrite str_append_nil_r |].
      destruct (Z.ltb_spec n 0); [exists ""; now rewrite str_append_nil_r |].
      apply substring_prefix.
    + exists "". now rewrite str_append_nil_r.
  - intros n -> Hpos. simpl.
    destruct (Z.eqb_spec n 0); [lia |]. simpl.
    destruct (Z.ltb_spec n 0); [lia |]. apply substring_length.
  - intros [-> | (n & -> & Hn)]; [reflexivity |]. simpl.
    destruct (Z.eqb_spec n 0); [reflexivity |]. simpl.
    destruct (Z.ltb_spec n 0); [reflexivity | lia].
  - intros payload trace Hload.
    exact (load_json_body_ret env payload trace Hload).
Qed.

(** X13. A request built by the test suite's [_invoke] is read whole,
    provided [int] reads back the decimal text of a length: the bytes
    parsed are the body given, or none when no body was given. *)
Theorem invoke_environ_is_read_whole path method body content_type :
  (forall n, 0 <= n -> int_of_str (py_str_int n) = Some n) ->
  body_read (invoke_environ path method body content_type) = str_or body ""
  /\ CONTENT_TYPE (invoke_environ path method body content_type)
     = match body with Some _ => Some content_type | None => None end.
Proof.
  intros Hint. split; [| reflexivity].
  unfold body_read, read_size, invoke_environ. simpl CONTENT_LENGTH.
  simpl wsgi_input.
  set (raw := str_or body "").
  assert (str_or (Some (py_str_int (Z.of_nat (String.length raw)))) "0"
          = py_str_int (Z.of_nat (String.length raw))) as ->.
  { unfold str_or.
    destruct (String.eqb_spec (py_str_int (Z.of_nat (String.length raw))) "")
      as [Hempty | _]; [| reflexivity].
    pose proof (decimal_int_of_py_str_int (Z.of_nat (String.length raw))) as Hd.
    rewrite Hempty in Hd. discriminate. }
  rewrite Hint by lia.
  destruct (Z.eqb_spec (Z.of_nat (String.length raw)) 0) as [Hzero | Hpos];
    [reflexivity |].
  unfold stream_read.
  destruct (Z.ltb_spec (Z.of_nat (String.length raw)) 0); [reflexivity |].
  rewrite Nat2Z.id.
  destruct (substring_prefix (String.length raw) raw) as (rest & Hrest).
  pose proof (substring_length (String.length raw) raw) as Hlen.
  rewrite Nat.min_id in Hlen.
  assert (String.length rest = 0%nat) as Hnil.
  { apply (f_equal String.length) in Hrest.
    rewrite str_length_append in Hrest. lia. }
  destruct rest; [| discriminate].
  rewrite str_append_nil_r in Hrest. now rewrite <- Hrest.
Qed.

End Reading.

Section Composition.

Context `{!PythonRuntime} `{!Scraper}.

(** ** The fields that matter *)

Lemma dict_mem_lookup d key :
  dict_mem d key = match dict_lookup d key with Some _ => true | None => false end.
Proof.
  induction d as [| [k v] d IH]; simpl; [reflexivity |].
  destruct (String.eqb k key); [reflexivity | exact IH].
Qed.

Lemma dict_lookup_cons_ne k v d key :
  k <> key -> dict_lookup ((k, v) :: d) key = dict_lookup d key.
Proof. intros Hne. simpl. destruct (String.eqb_spec k key); [contradiction | reflexivity]. Qed.

Lemma coerce_int_keys_ext keys payload payload' :
  (forall key, In key keys -> dict_lookup payload key = dict_lookup payload' key) ->
  forall kwargs,
    coerce_int_keys keys payload kwargs = coerce_int_keys keys payload' kwargs.
Proof.
  induction keys as [| k keys IH]; intros Hsame kwargs; [reflexivity |].
  cbn [coerce_int_keys]. rewrite !dict_mem_lookup.
  rewrite <- (Hsame k) by (left; reflexivity).
  destruct (dict_lookup payload k) as [v |].
  - destruct (_coerce_int v k 1 None) as [n | e]; [| reflexivity].
    change (coerce_int_keys keys payload (<[k := JInt n]> kwargs)
            = coerce_int_keys keys payload' (<[k := JInt n]> kwargs)).
    apply IH. intros key Hkey. apply Hsame. now right.
  - apply IH. intros key Hkey. apply Hsame. now right.
Qed.

Lemma bool_keys_ext keys payload payload' :
  (forall key, In key keys -> dict_lookup payload key = dict_lookup payload' key) ->
  forall kwargs, bool_keys keys payload kwargs = bool_keys keys payload' kwargs.
Proof.
  induction keys as [| k keys IH]; intros Hsame kwargs; [reflexivity |].
  cbn [bool_keys]. rewrite !dict_mem_lookup.
  rewrite <- (Hsame k) by (left; reflexivity).
  destruct (dict_lookup payload k) as [v |];
    apply IH; intros key Hkey; apply Hsame; now right.
Qed.

Lemma dict_lookup_snoc d k v key :
  dict_lookup (d ++ [(k, v)])%list key
  = match dict_lookup d key with
    | Some found => Some found
    | None => if String.eqb k key then Some v else None
    end.
Proof.
  induction d as [| [k' v'] d IH]; simpl; [reflexivity |].
  destruct (String.eqb k' key); [reflexivity | exact IH].
Qed.

(** [_collect_posts] sees a payload through the eleven fields it passes
    on and the limit it coerces. *)
Lemma collect_posts_ext payload payload' :
  (forall key, In key KNOWN_KWARGS ->
     dict_lookup payload key = dict_lookup payload' key) ->
  supplied_limit payload = supplied_limit payload' ->
  _collect_posts payload = _collect_posts payload'.
Proof.
  intros Hsame Hlimit.
  assert (forall key, In key KNOWN_KWARGS ->
            dict_get payload key = dict_get payload' key) as Hget.
  { intros key Hkey. unfold dict_get, dict_get_default. now rewrite Hsame. }
  assert (_extract_target payload = _extract_target payload') as Htarget.
  { rewrite !extract_target_table.
    rewrite !(Hget "account"), !(Hget "group"), !(Hget "post_urls"),
      !(Hget "hashtag") by (simpl; tauto).
    reflexivity. }
  assert (_extract_request_kwargs payload = _extract_request_kwargs payload')
    as Hkwargs.
  { rewrite !extract_request_kwargs_stages.
    rewrite (coerce_int_keys_ext INT_KEYS payload payload')
      by (intros key Hkey; apply Hsame; simpl in *; tauto).
    rewrite !(Hget "options"), !(Hget "cookies") by (simpl; tauto).
    destruct (coerce_int_keys INT_KEYS payload' ∅) as [kw |]; [| reflexivity].
    cbv zeta.
    destruct (_ && _); [reflexivity |]. destruct (_ && _); [reflexivity |].
    apply bool_keys_ext. intros key Hkey. apply Hsame. simpl in *. tauto. }
  unfold _collect_posts. fold (supplied_limit payload) (supplied_limit payload').
  rewrite Htarget, Hkwargs, Hlimit. reflexivity.
Qed.

(** X14. A field the pipeline does not know is ignored: two requests
    that agree on account, group, post_urls, hashtag, pages, page_limit,
    timeout, options, cookies, extra_info, youtube_dl and limit are
    collected in the same way, and so a request is collected as it is
    without any one unknown field. *)
Theorem unknown_fields_are_ignored payload :
  (forall payload',
      (forall key, In key KNOWN_FIELDS ->
         dict_lookup payload key = dict_lookup payload' key) ->
      _collect_posts payload = _collect_posts payload')
  /\ (forall name value,
        ~ In name KNOWN_FIELDS ->
        _collect_posts ((name, value) :: payload) = _collect_posts payload).
Proof.
  assert (forall payload',
             (forall key, In key KNOWN_FIELDS ->
                dict_lookup payload key = dict_lookup payload' key) ->
             _collect_posts payload = _collect_posts payload') as Hext.
  { intros payload' Hsame. apply collect_posts_ext.
    - intros key Hkey. apply Hsame. unfold KNOWN_FIELDS.
      apply in_or_app. now left.
    - unfold supplied_limit, dict_get_default.
      rewrite (Hsame "limit") by (simpl; tauto). reflexivity. }
  split; [exact Hext |].
  intros name value Hunknown. symmetry. apply Hext.
  intros key Hkey. symmetry. apply dict_lookup_cons_ne. congruence.
Qed.

(** X15. Leaving the limit out is the same as asking for 10: a request
    without the limit field is collected as the request with "limit": 10
    added. *)
Theorem absent_limit_is_default payload :
  dict_mem payload "limit" = false ->
  _collect_posts (payload ++ [("limit", JInt DEFAULT_LIMIT)])%list
  = _collect_posts payload.
Proof.
  intros Hmem. apply dict_mem_false_lookup in Hmem.
  apply collect_posts_ext.
  - intros key Hkey. rewrite dict_lookup_snoc.
    destruct (dict_lookup payload key); [reflexivity |].
    destruct (String.eqb_spec "limit" key) as [<- | _]; [| reflexivity].
    exfalso. simpl in Hkey. intuition discriminate.
  - unfold supplied_limit, dict_get_default.
    rewrite dict_lookup_snoc, Hmem. reflexivity.
Qed.

End Composition.

Section Preconditions.

Context `{!PythonRuntime} `{!Scraper}.

(** The body of the [try], with every check that precedes the call of
    the capability. *)
Lemma load_and_collect_checked env r trace :
  load_and_collect env = Run r trace ->
  exists calls,
    trace = EvReadBody (read_size env) :: calls
    /\ (calls = []
        \/ exists text payload field value kwargs limit k,
            body_read env <> ""
            /\ utf8_decode (body_read env) = Some text
            /\ json_loads text = Loaded (JObj payload)
            /\ _extract_target payload = Ret (field, value)
            /\ _extract_request_kwargs payload = Ret kwargs
            /\ _coerce_int (supplied_limit payload) "limit" 1 (Some MAX_LIMIT)
               = Ret limit
            /\ 1 <= limit <= MAX_LIMIT
            /\ calls = EvGetPosts (<[field := value]> kwargs) :: replicate k EvNext).
Proof.
  unfold load_and_collect.
  destruct (_load_json_body env) as [[payload | e] read |] eqn:Hload;
    [| | discriminate].
  2: { rewrite load_json_body_eq in Hload. injection Hload as _ <-.
       intros [= <- <-]. eauto. }
  destruct (load_json_body_ret _ _ _ Hload) as (-> & Hne & text & Htext & Hloaded).
  rewrite run_ret_bind.
  destruct (collect_posts_cases payload)
    as [(e & -> & _) | (field & value & kwargs & limit & Ht & Hk & Hl & Hrange & ->)].
  { intros [= <- <-]. eauto. }
  unfold collect_with.
  destruct (get_posts (<[field := value]> kwargs)) as [it | e].
  - destruct (for_post_in (S (Z.to_nat limit)) limit it []) as [r' loop |] eqn:Hloop;
      [| discriminate].
    intros [= <- <-].
    destruct (for_post_in_run _ _ _ _ _ _ Hloop) as (k & new & it' & -> & _).
    eexists. split; [reflexivity |]. right.
    exists text, payload, field, value, kwargs, limit, k. auto 10.
  - intros [= <- <-]. eexists. split; [reflexivity |]. right.
    exists text, payload, field, value, kwargs, limit, 0%nat. auto 10.
Qed.

(** X16. The capability is called only for a request that has passed
    every check: if its call is among the effects of a request, then the
    method and path were POST /posts, the content type was JSON, the bytes
    read were not empty, decoded as UTF-8 and loaded as an object, and
    that object resolved to a target, gave its options and a limit in
    [1, 100]; and the call was made with that target and those options. *)
Theorem capability_called_after_validation env r trace called_with :
  app env = Run r trace ->
  In (EvGetPosts called_with) trace ->
  request_method env = "POST" /\ request_path env = "/posts"
  /\ _is_json (CONTENT_TYPE env) = true
  /\ body_read env <> ""
  /\ exists text payload field value kwargs limit,
      utf8_decode (body_read env) = Some text
      /\ json_loads text = Loaded (JObj payload)
      /\ _extract_target payload = Ret (field, value)
      /\ _extract_request_kwargs payload = Ret kwargs
      /\ _coerce_int (supplied_limit payload) "limit" 1 (Some MAX_LIMIT) = Ret limit
      /\ 1 <= limit <= MAX_LIMIT
      /\ called_with = <[field := value]> kwargs.
Proof.
  intros Happ Hin.
  assert (request_method env = "POST" /\ request_path env = "/posts"
          /\ _handle_posts env = Run r trace) as (Hm & Hp & Hhandle).
  { revert Happ. unfold app. fold (request_method env) (request_path env).
    destruct (String.eqb_spec (request_method env) "POST") as [Hm | _];
      destruct (String.eqb_spec (request_path env) "/posts") as [Hp | _];
      repeat (rewrite ?andb_false_r, ?andb_false_l, ?andb_true_l; cbv iota;
              try match goal with
                  | |- (if ?c then _ else _) = _ -> _ => destruct c
                  end);
      try (intros [= _ <-]; contradiction).
    auto. }
  split; [exact Hm |]. split; [exact Hp |].
  revert Hhandle. unfold _handle_posts.
  destruct (_is_json (CONTENT_TYPE env)); simpl negb; cbv iota;
    [| intros [= _ <-]; contradiction].
  unfold try_except.
  destruct (load_and_collect env) as [r0 trace0 |] eqn:Hbody; [| discriminate].
  intros Hhandle. split; [reflexivity |].
  destruct (load_and_collect_checked _ _ _ Hbody) as (calls & -> & Hcalls).
  assert (forall log, trace = ((EvReadBody (read_size env) :: calls) ++ log)%list ->
                      (log = [] \/ exists e, log = [EvLogException e]) ->
                      In (EvGetPosts called_with) calls) as Hfind.
  { intros log -> Hlog. simpl in Hin.
    destruct Hin as [Hin | Hin]; [discriminate |].
    apply in_app_or in Hin as [Hin | Hin]; [exact Hin |].
    destruct Hlog as [-> | [e ->]]; [contradiction |].
    destruct Hin as [Hin | []]. discriminate. }
  assert (In (EvGetPosts called_with) calls) as Hcall.
  { revert Hhandle. destruct r0 as [posts | e].
    - intros [= _ <-]. apply (Hfind []); [reflexivity | auto].
    - destruct (except_clauses e) as [r' log |] eqn:Hlog; [| discriminate].
      intros [= _ <-]. apply (Hfind log); [reflexivity |].
      destruct (except_clauses_trace _ _ _ Hlog) as [-> | ->]; eauto. }
  destruct Hcalls
    as [-> | (text & payload & field & value & kwargs & limit & k
              & Hne & Htext & Hloaded & Ht & Hk & Hl & Hrange & ->)];
    [contradiction |].
  split; [exact Hne |].
  exists text, payload, field, value, kwargs, limit.
  destruct Hcall as [[= <-] | Hcall]; [auto 10 |].
  apply in_replicate_next in Hcall. discriminate.
Qed.

End Preconditions.

(** * Properties of the compatibility shim *)

Section Compat.

Context `{!ImportSystem}.

(** X17. When [ensure_lxml_html_clean] returns, the name lxml.html.clean
    is in [sys.modules]; a module that was there before is left alone,
    nothing else changing either; a second call changes nothing, so that
    the warning of the shim is logged at most once, and only when the shim
    was installed; the call returns unless the import raises something
    that is no [Exception]; and the shim's Cleaner returns the html it is
    given. *)
Theorem ensure_lxml_html_clean_installs st :
  (forall st', ensure_lxml_html_clean st = (Returns, st') ->
     is_Some (sys_modules st' !! LXML_HTML_CLEAN)
     /\ ensure_lxml_html_clean st' = (Returns, st')
     /\ (warnings st' = warnings st
         \/ (warnings st' = (warnings st ++ [SHIM_WARNING])%list
             /\ sys_modules st !! LXML_HTML_CLEAN = None
             /\ sys_modules st' !! LXML_HTML_CLEAN
                = Some (ShimModule LXML_HTML_CLEAN))))
  /\ (is_Some (sys_modules st !! LXML_HTML_CLEAN) ->
      ensure_lxml_html_clean st = (Returns, st))
  /\ (forall st', ensure_lxml_html_clean st = (Escapes, st') ->
        sys_modules st !! LXML_HTML_CLEAN = None
        /\ import_lxml_html_clean (sys_modules st)
           = (ImportRaisesBaseException, sys_modules st')
        /\ warnings st' = warnings st)
  /\ (forall kwargs html, clean_html (Cleaner_init kwargs) html = html).
Proof.
  assert (forall st0, is_Some (sys_modules st0 !! LXML_HTML_CLEAN) ->
                      ensure_lxml_html_clean st0 = (Returns, st0)) as Hnoop.
  { intros st0 [m Hm]. unfold ensure_lxml_html_clean. now rewrite Hm. }
  split; [| split; [apply Hnoop | split; [| reflexivity]]].
  - intros st' Hensure.
    assert (is_Some (sys_modules st' !! LXML_HTML_CLEAN)) as Hthere.
    { revert Hensure. unfold ensure_lxml_html_clean.
      destruct (sys_modules st !! LXML_HTML_CLEAN) as [m |] eqn:Hm.
      { intros [= <-]. rewrite Hm. eauto. }
      destruct (import_lxml_html_clean (sys_modules st)) as [[m | |] modules];
        intros [= <-]; simpl.
      - unfold setdefault.
        destruct (modules !! LXML_HTML_CLEAN) as [m' |] eqn:Hm'; [rewrite Hm'; eauto |].
        rewrite lookup_insert_eq. eauto.
      - rewrite lookup_insert_eq. eauto. }
    split; [exact Hthere |]. split; [apply Hnoop; exact Hthere |].
    revert Hensure. unfold ensure_lxml_html_clean.
    destruct (sys_modules st !! LXML_HTML_CLEAN) as [m |] eqn:Hm;
      [intros [= <-]; now left |].
    destruct (import_lxml_html_clean (sys_modules st)) as [[m | |] modules];
      intros [= <-]; simpl.
    + now left.
    + right. split; [reflexivity |]. split; [reflexivity |]. apply lookup_insert_eq.
  - intros st'. unfold ensure_lxml_html_clean.
    destruct (sys_modules st !! LXML_HTML_CLEAN) as [m |] eqn:Hm; [discriminate |].
    destruct (import_lxml_html_clean (sys_modules st)) as [[m | |] modules];
      intros [= <-]; auto.
Qed.

End Compat.

(** * The further properties on examples *)

(** X1 on account "nintendo" with limit 2 against three posts. *)
Lemma collect_posts_sound_witness :
  exists field value kwargs limit
         (it it' : @gen_state (list_scraper three_posts)) k,
    _extract_target [("account", JStr "nintendo"); ("limit", JInt 2)]
    = Ret (field, value)
    /\ @_extract_request_kwargs (sample_python JNull)
         [("account", JStr "nintendo"); ("limit", JInt 2)] = Ret kwargs
    /\ @_coerce_int (sample_python JNull)
         (supplied_limit [("account", JStr "nintendo"); ("limit", JInt 2)])
         "limit" 1 (Some MAX_LIMIT) = Ret limit
    /\ @get_posts (list_scraper three_posts) (<[field := value]> kwargs) = Ret it
    /\ @yields (list_scraper three_posts) it
         (List.map of_json (take 2 three_posts)) it'
    /\ Z.of_nat (length (List.map of_json (take 2 three_posts))) <= limit
       <= MAX_LIMIT
    /\ [EvGetPosts (<["account" := JStr "nintendo"]> ∅); EvNext; EvNext]
       = EvGetPosts (<[field := value]> kwargs) :: replicate k EvNext
    /\ (k = length (List.map of_json (take 2 three_posts))
        \/ (k = S (length (List.map of_json (take 2 three_posts)))
            /\ @gen_next (list_scraper three_posts) it' = GenStop)).
Proof.
  exact (@collect_posts_sound (sample_python JNull) (list_scraper three_posts)
           [("account", JStr "nintendo"); ("limit", JInt 2)]
           (List.map of_json (take 2 three_posts))
           [EvGetPosts (<["account" := JStr "nintendo"]> ∅); EvNext; EvNext]
           eq_refl).
Defined.

(** X2 on the same request, sent to the application. *)
Lemma request_trace_shape_witness :
  request_trace
    [EvReadBody (Some 2); EvGetPosts (<["account" := JStr "nintendo"]> ∅);
     EvNext; EvNext].
Proof.
  exact (@request_trace_shape (sample_python (account_nintendo (JInt 2)))
           (list_scraper three_posts) (post_request "{}")
           (Ret (@_json_response (sample_python (account_nintendo (JInt 2)))
                   HTTPStatus.OK
                   (JObj [("count", JInt 2); ("posts", JList (take 2 three_posts))])))
           [EvReadBody (Some 2); EvGetPosts (<["account" := JStr "nintendo"]> ∅);
            EvNext; EvNext]
           eq_refl).
Defined.


(** X4 on the request of the test suite. *)
Lemma capability_call_arguments_witness :
  (<["account" := JStr "nintendo"]> (∅ : gmap string json)) !! "limit" = None.
Proof.
  exact (proj2 (proj2 (proj2 (proj2 (proj2 (proj2
    (@capability_call_arguments (sample_python (account_nintendo (JInt 2)))
       (list_scraper three_posts) (post_request "{}")
       (Ret (@_json_response (sample_python (account_nintendo (JInt 2)))
               HTTPStatus.OK
               (JObj [("count", JInt 2); ("posts", JList (take 2 three_posts))])))
       [EvReadBody (Some 2); EvGetPosts (<["account" := JStr "nintendo"]> ∅);
        EvNext; EvNext]
       (<["account" := JStr "nintendo"]> ∅)
       eq_refl (or_intror (or_introl eq_refl))))))))).
Defined.

(** X5 on a capability over a list of posts of JSON values, which raises
    nothing. *)
Lemma app_always_responds_witness :
  exists r trace,
    @app (sample_python (account_nintendo (JInt 2))) (list_scraper three_posts)
      (post_request "{}") = Run (Ret r) trace
    /\ In (status r) STATUS_LINES.
Proof.
  apply (@app_always_responds (sample_python (account_nintendo (JInt 2)))
           (list_scraper three_posts) (post_request "{}")).
  - intros e [[kwargs Hcall] | [it Hnext]].
    + discriminate Hcall.
    + destruct it; discriminate Hnext.
  - intros it post it' Hnext. destruct it as [| first rest]; [discriminate Hnext |].
    injection Hnext as <- _. exists first. apply to_json_of_json.
Defined.

(** X6 on a capability that raises APIError(299, "odd"). *)
Lemma foreign_status_code_escapes_witness :
  @_handle_posts (sample_python (JObj [("account", JStr "nintendo")]))
     (raising_scraper (APIError 299 "odd")) (post_request "{}")
  = Run (Raise (OtherException "ValueError"
                  (py_str_int 299 ++ " is not a valid HTTPStatus")))
        ([EvReadBody (Some 2)]
         ++ [EvGetPosts (<["account" := JStr "nintendo"]> ∅)])%list.
Proof.
  exact (@foreign_status_code_escapes
           (sample_python (JObj [("account", JStr "nintendo")]))
           (raising_scraper (APIError 299 "odd")) (post_request "{}")
           [("account", JStr "nintendo")] [EvReadBody (Some 2)]
           "account" (JStr "nintendo") ∅ 10 299 "odd"
           eq_refl eq_refl eq_refl eq_refl eq_refl eq_refl eq_refl).
Defined.

(** X7 on account "nintendo" with the limit 1e999, which [json.loads]
    reads as the float infinity. *)
Lemma infinite_limit_is_bad_gateway_witness :
  sample_handle_posts (account_nintendo (JFloat (S754_infinity false))) three_posts
    (post_request "{}")
  = Run (Ret (@_json_response
                (sample_python (account_nintendo (JFloat (S754_infinity false))))
                HTTPStatus.BAD_GATEWAY
                (JObj [("detail", JStr "Failed to fetch posts")])))
        ([EvReadBody (Some 2)]
         ++ [EvLogException
               (OtherException "OverflowError"
                  "cannot convert float infinity to integer")])%list.
Proof.
  exact (proj1 (proj2
    (@infinite_limit_is_bad_gateway
       (sample_python (account_nintendo (JFloat (S754_infinity false))))
       (list_scraper three_posts) (post_request "{}")
       [("account", JStr "nintendo"); ("limit", JFloat (S754_infinity false))]
       [EvReadBody (Some 2)] "account" (JStr "nintendo") ∅
       eq_refl eq_refl eq_refl eq_refl))
    false eq_refl).
Defined.

(** X9 on GET /health. *)
Lemma static_routes_have_no_effect_witness :
  exists r,
    @app (sample_python JNull) (list_scraper [])
      {| REQUEST_METHOD := Some "GET"; PATH_INFO := Some "/health";
         CONTENT_TYPE := None; CONTENT_LENGTH := None; wsgi_input := None |}
    = Run (Ret r) [].
Proof.
  apply (@static_routes_have_no_effect (sample_python JNull) (list_scraper [])
           {| REQUEST_METHOD := Some "GET"; PATH_INFO := Some "/health";
              CONTENT_TYPE := None; CONTENT_LENGTH := None; wsgi_input := None |}).
  intros [Hmethod _]. discriminate Hmethod.
Defined.

(** X10 on get /docs, the method spelt in lower case. *)
Lemma docs_page_response_witness :
  @app (sample_python JNull) (list_scraper [])
    {| REQUEST_METHOD := Some "get"; PATH_INFO := Some "/docs";
       CONTENT_TYPE := None; CONTENT_LENGTH := None; wsgi_input := None |}
  = Run (Ret (_html_response SWAGGER_HTML)) [].
Proof.
  exact (proj1
    (@docs_page_response (sample_python JNull) (list_scraper [])
       {| REQUEST_METHOD := Some "get"; PATH_INFO := Some "/docs";
          CONTENT_TYPE := None; CONTENT_LENGTH := None; wsgi_input := None |}
       eq_refl eq_refl)).
Defined.

(** X11 on a content type with a charset, in mixed case. *)
Lemma is_json_iff_witness :
  _is_json (Some "Application/JSON; charset=utf-8") = true.
Proof.
  apply (proj2 (proj1 (is_json_iff (Some "Application/JSON; charset=utf-8")))).
  exists "Application/JSON; charset=utf-8", "", "; charset=utf-8".
  split; reflexivity.
Defined.

(** X12 on a stream of ten bytes of which CONTENT_LENGTH declares two. *)
Lemma body_read_is_prefix_witness :
  String.length
    (@body_read (sample_python JNull)
       {| REQUEST_METHOD := Some "POST"; PATH_INFO := Some "/posts";
          CONTENT_TYPE := Some "application/json"; CONTENT_LENGTH := Some "2";
          wsgi_input := Some "{}trailing" |})
  = Nat.min (Z.to_nat 2) (String.length "{}trailing").
Proof.
  apply (proj1 (proj2
    (@body_read_is_prefix (sample_python JNull)
       {| REQUEST_METHOD := Some "POST"; PATH_INFO := Some "/posts";
          CONTENT_TYPE := Some "application/json"; CONTENT_LENGTH := Some "2";
          wsgi_input := Some "{}trailing" |})) 2).
  - reflexivity.
  - lia.
Defined.

(** X13 on the body of the test suite's request, with the sample
    Python. *)
Lemma invoke_environ_is_read_whole_witness :
  @body_read (sample_python JNull)
    (invoke_environ "/posts" "POST" (Some "{}") "application/json")
  = "{}"
  /\ CONTENT_TYPE (invoke_environ "/posts" "POST" (Some "{}") "application/json")
     = Some "application/json".
Proof.
  apply (@invoke_environ_is_read_whole (sample_python JNull)
           "/posts" "POST" (Some "{}") "application/json").
  intros n _. apply decimal_int_of_py_str_int.
Defined.

(** X14 on a request with a field named comment. *)
Lemma unknown_fields_are_ignored_witness :
  @_collect_posts (sample_python JNull) (list_scraper three_posts)
    [("comment", JStr "hello"); ("account", JStr "nintendo")]
  = @_collect_posts (sample_python JNull) (list_scraper three_posts)
      [("account", JStr "nintendo")].
Proof.
  apply (proj2 (@unknown_fields_are_ignored (sample_python JNull)
                  (list_scraper three_posts) [("account", JStr "nintendo")])).
  simpl. intuition discriminate.
Defined.

(** X15 on the request {"account": "nintendo"}. *)
Lemma absent_limit_is_default_witness :
  @_collect_posts (sample_python JNull) (list_scraper three_posts)
    ([("account", JStr "nintendo")] ++ [("limit", JInt DEFAULT_LIMIT)])%list
  = @_collect_posts (sample_python JNull) (list_scraper three_posts)
      [("account", JStr "nintendo")].
Proof.
  exact (@absent_limit_is_default (sample_python JNull) (list_scraper three_posts)
           [("account", JStr "nintendo")] eq_refl).
Defined.

(** X16 on the request of the test suite. *)
Lemma capability_called_after_validation_witness :
  @request_method (post_request "{}") = "POST"
  /\ @request_path (post_request "{}") = "/posts"
  /\ _is_json (CONTENT_TYPE (post_request "{}")) = true
  /\ @body_read (sample_python (account_nintendo (JInt 2))) (post_request "{}") <> ""
  /\ exists text payload field value kwargs limit,
      utf8_decode (@body_read (sample_python (account_nintendo (JInt 2)))
                     (post_request "{}")) = Some text
      /\ @json_loads (sample_python (account_nintendo (JInt 2))) text
         = Loaded (JObj payload)
      /\ _extract_target payload = Ret (field, value)
      /\ @_extract_request_kwargs (sample_python (account_nintendo (JInt 2))) payload
         = Ret kwargs
      /\ @_coerce_int (sample_python (account_nintendo (JInt 2)))
           (supplied_limit payload) "limit" 1 (Some MAX_LIMIT) = Ret limit
      /\ 1 <= limit <= MAX_LIMIT
      /\ <["account" := JStr "nintendo"]> (∅ : gmap string json)
         = <[field := value]> kwargs.
Proof.
  exact (@capability_called_after_validation
           (sample_python (account_nintendo (JInt 2)))
           (list_scraper three_posts) (post_request "{}")
           (Ret (@_json_response (sample_python (account_nintendo (JInt 2)))
                   HTTPStatus.OK
                   (JObj [("count", JInt 2); ("posts", JList (take 2 three_posts))])))
           [EvReadBody (Some 2); EvGetPosts (<["account" := JStr "nintendo"]> ∅);
            EvNext; EvNext]
           (<["account" := JStr "nintendo"]> ∅)
           eq_refl (or_intror (or_introl eq_refl))).
Defined.

(** X17 on an installation without lxml_html_clean, starting from an
    interpreter that has imported nothing, and on an interpreter in which
    the module is already there. *)
Lemma ensure_lxml_html_clean_installs_witness :
  is_Some (<[LXML_HTML_CLEAN := ShimModule LXML_HTML_CLEAN]>
             (∅ : gmap string py_module) !! LXML_HTML_CLEAN)
  /\ @ensure_lxml_html_clean missing_lxml_html_clean interpreter_with_clean
     = (Returns, interpreter_with_clean).
Proof.
  split.
  - exact (proj1 (proj1
      (@ensure_lxml_html_clean_installs missing_lxml_html_clean fresh_interpreter)
      {| sys_modules := <[LXML_HTML_CLEAN := ShimModule LXML_HTML_CLEAN]> ∅;
         warnings := [SHIM_WARNING] |}
      eq_refl)).
  - apply (proj1 (proj2
      (@ensure_lxml_html_clean_installs missing_lxml_html_clean
         interpreter_with_clean))).
    eexists. reflexivity.
Defined.
